(** * raydium-quoter: quote engine, account decoders and curve economics

    A shallow embedding of the TypeScript sources

    - [quoteCalculator]  (constant-product swap quotes),
    - [pumpfunBondingCurveFetcher]  (single-mint bonding curve),
    - [launchpadBondingCurveFetcher] (dual-mint launchpad pool),
    - [poolFetcher]  (the pool cache and the SDK instance),
    - [index]  (the calculator class),
    - the account builder of [pumpfunBondingCurveFetcher.test],

    together with the parts of the three libraries they compute with:
    [bn.js] integers, [decimal.js-light] decimals and JavaScript numbers.

    Conventions.  A [BN] is an unbounded signed integer, hence a [Z]; its
    [div] truncates toward zero and asserts a non-zero divisor.  A [Decimal]
    is a coefficient and a power of ten; every arithmetic result is cut to
    [precision] = 20 significant digits, the library default that the
    sources never change.  A JavaScript [number] that takes part in
    floating-point arithmetic (the slippage tolerance) is a binary64
    [float].  Thrown exceptions are the [Err] branch of [result]. *)

From Stdlib Require Import ZArith QArith Qabs Qpower List Bool Lia Psatz.
From Stdlib Require Import Strings.Byte Strings.String.
From Stdlib Require Import PrimFloat FloatOps SpecFloat.
Import ListNotations.

Set Implicit Arguments.
Open Scope Z_scope.

(* ================================================================== *)
(** ** Exceptions as values *)

Inductive error : Type :=
| AccountNotFound        (* "... account not found: <address>" *)
| OwnershipMismatch      (* "Account <address> is not owned by the ... program" *)
| UnknownCurveType       (* "Unknown curve type: <raw>" *)
| InsufficientReserve    (* "Output amount (..) exceeds pool reserve (..)" *)
| BNAssertion            (* bn.js [assert]: zero divisor, unsafe or malformed number *)
| DecimalDivisionByZero  (* "[DecimalError] Division by zero" *)
| DecimalInvalidArgument (* "[DecimalError] Invalid argument: .." *)
| InvalidPublicKey       (* [new PublicKey(string)]: "Non-base58 character", "Invalid public key input" *).

Inductive result (A : Type) : Type :=
| Ok  : A -> result A
| Err : error -> result A.

Arguments Ok {A} _.
Arguments Err {A} _.

Definition bind {A B : Type} (m : result A) (k : A -> result B) : result B :=
  match m with
  | Ok a => k a
  | Err e => Err e
  end.

Notation "x <- m ;; k" := (bind m (fun x => k))
  (at level 61, m at next level, right associativity).

(* ================================================================== *)
(** ** bn.js *)

Module BN.

Definition t := Z.

(** [a.div(b)]: quotient truncated toward zero; [divmod] starts with
    [assert(!num.isZero())]. *)
Definition div (a b : t) : result t :=
  if b =? 0 then Err BNAssertion else Ok (Z.quot a b).

(** [a.gte(b)] *)
Definition gte (a b : t) : bool := b <=? a.

(** [a.isZero()] *)
Definition isZero (a : t) : bool := a =? 0.

(** [new BN(bytes, "le")]: little-endian value of a byte array, zero for
    the empty array. *)
Fixpoint of_le (bs : list byte) : t :=
  match bs with
  | [] => 0
  | b :: bs' => Z.of_N (Byte.to_N b) + 256 * of_le bs'
  end.

(** [new BN(bytes)]: big-endian value of a byte array. *)
Definition of_be (bs : list byte) : t :=
  fold_left (fun acc b => 256 * acc + Z.of_N (Byte.to_N b)) bs 0.

End BN.

(* ================================================================== *)
(** ** JavaScript numbers *)

Module JS.

(** The numbers [Math.floor] can return. *)
Inductive integral : Type :=
| Int (v : Z)
| Infinite
| NaN.

(** [Math.floor(x)] *)
Definition Math_floor (x : float) : integral :=
  match Prim2SF x with
  | S754_zero _ => Int 0
  | S754_finite s m e =>
      let v := if s then Z.neg m else Z.pos m in
      Int (if 0 <=? e then Z.shiftl v e else Z.shiftr v (- e))
  | S754_infinity _ => Infinite
  | S754_nan => NaN
  end.

(** [new BN(n)] for such a number.  The constructor passes [n || 0] to
    [_init], so NaN is read as 0; [_initNumber] asserts [|n| < 2^53]. *)
Definition to_BN (n : integral) : result BN.t :=
  match n with
  | Int v => if Z.abs v <? 2 ^ 53 then Ok v else Err BNAssertion
  | Infinite => Err BNAssertion
  | NaN => Ok 0
  end.

(** [a - b] for the single-byte numbers read from a buffer: [None] is
    [undefined], an index past the end, and the NaN it turns into. *)
Definition sub (a b : option Z) : option Z :=
  match a, b with
  | Some x, Some y => Some (x - y)
  | _, _ => None
  end.

End JS.

(* ================================================================== *)
(** ** decimal.js-light *)

Module Decimal.

(** The value [coef * 10 ^ expo]. *)
Record t : Type := mk { coef : Z; expo : Z }.

(** [Decimal.precision], the number of significant digits that the
    arithmetic operations keep. *)
Definition precision : Z := 20.

(** [Decimal.toExpPos]: [toString] switches to exponential notation at
    this decimal exponent. *)
Definition toExpPos : Z := 21.

Definition value (d : t) : Q := inject_Z (coef d) * (10 ^ expo d)%Q.

(** [new Decimal(bn.toString())], [new Decimal(100)] *)
Definition of_Z (n : Z) : t := mk n 0.

(** [new Decimal(10).pow(n)] and [Math.pow(10, n)] read as a decimal,
    for an integer [n]. *)
Definition pow10 (n : Z) : t := mk 1 n.

Definition isZero (d : t) : bool := coef d =? 0.

Definition abs (d : t) : t := mk (Z.abs (coef d)) (expo d).

(** Number of decimal digits of a positive integer. *)
Fixpoint ndigits_aux (fuel : nat) (n : Z) : Z :=
  match fuel with
  | O => 1
  | S f => if n <? 10 then 1 else 1 + ndigits_aux f (n / 10)
  end.

Definition ndigits (n : Z) : Z := ndigits_aux (Z.to_nat (Z.log2 n)) n.

(** [round(x, precision)] as [plus], [minus], [times] and [divide] call
    it, without a rounding mode: the digits past [precision] are dropped,
    the result is "truncated to precision significant digits". *)
Definition round (d : t) : t :=
  let a := Z.abs (coef d) in
  let k := ndigits a - precision in
  if k <=? 0 then d
  else mk (Z.sgn (coef d) * (a / 10 ^ k)) (expo d + k).

(** [x.mul(y)] *)
Definition mul (x y : t) : t :=
  round (mk (coef x * coef y) (expo x + expo y)).

(** [x.sub(y)] *)
Definition sub (x y : t) : t :=
  let e := Z.min (expo x) (expo y) in
  round (mk (coef x * 10 ^ (expo x - e) - coef y * 10 ^ (expo y - e)) e).

(** [x.div(y)].  [divide] begins
      [if (!x.s) return new Ctor(x);]
      [if (!y.s) throw Error(decimalError + 'Division by zero');]
    Otherwise the quotient is developed to more than [precision] digits
    (with [s] digits of scaling the integer quotient [q] is at least
    [10 ^ precision]) and the digits past [precision] are dropped. *)
Definition div (x y : t) : result t :=
  if isZero x then Ok x
  else if isZero y then Err DecimalDivisionByZero
  else
    let s := precision + ndigits (Z.abs (coef y)) in
    let q := (Z.abs (coef x) * 10 ^ s) / Z.abs (coef y) in
    Ok (round (mk (Z.sgn (coef x) * Z.sgn (coef y) * q)
                  (expo x - expo y - s))).

(** [x.mul(n)] for a JavaScript number [n] that is a power of ten or
    NaN ([None]): the argument goes through [new Decimal(n)], which
    rejects NaN. *)
Definition mul_number (x : t) (n : option t) : result t :=
  match n with
  | Some y => Ok (mul x y)
  | None => Err DecimalInvalidArgument
  end.

(** [new Decimal(10).pow(n)] for a number [n] read from a buffer:
    [undefined] is not a valid argument. *)
Definition pow10_number (n : option Z) : result t :=
  match n with
  | Some v => Ok (pow10 v)
  | None => Err DecimalInvalidArgument
  end.

(** [Math.pow(10, n)] as the decimal that [new Decimal] reads from it:
    the double is taken at the power of ten it stands for, and is NaN
    ([None]) when [n] is.  The double that an engine returns need not be
    the one nearest to that power ([Math.pow(10, -4)] may print as
    0.00009999999999999999), and this definition does not follow it: it
    decides whether a price is returned or an exception thrown, which
    does not depend on the digits of the double, and no statement below
    rests on the digits of a price that was computed through it. *)
Definition Math_pow10 (n : option Z) : option t := option_map pow10 n.

(** [x.toDecimalPlaces(0, Decimal.ROUND_DOWN)]: drop the fraction. *)
Definition truncate (d : t) : t :=
  if 0 <=? expo d then d else mk (Z.quot (coef d) (10 ^ (- expo d))) 0.

(** [new BN(d.toString())] for an integral [d].  From [10 ^ toExpPos] on
    [toString] prints exponential notation ("1e+21"), which is not a
    base-10 numeral for [BN]. *)
Definition to_BN (d : t) : result BN.t :=
  let v := coef d * 10 ^ expo d in
  if Z.abs v <? 10 ^ toExpPos then Ok v else Err BNAssertion.

End Decimal.

(* ================================================================== *)
(** ** types.ts *)

(** A [PublicKey] is its 256-bit number [_bn]. *)
Definition PublicKey : Type := Z.

Module TokenInfo.
Record t : Type := mk { mint : PublicKey; decimals : Z; symbol : option string }.
End TokenInfo.

Module FeeConfig.
Record t : Type :=
  mk { tradeFeeRate : BN.t; protocolFeeRate : BN.t; fundFeeRate : BN.t }.
End FeeConfig.

Module PoolData.
Record t : Type := mk {
  id : PublicKey;
  mintA : TokenInfo.t;
  mintB : TokenInfo.t;
  baseReserve : BN.t;
  quoteReserve : BN.t;
  feeConfig : FeeConfig.t;
  fetchedAt : Z
}.
End PoolData.

Inductive SwapDirection : Type := solToToken | tokenToSol.

Module QuoteResult.
Record t : Type := mk {
  amountIn : BN.t;
  amountOut : BN.t;
  minAmountOut : BN.t;
  maxAmountIn : BN.t;
  fee : BN.t;
  priceImpact : Decimal.t;
  executionPrice : Decimal.t;
  currentPrice : Decimal.t;
  direction : SwapDirection
}.
End QuoteResult.

(** The amount of a request, [number | string], is the decimal that
    [new Decimal(amount)] reads from it. *)
Module ExactInputQuoteParams.
Record t : Type := mk {
  poolData : PoolData.t;
  amountIn : Decimal.t;
  slippage : float;
  direction : SwapDirection
}.
End ExactInputQuoteParams.

Module ExactOutputQuoteParams.
Record t : Type := mk {
  poolData : PoolData.t;
  amountOut : Decimal.t;
  slippage : float;
  direction : SwapDirection
}.
End ExactOutputQuoteParams.

Inductive CurveType : Type := ConstantProduct | FixedPrice | LinearPrice.

(* ================================================================== *)
(** ** quoteCalculator.ts *)

Module Quote.

Definition FEE_RATE_DENOMINATOR : BN.t := 1000000.

Definition toRawAmount (amount : Decimal.t) (decimals : Z) : result BN.t :=
  let multiplier := Decimal.pow10 decimals in
  let raw := Decimal.truncate (Decimal.mul amount multiplier) in
  Decimal.to_BN raw.

Definition toHumanAmount (amount : BN.t) (decimals : Z) : result Decimal.t :=
  let divisor := Decimal.pow10 decimals in
  Decimal.div (Decimal.of_Z amount) divisor.

Definition calculateFee (amount feeRate : BN.t) : result BN.t :=
  BN.div (amount * feeRate) FEE_RATE_DENOMINATOR.

Definition ceilDiv (a b : BN.t) : result BN.t :=
  BN.div (a + (b - 1)) b.

Definition calculateSwapOutput (inputAmount inputReserve outputReserve : BN.t)
  : result BN.t :=
  let numerator := inputAmount * outputReserve in
  let denominator := inputReserve + inputAmount in
  BN.div numerator denominator.

Definition calculateSwapInput (outputAmount inputReserve outputReserve : BN.t)
  : result BN.t :=
  let numerator := inputReserve * outputAmount in
  let denominator := outputReserve - outputAmount in
  ceilDiv numerator denominator.

Record Reserves : Type := mkReserves {
  inputReserve : BN.t;
  outputReserve : BN.t;
  inputDecimals : Z;
  outputDecimals : Z
}.

Definition getReserves (poolData : PoolData.t) (direction : SwapDirection)
  : Reserves :=
  match direction with
  | solToToken =>
      {| inputReserve := PoolData.quoteReserve poolData;
         outputReserve := PoolData.baseReserve poolData;
         inputDecimals := TokenInfo.decimals (PoolData.mintB poolData);
         outputDecimals := TokenInfo.decimals (PoolData.mintA poolData) |}
  | tokenToSol =>
      {| inputReserve := PoolData.baseReserve poolData;
         outputReserve := PoolData.quoteReserve poolData;
         inputDecimals := TokenInfo.decimals (PoolData.mintA poolData);
         outputDecimals := TokenInfo.decimals (PoolData.mintB poolData) |}
  end.

Definition calculateCurrentPrice (poolData : PoolData.t) : result Decimal.t :=
  let baseDecimal := Decimal.of_Z (PoolData.baseReserve poolData) in
  let quoteDecimal := Decimal.of_Z (PoolData.quoteReserve poolData) in
  let decimalAdjustment :=
    Decimal.pow10 (TokenInfo.decimals (PoolData.mintA poolData)
                   - TokenInfo.decimals (PoolData.mintB poolData)) in
  ratio <- Decimal.div quoteDecimal baseDecimal ;;
  Ok (Decimal.mul ratio decimalAdjustment).

Definition calculatePriceImpact
    (currentPrice executionPrice : Decimal.t) (direction : SwapDirection)
  : result Decimal.t :=
  match direction with
  | solToToken =>
      r <- Decimal.div (Decimal.sub executionPrice currentPrice) currentPrice ;;
      Ok (Decimal.abs r)
  | tokenToSol =>
      r <- Decimal.div (Decimal.sub currentPrice executionPrice) currentPrice ;;
      Ok (Decimal.abs r)
  end.

(** [new BN(Math.floor(slippage * 1_000_000))] *)
Definition slippageRate (slippage : float) : result BN.t :=
  JS.to_BN (JS.Math_floor (slippage * 1000000)%float).

Definition calculateExactInputQuote (params : ExactInputQuoteParams.t)
  : result QuoteResult.t :=
  let poolData := ExactInputQuoteParams.poolData params in
  let amountIn := ExactInputQuoteParams.amountIn params in
  let slippage := ExactInputQuoteParams.slippage params in
  let direction := ExactInputQuoteParams.direction params in
  let r := getReserves poolData direction in
  rawAmountIn <- toRawAmount amountIn (inputDecimals r) ;;
  fee <- calculateFee rawAmountIn
           (FeeConfig.tradeFeeRate (PoolData.feeConfig poolData)) ;;
  let amountInAfterFee := rawAmountIn - fee in
  rawAmountOut <-
    calculateSwapOutput amountInAfterFee (inputReserve r) (outputReserve r) ;;
  slippageBN <- slippageRate slippage ;;
  slippageAmount <- BN.div (rawAmountOut * slippageBN) FEE_RATE_DENOMINATOR ;;
  let minAmountOut := rawAmountOut - slippageAmount in
  currentPrice <- calculateCurrentPrice poolData ;;
  inputHuman <- toHumanAmount rawAmountIn (inputDecimals r) ;;
  outputHuman <- toHumanAmount rawAmountOut (outputDecimals r) ;;
  executionPrice <-
    match direction with
    | solToToken => Decimal.div inputHuman outputHuman
    | tokenToSol => Decimal.div outputHuman inputHuman
    end ;;
  priceImpact <- calculatePriceImpact currentPrice executionPrice direction ;;
  Ok {| QuoteResult.amountIn := rawAmountIn;
        QuoteResult.amountOut := rawAmountOut;
        QuoteResult.minAmountOut := minAmountOut;
        QuoteResult.maxAmountIn := rawAmountIn;
        QuoteResult.fee := fee;
        QuoteResult.priceImpact := priceImpact;
        QuoteResult.executionPrice := executionPrice;
        QuoteResult.currentPrice := currentPrice;
        QuoteResult.direction := direction |}.

Definition calculateExactOutputQuote (params : ExactOutputQuoteParams.t)
  : result QuoteResult.t :=
  let poolData := ExactOutputQuoteParams.poolData params in
  let amountOut := ExactOutputQuoteParams.amountOut params in
  let slippage := ExactOutputQuoteParams.slippage params in
  let direction := ExactOutputQuoteParams.direction params in
  let r := getReserves poolData direction in
  rawAmountOut <- toRawAmount amountOut (outputDecimals r) ;;
  if BN.gte rawAmountOut (outputReserve r) then Err InsufficientReserve
  else
    amountInBeforeFee <-
      calculateSwapInput rawAmountOut (inputReserve r) (outputReserve r) ;;
    let feeRateDenomMinusFee :=
      FEE_RATE_DENOMINATOR
      - FeeConfig.tradeFeeRate (PoolData.feeConfig poolData) in
    rawAmountIn <-
      ceilDiv (amountInBeforeFee * FEE_RATE_DENOMINATOR) feeRateDenomMinusFee ;;
    let fee := rawAmountIn - amountInBeforeFee in
    slippageBN <- slippageRate slippage ;;
    slippageAmount <- BN.div (rawAmountIn * slippageBN) FEE_RATE_DENOMINATOR ;;
    let maxAmountIn := rawAmountIn + slippageAmount in
    currentPrice <- calculateCurrentPrice poolData ;;
    inputHuman <- toHumanAmount rawAmountIn (inputDecimals r) ;;
    outputHuman <- toHumanAmount rawAmountOut (outputDecimals r) ;;
    executionPrice <-
      match direction with
      | solToToken => Decimal.div inputHuman outputHuman
      | tokenToSol => Decimal.div outputHuman inputHuman
      end ;;
    priceImpact <- calculatePriceImpact currentPrice executionPrice direction ;;
    Ok {| QuoteResult.amountIn := rawAmountIn;
          QuoteResult.amountOut := rawAmountOut;
          QuoteResult.minAmountOut := rawAmountOut;
          QuoteResult.maxAmountIn := maxAmountIn;
          QuoteResult.fee := fee;
          QuoteResult.priceImpact := priceImpact;
          QuoteResult.executionPrice := executionPrice;
          QuoteResult.currentPrice := currentPrice;
          QuoteResult.direction := direction |}.

(** [amounts.map(...)]: the first quote that throws aborts the batch. *)
Fixpoint mapM {A B : Type} (f : A -> result B) (l : list A) : result (list B) :=
  match l with
  | [] => Ok []
  | a :: l' => b <- f a ;; bs <- mapM f l' ;; Ok (b :: bs)
  end.

Definition calculateMultipleQuotes
    (poolData : PoolData.t) (amounts : list Decimal.t) (slippage : float)
    (direction : SwapDirection) (isExactInput : bool)
  : result (list QuoteResult.t) :=
  mapM (fun amount =>
          if isExactInput then
            calculateExactInputQuote
              {| ExactInputQuoteParams.poolData := poolData;
                 ExactInputQuoteParams.amountIn := amount;
                 ExactInputQuoteParams.slippage := slippage;
                 ExactInputQuoteParams.direction := direction |}
          else
            calculateExactOutputQuote
              {| ExactOutputQuoteParams.poolData := poolData;
                 ExactOutputQuoteParams.amountOut := amount;
                 ExactOutputQuoteParams.slippage := slippage;
                 ExactOutputQuoteParams.direction := direction |})
       amounts.

End Quote.

(* ================================================================== *)
(** ** Account data *)

Module Buffer.

Definition t : Type := list byte.

(** [data.subarray(start, end)], clamped to the buffer. *)
Definition subarray (data : t) (start stop : nat) : t :=
  firstn (stop - start) (skipn start data).

(** [data[offset]]: [None] is [undefined], an index past the end. *)
Definition get (data : t) (offset : nat) : option Z :=
  option_map (fun b => Z.of_N (Byte.to_N b)) (nth_error data offset).

(** [Buffer.alloc(n)] *)
Definition alloc (n : nat) : t := repeat x00 n.

End Buffer.

Module AccountInfo.
Record t : Type := mk {
  data : Buffer.t;
  owner : PublicKey;
  lamports : Z;
  executable : bool;
  rentEpoch : Z
}.
End AccountInfo.

(** [connection.getAccountInfo(pubkey)]: the account, or [null]. *)
Definition Connection : Type := PublicKey -> option AccountInfo.t.

(* ================================================================== *)
(** ** pumpfunBondingCurveFetcher.ts *)

Module PumpFun.

(** 6EF8rrecthR5Dkzon8Nwu78hRvfCKubJ14M5uBEwF6P *)
Definition PUMPFUN_PROGRAM : PublicKey :=
  605814335005781813025241542787157911726959411820757128006101511735853521072.

Definition DISCRIMINATOR_SIZE : nat := 8.

Module BONDING_CURVE_OFFSETS.
Definition virtualTokenReserves : nat := 8.
Definition virtualSolReserves : nat := 16.
Definition realTokenReserves : nat := 24.
Definition realSolReserves : nat := 32.
Definition tokenTotalSupply : nat := 40.
Definition complete : nat := 48.
End BONDING_CURVE_OFFSETS.

Definition PUMPFUN_GRADUATION_TARGET : BN.t := 85000000000.
Definition TOKEN_DECIMALS : Z := 6.
Definition SOL_DECIMALS : Z := 9.

Module PumpFunBondingCurveAccount.
Record t : Type := mk {
  virtualTokenReserves : BN.t;
  virtualSolReserves : BN.t;
  realTokenReserves : BN.t;
  realSolReserves : BN.t;
  tokenTotalSupply : BN.t;
  complete : bool
}.
End PumpFunBondingCurveAccount.

Module PumpFunBondingCurveInfo.
Record t : Type := mk {
  bondingPercentage : Decimal.t;
  currentPrice : Decimal.t;
  graduationPrice : Decimal.t;
  graduationMcap : Decimal.t;
  totalFundRaisingSOL : Decimal.t;
  raisedSoFar : Decimal.t;
  remainingToRaise : Decimal.t;
  complete : bool;
  virtualTokenReserves : Decimal.t;
  virtualSolReserves : Decimal.t;
  realTokenReserves : Decimal.t;
  realSolReserves : Decimal.t
}.
End PumpFunBondingCurveInfo.

Definition readU64 (data : Buffer.t) (offset : nat) : BN.t :=
  BN.of_le (Buffer.subarray data offset (offset + 8)).

(** [data[offset] !== 0]; [undefined !== 0] holds. *)
Definition readBool (data : Buffer.t) (offset : nat) : bool :=
  match Buffer.get data offset with
  | Some v => negb (v =? 0)
  | None => true
  end.

Definition deserializePumpFunBondingCurve (data : Buffer.t)
  : PumpFunBondingCurveAccount.t :=
  {| PumpFunBondingCurveAccount.virtualTokenReserves :=
       readU64 data BONDING_CURVE_OFFSETS.virtualTokenReserves;
     PumpFunBondingCurveAccount.virtualSolReserves :=
       readU64 data BONDING_CURVE_OFFSETS.virtualSolReserves;
     PumpFunBondingCurveAccount.realTokenReserves :=
       readU64 data BONDING_CURVE_OFFSETS.realTokenReserves;
     PumpFunBondingCurveAccount.realSolReserves :=
       readU64 data BONDING_CURVE_OFFSETS.realSolReserves;
     PumpFunBondingCurveAccount.tokenTotalSupply :=
       readU64 data BONDING_CURVE_OFFSETS.tokenTotalSupply;
     PumpFunBondingCurveAccount.complete :=
       readBool data BONDING_CURVE_OFFSETS.complete |}.

Definition calculateCurrentPrice (curve : PumpFunBondingCurveAccount.t)
  : result Decimal.t :=
  let effectiveSol :=
    Decimal.of_Z (PumpFunBondingCurveAccount.virtualSolReserves curve
                  + PumpFunBondingCurveAccount.realSolReserves curve) in
  let effectiveToken :=
    Decimal.of_Z (PumpFunBondingCurveAccount.virtualTokenReserves curve
                  - PumpFunBondingCurveAccount.realTokenReserves curve) in
  if Decimal.isZero effectiveToken then Ok (Decimal.of_Z 0)
  else
    let decimalAdj := Decimal.Math_pow10 (Some (TOKEN_DECIMALS - SOL_DECIMALS)) in
    ratio <- Decimal.div effectiveSol effectiveToken ;;
    Decimal.mul_number ratio decimalAdj.

Definition calculateGraduationPrice (curve : PumpFunBondingCurveAccount.t)
  : result Decimal.t :=
  let graduationSol :=
    Decimal.of_Z (PumpFunBondingCurveAccount.virtualSolReserves curve
                  + PUMPFUN_GRADUATION_TARGET) in
  let currentK :=
    Decimal.mul
      (Decimal.of_Z (PumpFunBondingCurveAccount.virtualSolReserves curve
                     + PumpFunBondingCurveAccount.realSolReserves curve))
      (Decimal.of_Z (PumpFunBondingCurveAccount.virtualTokenReserves curve
                     - PumpFunBondingCurveAccount.realTokenReserves curve)) in
  graduationTokens <- Decimal.div currentK graduationSol ;;
  if Decimal.isZero graduationTokens then Ok (Decimal.of_Z 0)
  else
    let decimalAdj := Decimal.Math_pow10 (Some (TOKEN_DECIMALS - SOL_DECIMALS)) in
    ratio <- Decimal.div graduationSol graduationTokens ;;
    Decimal.mul_number ratio decimalAdj.

Definition fetchPumpFunBondingCurveAccount
    (connection : Connection) (bondingCurveAddress : PublicKey)
  : result PumpFunBondingCurveAccount.t :=
  let pubkey := bondingCurveAddress in
  match connection pubkey with
  | None => Err AccountNotFound
  | Some accountInfo =>
      if negb (AccountInfo.owner accountInfo =? PUMPFUN_PROGRAM)
      then Err OwnershipMismatch
      else Ok (deserializePumpFunBondingCurve (AccountInfo.data accountInfo))
  end.

(** The bonding percentage of [fetchPumpFunBondingCurveInfo]. *)
Definition bondingPercentage (curve : PumpFunBondingCurveAccount.t)
  : result Decimal.t :=
  ratio <- Decimal.div
             (Decimal.of_Z (PumpFunBondingCurveAccount.realSolReserves curve))
             (Decimal.of_Z PUMPFUN_GRADUATION_TARGET) ;;
  Ok (Decimal.mul ratio (Decimal.of_Z 100)).

Definition fetchPumpFunBondingCurveInfo
    (connection : Connection) (bondingCurveAddress : PublicKey)
  : result PumpFunBondingCurveInfo.t :=
  curve <- fetchPumpFunBondingCurveAccount connection bondingCurveAddress ;;
  bondingPercentage <- bondingPercentage curve ;;
  currentPrice <- calculateCurrentPrice curve ;;
  graduationPrice <- calculateGraduationPrice curve ;;
  totalSupplyHuman <-
    Decimal.div
      (Decimal.of_Z (PumpFunBondingCurveAccount.tokenTotalSupply curve))
      (Decimal.pow10 TOKEN_DECIMALS) ;;
  let graduationMcap := Decimal.mul graduationPrice totalSupplyHuman in
  totalFundRaisingSOL <-
    Decimal.div (Decimal.of_Z PUMPFUN_GRADUATION_TARGET)
                (Decimal.pow10 SOL_DECIMALS) ;;
  raisedSoFar <-
    Decimal.div
      (Decimal.of_Z (PumpFunBondingCurveAccount.realSolReserves curve))
      (Decimal.pow10 SOL_DECIMALS) ;;
  let remainingToRaise := Decimal.sub totalFundRaisingSOL raisedSoFar in
  virtualTokenReserves <-
    Decimal.div
      (Decimal.of_Z (PumpFunBondingCurveAccount.virtualTokenReserves curve))
      (Decimal.pow10 TOKEN_DECIMALS) ;;
  virtualSolReserves <-
    Decimal.div
      (Decimal.of_Z (PumpFunBondingCurveAccount.virtualSolReserves curve))
      (Decimal.pow10 SOL_DECIMALS) ;;
  realTokenReserves <-
    Decimal.div
      (Decimal.of_Z (PumpFunBondingCurveAccount.realTokenReserves curve))
      (Decimal.pow10 TOKEN_DECIMALS) ;;
  realSolReserves <-
    Decimal.div
      (Decimal.of_Z (PumpFunBondingCurveAccount.realSolReserves curve))
      (Decimal.pow10 SOL_DECIMALS) ;;
  Ok {| PumpFunBondingCurveInfo.bondingPercentage := bondingPercentage;
        PumpFunBondingCurveInfo.currentPrice := currentPrice;
        PumpFunBondingCurveInfo.graduationPrice := graduationPrice;
        PumpFunBondingCurveInfo.graduationMcap := graduationMcap;
        PumpFunBondingCurveInfo.totalFundRaisingSOL := totalFundRaisingSOL;
        PumpFunBondingCurveInfo.raisedSoFar := raisedSoFar;
        PumpFunBondingCurveInfo.remainingToRaise := remainingToRaise;
        PumpFunBondingCurveInfo.complete :=
          PumpFunBondingCurveAccount.complete curve;
        PumpFunBondingCurveInfo.virtualTokenReserves := virtualTokenReserves;
        PumpFunBondingCurveInfo.virtualSolReserves := virtualSolReserves;
        PumpFunBondingCurveInfo.realTokenReserves := realTokenReserves;
        PumpFunBondingCurveInfo.realSolReserves := realSolReserves |}.

End PumpFun.

(* ================================================================== *)
(** ** launchpadBondingCurveFetcher.ts *)

Module Launchpad.

(** LanMV9sAd7wArD4vJFi2qDdfnVhFxYSUg6eADduJ3uj *)
Definition LAUNCHPAD_PROGRAM : PublicKey :=
  2269042859434166448385157605447593008716662538106545696250340109426254530850.

Module POOL_OFFSETS.
Definition bump : nat := 16.
Definition status : nat := 17.
Definition mintDecimalsA : nat := 18.
Definition mintDecimalsB : nat := 19.
Definition migrateType : nat := 20.
Definition supply : nat := 21.
Definition totalSellA : nat := 29.
Definition virtualA : nat := 37.
Definition virtualB : nat := 45.
Definition realA : nat := 53.
Definition realB : nat := 61.
Definition totalFundRaisingB : nat := 69.
Definition protocolFee : nat := 77.
Definition platformFee : nat := 85.
Definition migrateFee : nat := 93.
Definition totalLockedAmount : nat := 101.
Definition cliffPeriod : nat := 109.
Definition unlockPeriod : nat := 117.
Definition startTime : nat := 125.
Definition totalAllocatedShare : nat := 133.
Definition configId : nat := 141.
Definition platformId : nat := 173.
Definition mintA : nat := 205.
Definition mintB : nat := 237.
Definition vaultA : nat := 269.
Definition vaultB : nat := 301.
Definition creator : nat := 333.
End POOL_OFFSETS.

Module CONFIG_OFFSETS.
Definition curveType : nat := 16.
Definition index : nat := 17.
Definition migrateFee : nat := 19.
Definition tradeFeeRate : nat := 27.
End CONFIG_OFFSETS.

(** The single-byte fields are JavaScript numbers: [None] is the
    [undefined] that indexing past the end of the buffer yields. *)
Module LaunchpadPoolAccount.
Record t : Type := mk {
  status : option Z;
  mintDecimalsA : option Z;
  mintDecimalsB : option Z;
  migrateType : option Z;
  supply : BN.t;
  totalSellA : BN.t;
  virtualA : BN.t;
  virtualB : BN.t;
  realA : BN.t;
  realB : BN.t;
  totalFundRaisingB : BN.t;
  migrateFee : BN.t;
  totalLockedAmount : BN.t;
  configId : PublicKey;
  platformId : PublicKey;
  mintA : PublicKey;
  mintB : PublicKey;
  creator : PublicKey
}.
End LaunchpadPoolAccount.

Inductive MigrateType : Type := amm | cpmm.

Definition CURVE_TYPE_LABELS (c : CurveType) : string :=
  match c with
  | ConstantProduct => "Constant Product"
  | FixedPrice => "Fixed Price"
  | LinearPrice => "Linear Price"
  end.

Module BondingCurveInfo.
Record t : Type := mk {
  curveType : CurveType;
  curveTypeLabel : string;
  bondingPercentage : Decimal.t;
  currentPrice : Decimal.t;
  graduationPrice : Decimal.t;
  graduationMcap : Decimal.t;
  totalFundRaisingB : Decimal.t;
  raisedSoFar : Decimal.t;
  remainingToRaise : Decimal.t;
  poolStatus : option Z;
  migrateType : MigrateType
}.
End BondingCurveInfo.

Definition readU8 (data : Buffer.t) (offset : nat) : option Z :=
  Buffer.get data offset.

Definition readU64 (data : Buffer.t) (offset : nat) : BN.t :=
  BN.of_le (Buffer.subarray data offset (offset + 8)).

(** [new PublicKey(bytes)] keeps [new BN(bytes)] and rejects more than
    32 bytes, which a 32-byte [subarray] never has. *)
Definition readPublicKey (data : Buffer.t) (offset : nat) : PublicKey :=
  BN.of_be (Buffer.subarray data offset (offset + 32)).

Definition deserializeLaunchpadPool (data : Buffer.t) : LaunchpadPoolAccount.t :=
  {| LaunchpadPoolAccount.status := readU8 data POOL_OFFSETS.status;
     LaunchpadPoolAccount.mintDecimalsA := readU8 data POOL_OFFSETS.mintDecimalsA;
     LaunchpadPoolAccount.mintDecimalsB := readU8 data POOL_OFFSETS.mintDecimalsB;
     LaunchpadPoolAccount.migrateType := readU8 data POOL_OFFSETS.migrateType;
     LaunchpadPoolAccount.supply := readU64 data POOL_OFFSETS.supply;
     LaunchpadPoolAccount.totalSellA := readU64 data POOL_OFFSETS.totalSellA;
     LaunchpadPoolAccount.virtualA := readU64 data POOL_OFFSETS.virtualA;
     LaunchpadPoolAccount.virtualB := readU64 data POOL_OFFSETS.virtualB;
     LaunchpadPoolAccount.realA := readU64 data POOL_OFFSETS.realA;
     LaunchpadPoolAccount.realB := readU64 data POOL_OFFSETS.realB;
     LaunchpadPoolAccount.totalFundRaisingB :=
       readU64 data POOL_OFFSETS.totalFundRaisingB;
     LaunchpadPoolAccount.migrateFee := readU64 data POOL_OFFSETS.migrateFee;
     LaunchpadPoolAccount.totalLockedAmount :=
       readU64 data POOL_OFFSETS.totalLockedAmount;
     LaunchpadPoolAccount.configId := readPublicKey data POOL_OFFSETS.configId;
     LaunchpadPoolAccount.platformId := readPublicKey data POOL_OFFSETS.platformId;
     LaunchpadPoolAccount.mintA := readPublicKey data POOL_OFFSETS.mintA;
     LaunchpadPoolAccount.mintB := readPublicKey data POOL_OFFSETS.mintB;
     LaunchpadPoolAccount.creator := readPublicKey data POOL_OFFSETS.creator |}.

Definition deserializeCurveType (data : Buffer.t) : result CurveType :=
  match readU8 data CONFIG_OFFSETS.curveType with
  | Some 0 => Ok ConstantProduct
  | Some 1 => Ok FixedPrice
  | Some 2 => Ok LinearPrice
  | _ => Err UnknownCurveType
  end.

Definition calculateCurrentPrice
    (pool : LaunchpadPoolAccount.t) (curveType : CurveType) : result Decimal.t :=
  let decimalAdj :=
    Decimal.Math_pow10 (JS.sub (LaunchpadPoolAccount.mintDecimalsA pool)
                               (LaunchpadPoolAccount.mintDecimalsB pool)) in
  match curveType with
  | ConstantProduct =>
      let effectiveB :=
        Decimal.of_Z (LaunchpadPoolAccount.virtualB pool
                      + LaunchpadPoolAccount.realB pool) in
      let effectiveA :=
        Decimal.of_Z (LaunchpadPoolAccount.virtualA pool
                      - LaunchpadPoolAccount.realA pool) in
      ratio <- Decimal.div effectiveB effectiveA ;;
      Decimal.mul_number ratio decimalAdj
  | FixedPrice | LinearPrice =>
      let vB :=
        Decimal.of_Z (LaunchpadPoolAccount.virtualB pool
                      + LaunchpadPoolAccount.realB pool) in
      let vA :=
        Decimal.of_Z (LaunchpadPoolAccount.virtualA pool
                      - LaunchpadPoolAccount.realA pool) in
      ratio <- Decimal.div vB vA ;;
      Decimal.mul_number ratio decimalAdj
  end.

Definition calculateGraduationPrice
    (pool : LaunchpadPoolAccount.t) (curveType : CurveType) : result Decimal.t :=
  let decimalAdj :=
    Decimal.Math_pow10 (JS.sub (LaunchpadPoolAccount.mintDecimalsA pool)
                               (LaunchpadPoolAccount.mintDecimalsB pool)) in
  match curveType with
  | ConstantProduct | LinearPrice =>
      let endB :=
        Decimal.of_Z (LaunchpadPoolAccount.virtualB pool
                      + LaunchpadPoolAccount.totalFundRaisingB pool) in
      let endA :=
        Decimal.of_Z (LaunchpadPoolAccount.virtualA pool
                      - LaunchpadPoolAccount.totalSellA pool) in
      ratio <- Decimal.div endB endA ;;
      Decimal.mul_number ratio decimalAdj
  | FixedPrice =>
      let vB := Decimal.of_Z (LaunchpadPoolAccount.virtualB pool) in
      let vA := Decimal.of_Z (LaunchpadPoolAccount.virtualA pool) in
      ratio <- Decimal.div vB vA ;;
      Decimal.mul_number ratio decimalAdj
  end.

Definition fetchLaunchpadPoolAccount
    (connection : Connection) (poolAddress : PublicKey)
  : result LaunchpadPoolAccount.t :=
  let pubkey := poolAddress in
  match connection pubkey with
  | None => Err AccountNotFound
  | Some accountInfo =>
      if negb (AccountInfo.owner accountInfo =? LAUNCHPAD_PROGRAM)
      then Err OwnershipMismatch
      else Ok (deserializeLaunchpadPool (AccountInfo.data accountInfo))
  end.

Definition fetchLaunchpadCurveType
    (connection : Connection) (configAddress : PublicKey) : result CurveType :=
  match connection configAddress with
  | None => Err AccountNotFound
  | Some accountInfo => deserializeCurveType (AccountInfo.data accountInfo)
  end.

(** The bonding percentage of [fetchBondingCurveInfo]. *)
Definition bondingPercentage (pool : LaunchpadPoolAccount.t) : result Decimal.t :=
  if BN.isZero (LaunchpadPoolAccount.totalFundRaisingB pool)
  then Ok (Decimal.of_Z 100)
  else
    ratio <- Decimal.div
               (Decimal.of_Z (LaunchpadPoolAccount.realB pool))
               (Decimal.of_Z (LaunchpadPoolAccount.totalFundRaisingB pool)) ;;
    Ok (Decimal.mul ratio (Decimal.of_Z 100)).

Definition fetchBondingCurveInfo
    (connection : Connection) (poolAddress : PublicKey)
  : result BondingCurveInfo.t :=
  pool <- fetchLaunchpadPoolAccount connection poolAddress ;;
  curveType <-
    fetchLaunchpadCurveType connection (LaunchpadPoolAccount.configId pool) ;;
  bondingPercentage <- bondingPercentage pool ;;
  currentPrice <- calculateCurrentPrice pool curveType ;;
  graduationPrice <- calculateGraduationPrice pool curveType ;;
  supplyDivisor <-
    Decimal.pow10_number (LaunchpadPoolAccount.mintDecimalsA pool) ;;
  totalSupplyHuman <-
    Decimal.div (Decimal.of_Z (LaunchpadPoolAccount.supply pool))
                supplyDivisor ;;
  let graduationMcap := Decimal.mul graduationPrice totalSupplyHuman in
  let quoteDecimals := LaunchpadPoolAccount.mintDecimalsB pool in
  quoteDivisor <- Decimal.pow10_number quoteDecimals ;;
  totalFundRaisingHuman <-
    Decimal.div (Decimal.of_Z (LaunchpadPoolAccount.totalFundRaisingB pool))
                quoteDivisor ;;
  quoteDivisor' <- Decimal.pow10_number quoteDecimals ;;
  raisedSoFar <-
    Decimal.div (Decimal.of_Z (LaunchpadPoolAccount.realB pool))
                quoteDivisor' ;;
  let remainingToRaise := Decimal.sub totalFundRaisingHuman raisedSoFar in
  Ok {| BondingCurveInfo.curveType := curveType;
        BondingCurveInfo.curveTypeLabel := CURVE_TYPE_LABELS curveType;
        BondingCurveInfo.bondingPercentage := bondingPercentage;
        BondingCurveInfo.currentPrice := currentPrice;
        BondingCurveInfo.graduationPrice := graduationPrice;
        BondingCurveInfo.graduationMcap := graduationMcap;
        BondingCurveInfo.totalFundRaisingB := totalFundRaisingHuman;
        BondingCurveInfo.raisedSoFar := raisedSoFar;
        BondingCurveInfo.remainingToRaise := remainingToRaise;
        BondingCurveInfo.poolStatus := LaunchpadPoolAccount.status pool;
        BondingCurveInfo.migrateType :=
          match LaunchpadPoolAccount.migrateType pool with
          | Some 0 => amm
          | _ => cpmm
          end |}.

End Launchpad.

(* ================================================================== *)
(** ** The exported functions at the arguments of a caller *)

(** The definitions above take an amount as the decimal that
    [new Decimal(amount)] has read from it, and an address as a key.  An
    exported function reads them first, and that can throw. *)
Module Api.

(** An amount, [number | string], is what [new Decimal(amount)] makes of
    it: a decimal, or [None] where the constructor throws (NaN, an
    infinity, a string that is no numeral). *)
Definition Amount : Type := option Decimal.t.

(** [new Decimal(amount)] *)
Definition newDecimal (amount : Amount) : result Decimal.t :=
  match amount with
  | Some d => Ok d
  | None => Err DecimalInvalidArgument
  end.

(** An address, [string | PublicKey]; a string is what
    [new PublicKey(string)] makes of it: a key, or [None] where the
    constructor throws (a character outside base 58, a length other than
    32 bytes). *)
Inductive Address : Type :=
| ofPublicKey (key : PublicKey)
| ofString (key : option PublicKey).

(** [typeof address === "string" ? new PublicKey(address) : address] *)
Definition toPublicKey (address : Address) : result PublicKey :=
  match address with
  | ofPublicKey key => Ok key
  | ofString (Some key) => Ok key
  | ofString None => Err InvalidPublicKey
  end.

Definition toRawAmount (amount : Amount) (decimals : Z) : result BN.t :=
  decimal <- newDecimal amount ;;
  Quote.toRawAmount decimal decimals.

(** The parameters of a request once its amount has been read. *)
Definition readInput (poolData : PoolData.t) (amountIn : Decimal.t)
    (slippage : float) (direction : SwapDirection) : ExactInputQuoteParams.t :=
  ExactInputQuoteParams.mk poolData amountIn slippage direction.

Definition readOutput (poolData : PoolData.t) (amountOut : Decimal.t)
    (slippage : float) (direction : SwapDirection) : ExactOutputQuoteParams.t :=
  ExactOutputQuoteParams.mk poolData amountOut slippage direction.

Module ExactInputQuoteParams.
Record t : Type := mk {
  poolData : PoolData.t;
  amountIn : Amount;
  slippage : float;
  direction : SwapDirection
}.
End ExactInputQuoteParams.

Module ExactOutputQuoteParams.
Record t : Type := mk {
  poolData : PoolData.t;
  amountOut : Amount;
  slippage : float;
  direction : SwapDirection
}.
End ExactOutputQuoteParams.

(** [toRawAmount] is the first step that can throw, and its first step
    is [new Decimal(amountIn)]. *)
Definition calculateExactInputQuote (params : ExactInputQuoteParams.t)
  : result QuoteResult.t :=
  amountIn <- newDecimal (ExactInputQuoteParams.amountIn params) ;;
  Quote.calculateExactInputQuote
    (readInput (ExactInputQuoteParams.poolData params) amountIn
       (ExactInputQuoteParams.slippage params)
       (ExactInputQuoteParams.direction params)).

Definition calculateExactOutputQuote (params : ExactOutputQuoteParams.t)
  : result QuoteResult.t :=
  amountOut <- newDecimal (ExactOutputQuoteParams.amountOut params) ;;
  Quote.calculateExactOutputQuote
    (readOutput (ExactOutputQuoteParams.poolData params) amountOut
       (ExactOutputQuoteParams.slippage params)
       (ExactOutputQuoteParams.direction params)).

Definition calculateMultipleQuotes
    (poolData : PoolData.t) (amounts : list Amount) (slippage : float)
    (direction : SwapDirection) (isExactInput : bool)
  : result (list QuoteResult.t) :=
  Quote.mapM (fun amount =>
                if isExactInput then
                  calculateExactInputQuote
                    (ExactInputQuoteParams.mk poolData amount slippage direction)
                else
                  calculateExactOutputQuote
                    (ExactOutputQuoteParams.mk poolData amount slippage direction))
             amounts.

Definition fetchPumpFunBondingCurveAccount
    (connection : Connection) (bondingCurveAddress : Address)
  : result PumpFun.PumpFunBondingCurveAccount.t :=
  pubkey <- toPublicKey bondingCurveAddress ;;
  PumpFun.fetchPumpFunBondingCurveAccount connection pubkey.

(** [fetchPumpFunBondingCurveAccount(connection, bondingCurveAddress)] is
    its first step. *)
Definition fetchPumpFunBondingCurveInfo
    (connection : Connection) (bondingCurveAddress : Address)
  : result PumpFun.PumpFunBondingCurveInfo.t :=
  pubkey <- toPublicKey bondingCurveAddress ;;
  PumpFun.fetchPumpFunBondingCurveInfo connection pubkey.

Definition fetchLaunchpadPoolAccount
    (connection : Connection) (poolAddress : Address)
  : result Launchpad.LaunchpadPoolAccount.t :=
  pubkey <- toPublicKey poolAddress ;;
  Launchpad.fetchLaunchpadPoolAccount connection pubkey.

(** [fetchLaunchpadPoolAccount(connection, poolAddress)] is its first
    step. *)
Definition fetchBondingCurveInfo
    (connection : Connection) (poolAddress : Address)
  : result Launchpad.BondingCurveInfo.t :=
  pubkey <- toPublicKey poolAddress ;;
  Launchpad.fetchBondingCurveInfo connection pubkey.

End Api.

(* ================================================================== *)
(** ** pumpfunBondingCurveFetcher.test.ts: the account builder *)

Module Mock.

(** The argument of [createMockBondingCurveData]; a numeric string is
    the integer that [new BN(string)] reads from it. *)
Module BondingCurveParams.
Record t : Type := mk {
  virtualTokenReserves : Z;
  virtualSolReserves : Z;
  realTokenReserves : Z;
  realSolReserves : Z;
  tokenTotalSupply : Z;
  complete : bool
}.
End BondingCurveParams.

(** A thrown exception is [None]. *)
Definition andThen {A B : Type} (o : option A) (k : A -> option B) : option B :=
  match o with
  | Some a => k a
  | None => None
  end.

Definition byte_of_Z (z : Z) : byte :=
  match Byte.of_N (Z.to_N z) with
  | Some b => b
  | None => x00
  end.

Fixpoint le_bytes (n : nat) (v : Z) : list byte :=
  match n with
  | O => []
  | S n' => byte_of_Z (v mod 256) :: le_bytes n' (v / 256)
  end.

(** [bn.toBuffer("le", n)] for a length [n > 0]: the magnitude in [n]
    little-endian bytes; [toArrayLike] asserts that they suffice. *)
Definition toBuffer_le (v : BN.t) (n : nat) : option Buffer.t :=
  if Z.abs v <? 256 ^ Z.of_nat n then Some (le_bytes n (Z.abs v)) else None.

(** [source.copy(target, targetStart)]: what fits is copied. *)
Definition copy (source target : Buffer.t) (targetStart : nat) : Buffer.t :=
  firstn targetStart target
  ++ firstn (List.length target - targetStart) source
  ++ skipn (targetStart + List.length source) target.

(** [buffer.writeUInt8(value, offset)]: a [RangeError] past the end. *)
Definition writeUInt8 (buffer : Buffer.t) (value : byte) (offset : nat)
  : option Buffer.t :=
  if (offset <? List.length buffer)%nat
  then Some (firstn offset buffer ++ value :: skipn (S offset) buffer)
  else None.

Definition createMockBondingCurveData (params : BondingCurveParams.t)
  : option Buffer.t :=
  let buffer := Buffer.alloc 57 in
  andThen (toBuffer_le (BondingCurveParams.virtualTokenReserves params) 8)
    (fun b =>
  let buffer := copy b buffer 8 in
  andThen (toBuffer_le (BondingCurveParams.virtualSolReserves params) 8)
    (fun b =>
  let buffer := copy b buffer 16 in
  andThen (toBuffer_le (BondingCurveParams.realTokenReserves params) 8)
    (fun b =>
  let buffer := copy b buffer 24 in
  andThen (toBuffer_le (BondingCurveParams.realSolReserves params) 8)
    (fun b =>
  let buffer := copy b buffer 32 in
  andThen (toBuffer_le (BondingCurveParams.tokenTotalSupply params) 8)
    (fun b =>
  let buffer := copy b buffer 40 in
  writeUInt8 buffer (if BondingCurveParams.complete params then x01 else x00)
             48))))).

(** [createMockAccountInfo] *)
Definition createMockAccountInfo (data : Buffer.t) : AccountInfo.t :=
  {| AccountInfo.data := data;
     AccountInfo.owner := PumpFun.PUMPFUN_PROGRAM;
     AccountInfo.lamports := 1000000;
     AccountInfo.executable := false;
     AccountInfo.rentEpoch := 0 |}.

End Mock.

(* ================================================================== *)
(** ** poolFetcher.ts *)

Module PoolFetcher.

Definition DEFAULT_CACHE_TTL : Z := 10000.

(** Times ([Date.now()], [cacheTTL], [expiresAt]) are integers, in
    milliseconds. *)
Module PoolCacheEntry.
Record t : Type := mk { data : PoolData.t; expiresAt : Z }.
End PoolCacheEntry.

(** Both options may be absent. *)
Module FetchPoolOptions.
Record t : Type := mk { forceRefresh : option bool; cacheTTL : option Z }.
End FetchPoolOptions.

(** A JavaScript [Map] with string keys: [set] on a key that is present
    replaces its value in place, on a new key it appends. *)
Module Map.

Definition t (V : Type) : Type := list (string * V).

Fixpoint get {V : Type} (m : t V) (k : string) : option V :=
  match m with
  | [] => None
  | (k', v) :: m' => if String.eqb k k' then Some v else get m' k
  end.

Fixpoint set {V : Type} (m : t V) (k : string) (v : V) : t V :=
  match m with
  | [] => [(k, v)]
  | (k', v') :: m' =>
      if String.eqb k k' then (k, v) :: m' else (k', v') :: set m' k v
  end.

Definition delete {V : Type} (m : t V) (k : string) : t V :=
  filter (fun kv => negb (String.eqb k (fst kv))) m.

Definition clear {V : Type} (m : t V) : t V := [].

End Map.

(** An object compared with [===] is its identity. *)
Definition ObjectRef : Type := Z.

(** The [Raydium] instance of the SDK. *)
Definition Raydium : Type := ObjectRef.

(** The fields of [getPoolInfoFromRpc]'s answer that are read. *)
Module ApiToken.
Record t : Type := mk { address : string; decimals : Z; symbol : option string }.
End ApiToken.

Module ConfigInfo.
Record t : Type :=
  mk { tradeFeeRate : BN.t; protocolFeeRate : BN.t; fundFeeRate : BN.t }.
End ConfigInfo.

Module PoolInfoFromRpc.
Record t : Type := mk {
  mintA : ApiToken.t;
  mintB : ApiToken.t;
  baseReserve : BN.t;
  quoteReserve : BN.t;
  configInfo : option ConfigInfo.t
}.
End PoolInfoFromRpc.

(** What lies outside the module, as it answers during one call: the
    SDK's loader and its RPC query ([None]: the promise rejects), and
    the base-58 reading and printing of public keys ([None]: [new
    PublicKey] throws). *)
Module World.
Record t : Type := mk {
  load : ObjectRef -> option Raydium;
  getPoolInfoFromRpc : Raydium -> string -> option PoolInfoFromRpc.t;
  PublicKey_of_string : string -> option PublicKey;
  PublicKey_toString : PublicKey -> string
}.
End World.

(** The module's variables: [poolCache], [raydiumInstance] and
    [raydiumConnection]. *)
Record state : Type := mkState {
  poolCache : Map.t PoolCacheEntry.t;
  raydiumInstance : option Raydium;
  raydiumConnection : option ObjectRef
}.

Definition initial : state := mkState [] None None.

(** [string | PublicKey] *)
Inductive PoolId : Type :=
| ofString (s : string)
| ofPublicKey (k : PublicKey).

(** [poolId.toString()] *)
Definition toString (w : World.t) (poolId : PoolId) : string :=
  match poolId with
  | ofString s => s
  | ofPublicKey k => World.PublicKey_toString w k
  end.

(** A call returns a value, or throws ([None]), and leaves a state; one
    call runs to its end before the next begins. *)
Definition getRaydiumInstance (w : World.t) (st : state) (connection : ObjectRef)
  : option Raydium * state :=
  let reusable :=
    match raydiumInstance st, raydiumConnection st with
    | Some instance, Some c =>
        if Z.eqb c connection then Some instance else None
    | _, _ => None
    end in
  match reusable with
  | Some instance => (Some instance, st)
  | None =>
      match World.load w connection with
      | None => (None, st)
      | Some instance =>
          (Some instance,
           mkState (poolCache st) (Some instance) (Some connection))
      end
  end.

(** [const cached = poolCache.get(key);]
    [if (cached && cached.expiresAt > now) return cached.data;] *)
Definition cachedData (st : state) (key : string) (now : Z) : option PoolData.t :=
  match Map.get (poolCache st) key with
  | Some cached =>
      if now <? PoolCacheEntry.expiresAt cached
      then Some (PoolCacheEntry.data cached) else None
  | None => None
  end.

(** [now] is what [Date.now()] returns during the call. *)
Definition fetchPoolData (w : World.t) (st : state) (connection : ObjectRef)
    (poolId : PoolId) (options : FetchPoolOptions.t) (now : Z)
  : option PoolData.t * state :=
  let poolIdStr := toString w poolId in
  let cacheTTL :=
    match FetchPoolOptions.cacheTTL options with
    | Some ttl => ttl
    | None => DEFAULT_CACHE_TTL
    end in
  let hit :=
    match FetchPoolOptions.forceRefresh options with
    | Some true => None
    | _ => cachedData st poolIdStr now
    end in
  match hit with
  | Some data => (Some data, st)
  | None =>
      match getRaydiumInstance w st connection with
      | (None, st1) => (None, st1)
      | (Some raydium, st1) =>
          match World.getPoolInfoFromRpc w raydium poolIdStr with
          | None => (None, st1)
          | Some rpc =>
              match World.PublicKey_of_string w
                      (ApiToken.address (PoolInfoFromRpc.mintA rpc)),
                    World.PublicKey_of_string w
                      (ApiToken.address (PoolInfoFromRpc.mintB rpc)),
                    World.PublicKey_of_string w poolIdStr with
              | Some keyA, Some keyB, Some id =>
                  let mintA :=
                    TokenInfo.mk keyA
                      (ApiToken.decimals (PoolInfoFromRpc.mintA rpc))
                      (ApiToken.symbol (PoolInfoFromRpc.mintA rpc)) in
                  let mintB :=
                    TokenInfo.mk keyB
                      (ApiToken.decimals (PoolInfoFromRpc.mintB rpc))
                      (ApiToken.symbol (PoolInfoFromRpc.mintB rpc)) in
                  let feeConfig :=
                    match PoolInfoFromRpc.configInfo rpc with
                    | Some c =>
                        FeeConfig.mk (ConfigInfo.tradeFeeRate c)
                                     (ConfigInfo.protocolFeeRate c)
                                     (ConfigInfo.fundFeeRate c)
                    | None => FeeConfig.mk 0 0 0
                    end in
                  let poolData :=
                    {| PoolData.id := id;
                       PoolData.mintA := mintA;
                       PoolData.mintB := mintB;
                       PoolData.baseReserve := PoolInfoFromRpc.baseReserve rpc;
                       PoolData.quoteReserve := PoolInfoFromRpc.quoteReserve rpc;
                       PoolData.feeConfig := feeConfig;
                       PoolData.fetchedAt := now |} in
                  (Some poolData,
                   mkState
                     (Map.set (poolCache st1) poolIdStr
                        (PoolCacheEntry.mk poolData (now + cacheTTL)))
                     (raydiumInstance st1) (raydiumConnection st1))
              | _, _, _ => (None, st1)
              end
          end
      end
  end.

Definition setPoolDataCache (w : World.t) (st : state) (poolData : PoolData.t)
    (ttl : option Z) (now : Z) : state :=
  let ttl := match ttl with Some t => t | None => DEFAULT_CACHE_TTL end in
  let poolIdStr := World.PublicKey_toString w (PoolData.id poolData) in
  mkState (Map.set (poolCache st) poolIdStr
             (PoolCacheEntry.mk poolData (now + ttl)))
          (raydiumInstance st) (raydiumConnection st).

Definition getPoolDataFromCache (w : World.t) (st : state) (poolId : PoolId)
    (now : Z) : option PoolData.t :=
  cachedData st (toString w poolId) now.

(** [if (poolId)]: the empty string is falsy, as an absent argument is. *)
Definition truthy (poolId : PoolId) : bool :=
  match poolId with
  | ofString s => negb (String.eqb s "")
  | ofPublicKey _ => true
  end.

Definition clearPoolCache (w : World.t) (st : state) (poolId : option PoolId)
  : state :=
  let cache :=
    match poolId with
    | Some p =>
        if truthy p then Map.delete (poolCache st) (toString w p)
        else Map.clear (poolCache st)
    | None => Map.clear (poolCache st)
    end in
  mkState cache (raydiumInstance st) (raydiumConnection st).

Definition clearRaydiumInstance (st : state) : state :=
  mkState (poolCache st) None None.

End PoolFetcher.

(* ================================================================== *)
(** ** index.ts: the calculator class *)

Module LaunchpadQuoteCalculator.

Record t : Type := mk {
  connection : PoolFetcher.ObjectRef;
  poolId : PublicKey;
  cacheTTL : Z
}.

(** [new LaunchpadQuoteCalculator(connection, poolId, cacheTTL)] *)
Definition constructor (w : PoolFetcher.World.t)
    (connection : PoolFetcher.ObjectRef) (poolId : PoolFetcher.PoolId)
    (cacheTTL : option Z) : option t :=
  let ttl := match cacheTTL with Some v => v | None => 10000 end in
  match poolId with
  | PoolFetcher.ofString s =>
      option_map (fun k => mk connection k ttl)
                 (PoolFetcher.World.PublicKey_of_string w s)
  | PoolFetcher.ofPublicKey k => Some (mk connection k ttl)
  end.

Definition getPoolData (w : PoolFetcher.World.t) (st : PoolFetcher.state)
    (self : t) (forceRefresh : bool) (now : Z)
  : option PoolData.t * PoolFetcher.state :=
  PoolFetcher.fetchPoolData w st (connection self)
    (PoolFetcher.ofPublicKey (poolId self))
    (PoolFetcher.FetchPoolOptions.mk (Some forceRefresh) (Some (cacheTTL self)))
    now.

(** What a method does once the pool data has arrived: [None] when
    [getPoolData] throws, otherwise the value or the exception of the
    rest. *)
Definition withPoolData {A : Type} (w : PoolFetcher.World.t)
    (st : PoolFetcher.state) (self : t) (forceRefresh : bool) (now : Z)
    (k : PoolData.t -> result A) : option (result A) * PoolFetcher.state :=
  match getPoolData w st self forceRefresh now with
  | (Some poolData, st') => (Some (k poolData), st')
  | (None, st') => (None, st')
  end.

Definition getQuoteForExactSol (w : PoolFetcher.World.t)
    (st : PoolFetcher.state) (self : t) (solAmount : Decimal.t)
    (slippage : float) (forceRefresh : bool) (now : Z) :=
  withPoolData w st self forceRefresh now (fun poolData =>
    Quote.calculateExactInputQuote
      (ExactInputQuoteParams.mk poolData solAmount slippage solToToken)).

Definition getQuoteForExactTokens (w : PoolFetcher.World.t)
    (st : PoolFetcher.state) (self : t) (tokenAmount : Decimal.t)
    (slippage : float) (forceRefresh : bool) (now : Z) :=
  withPoolData w st self forceRefresh now (fun poolData =>
    Quote.calculateExactInputQuote
      (ExactInputQuoteParams.mk poolData tokenAmount slippage tokenToSol)).

Definition getQuoteToReceiveExactTokens (w : PoolFetcher.World.t)
    (st : PoolFetcher.state) (self : t) (tokenAmount : Decimal.t)
    (slippage : float) (forceRefresh : bool) (now : Z) :=
  withPoolData w st self forceRefresh now (fun poolData =>
    Quote.calculateExactOutputQuote
      (ExactOutputQuoteParams.mk poolData tokenAmount slippage solToToken)).

Definition getQuoteToReceiveExactSol (w : PoolFetcher.World.t)
    (st : PoolFetcher.state) (self : t) (solAmount : Decimal.t)
    (slippage : float) (forceRefresh : bool) (now : Z) :=
  withPoolData w st self forceRefresh now (fun poolData =>
    Quote.calculateExactOutputQuote
      (ExactOutputQuoteParams.mk poolData solAmount slippage tokenToSol)).

Definition getBulkQuotes (w : PoolFetcher.World.t)
    (st : PoolFetcher.state) (self : t) (amounts : list Decimal.t)
    (slippage : float) (direction : SwapDirection) (isExactInput : bool)
    (forceRefresh : bool) (now : Z) :=
  withPoolData w st self forceRefresh now (fun poolData =>
    Quote.calculateMultipleQuotes poolData amounts slippage direction
      isExactInput).

Definition getCurrentPrice (w : PoolFetcher.World.t)
    (st : PoolFetcher.state) (self : t) (forceRefresh : bool) (now : Z) :=
  withPoolData w st self forceRefresh now (fun poolData =>
    let baseDecimal := Decimal.of_Z (PoolData.baseReserve poolData) in
    let quoteDecimal := Decimal.of_Z (PoolData.quoteReserve poolData) in
    let decimalAdjustment :=
      Decimal.pow10 (TokenInfo.decimals (PoolData.mintA poolData)
                     - TokenInfo.decimals (PoolData.mintB poolData)) in
    ratio <- Decimal.div quoteDecimal baseDecimal ;;
    Ok (Decimal.mul ratio decimalAdjustment)).

Definition getReserves (w : PoolFetcher.World.t)
    (st : PoolFetcher.state) (self : t) (forceRefresh : bool) (now : Z) :=
  withPoolData w st self forceRefresh now (fun poolData =>
    tokenReserve <- Quote.toHumanAmount (PoolData.baseReserve poolData)
                      (TokenInfo.decimals (PoolData.mintA poolData)) ;;
    solReserve <- Quote.toHumanAmount (PoolData.quoteReserve poolData)
                    (TokenInfo.decimals (PoolData.mintB poolData)) ;;
    Ok (tokenReserve, solReserve)).

Definition clearCache (w : PoolFetcher.World.t) (st : PoolFetcher.state)
    (self : t) : PoolFetcher.state :=
  PoolFetcher.clearPoolCache w st (Some (PoolFetcher.ofPublicKey (poolId self))).

End LaunchpadQuoteCalculator.

(* ================================================================== *)
(** ** Reference notions and sample data *)

(** The ceiling of [a / b] for a positive [b]; [a / b] itself is the floor. *)
Definition ceil_div (a b : Z) : Z := - ((- a) / b).

(** The specification's [maxAmountIn = rawAmountIn + ceil(rawAmountIn *
    slippageRate)], the rate in parts per million. *)
Definition maxAmountIn_with_ceiling (q : QuoteResult.t) (slippageRate : BN.t) : Prop :=
  QuoteResult.maxAmountIn q
  = QuoteResult.amountIn q
    + ceil_div (QuoteResult.amountIn q * slippageRate) 1000000.

(** The specification's [BufferTooShort]: a buffer shorter than the
    49-byte bonding-curve layout is never decoded into a record. *)
Definition rejects_short_buffers : Prop :=
  forall (connection : Connection) (address : PublicKey) (info : AccountInfo.t),
    connection address = Some info ->
    AccountInfo.owner info = PumpFun.PUMPFUN_PROGRAM ->
    (List.length (AccountInfo.data info) < 49)%nat ->
    forall curve,
      PumpFun.fetchPumpFunBondingCurveAccount connection address <> Ok curve.


Module Sample.

(** A pool of 1000 tokens (6 decimals) against 1 SOL (9 decimals),
    trade fee 0.25 %. *)
Definition pool : PoolData.t :=
  {| PoolData.id := 1;
     PoolData.mintA := TokenInfo.mk 2 6 None;
     PoolData.mintB := TokenInfo.mk 3 9 (Some "SOL"%string);
     PoolData.baseReserve := 1000000000;
     PoolData.quoteReserve := 1000000000;
     PoolData.feeConfig := FeeConfig.mk 2500 120000 40000;
     PoolData.fetchedAt := 0 |}.

(** 1 % tolerance *)
Definition slippage : float := 0x1.47ae147ae147bp-7%float.

(** Sell 0.001 SOL. *)
Definition exactIn : ExactInputQuoteParams.t :=
  ExactInputQuoteParams.mk pool (Decimal.mk 1 (-3)) slippage solToToken.


(** Buy 0.1 token. *)
Definition exactOut : ExactOutputQuoteParams.t :=
  ExactOutputQuoteParams.mk pool (Decimal.mk 1 (-1)) slippage solToToken.



(** The account that the test suite's [createMockAccountInfo] builds
    around a data buffer. *)
Definition account (owner : PublicKey) (data : Buffer.t) : AccountInfo.t :=
  {| AccountInfo.data := data;
     AccountInfo.owner := owner;
     AccountInfo.lamports := 1000000;
     AccountInfo.executable := false;
     AccountInfo.rentEpoch := 0 |}.

(** A connection that serves one account at every address. *)
Definition connection (info : AccountInfo.t) : Connection :=
  fun _ => Some info.

(** A launchpad pool, 6 and 9 decimals, with the given reserves. *)
Definition launchpadPool (virtualA virtualB realA realB totalFundRaisingB : BN.t)
  : Launchpad.LaunchpadPoolAccount.t :=
  {| Launchpad.LaunchpadPoolAccount.status := Some 0;
     Launchpad.LaunchpadPoolAccount.mintDecimalsA := Some 6;
     Launchpad.LaunchpadPoolAccount.mintDecimalsB := Some 9;
     Launchpad.LaunchpadPoolAccount.migrateType := Some 1;
     Launchpad.LaunchpadPoolAccount.supply := 1000000000000000;
     Launchpad.LaunchpadPoolAccount.totalSellA := 793100000000000;
     Launchpad.LaunchpadPoolAccount.virtualA := virtualA;
     Launchpad.LaunchpadPoolAccount.virtualB := virtualB;
     Launchpad.LaunchpadPoolAccount.realA := realA;
     Launchpad.LaunchpadPoolAccount.realB := realB;
     Launchpad.LaunchpadPoolAccount.totalFundRaisingB := totalFundRaisingB;
     Launchpad.LaunchpadPoolAccount.migrateFee := 0;
     Launchpad.LaunchpadPoolAccount.totalLockedAmount := 0;
     Launchpad.LaunchpadPoolAccount.configId := 11;
     Launchpad.LaunchpadPoolAccount.platformId := 12;
     Launchpad.LaunchpadPoolAccount.mintA := 13;
     Launchpad.LaunchpadPoolAccount.mintB := 14;
     Launchpad.LaunchpadPoolAccount.creator := 15 |}.

(** A pool whose base side is sold out: [virtualA = realA]. *)
Definition soldOutPool : Launchpad.LaunchpadPoolAccount.t :=
  launchpadPool 1000000000000 30000000000 1000000000000 85000000000
                85000000000.

(** The same reserves in a single-mint bonding curve. *)
Definition soldOutCurve : PumpFun.PumpFunBondingCurveAccount.t :=
  {| PumpFun.PumpFunBondingCurveAccount.virtualTokenReserves := 1000000000000;
     PumpFun.PumpFunBondingCurveAccount.virtualSolReserves := 30000000000;
     PumpFun.PumpFunBondingCurveAccount.realTokenReserves := 1000000000000;
     PumpFun.PumpFunBondingCurveAccount.realSolReserves := 85000000000;
     PumpFun.PumpFunBondingCurveAccount.tokenTotalSupply := 1000000000000;
     PumpFun.PumpFunBondingCurveAccount.complete := true |}.

End Sample.

(** ** Further reference notions and sample data *)

(** The quote that [calculateMultipleQuotes] computes for one amount. *)
Definition single_quote
    (poolData : PoolData.t) (slippage : float) (direction : SwapDirection)
    (isExactInput : bool) (amount : Decimal.t) : result QuoteResult.t :=
  if isExactInput then
    Quote.calculateExactInputQuote
      (ExactInputQuoteParams.mk poolData amount slippage direction)
  else
    Quote.calculateExactOutputQuote
      (ExactOutputQuoteParams.mk poolData amount slippage direction).

(** The decimal steps that follow the integer ones are the same in the
    two kinds of quote. *)
Definition price_side (pool : PoolData.t) (dir : SwapDirection)
    (q : QuoteResult.t) : Prop :=
  let r := Quote.getReserves pool dir in
  Quote.calculateCurrentPrice pool = Ok (QuoteResult.currentPrice q)
  /\ exists inputHuman outputHuman,
       Quote.toHumanAmount (QuoteResult.amountIn q) (Quote.inputDecimals r)
       = Ok inputHuman
       /\ Quote.toHumanAmount (QuoteResult.amountOut q) (Quote.outputDecimals r)
          = Ok outputHuman
       /\ match dir with
          | solToToken => Decimal.div inputHuman outputHuman
          | tokenToSol => Decimal.div outputHuman inputHuman
          end = Ok (QuoteResult.executionPrice q)
       /\ Quote.calculatePriceImpact (QuoteResult.currentPrice q)
            (QuoteResult.executionPrice q) dir = Ok (QuoteResult.priceImpact q).

(** Unsigned 64-bit and 256-bit values. *)
Definition u64 (v : Z) : Prop := 0 <= v < 2 ^ 64.

Definition u256 (v : Z) : Prop := 0 <= v < 2 ^ 256.

(** The human form of a raw amount below [10 ^ 20]. *)
Definition human (raw d : Z) : Decimal.t :=
  if raw =? 0 then Decimal.mk 0 0
  else
    let n := Decimal.ndigits raw in
    Decimal.mk (raw * 10 ^ (20 - n)) (n - 20 - d).

(** The numerator and the denominator of the two prices. *)
Definition currentNumerator (pool : Launchpad.LaunchpadPoolAccount.t) : Z :=
  Launchpad.LaunchpadPoolAccount.virtualB pool
  + Launchpad.LaunchpadPoolAccount.realB pool.

Definition currentDenominator (pool : Launchpad.LaunchpadPoolAccount.t) : Z :=
  Launchpad.LaunchpadPoolAccount.virtualA pool
  - Launchpad.LaunchpadPoolAccount.realA pool.

Definition graduationNumerator
    (pool : Launchpad.LaunchpadPoolAccount.t) (curveType : CurveType) : Z :=
  match curveType with
  | FixedPrice => Launchpad.LaunchpadPoolAccount.virtualB pool
  | ConstantProduct | LinearPrice =>
      Launchpad.LaunchpadPoolAccount.virtualB pool
      + Launchpad.LaunchpadPoolAccount.totalFundRaisingB pool
  end.

Definition graduationDenominator
    (pool : Launchpad.LaunchpadPoolAccount.t) (curveType : CurveType) : Z :=
  match curveType with
  | FixedPrice => Launchpad.LaunchpadPoolAccount.virtualA pool
  | ConstantProduct | LinearPrice =>
      Launchpad.LaunchpadPoolAccount.virtualA pool
      - Launchpad.LaunchpadPoolAccount.totalSellA pool
  end.



(** Token decimals as a mint has them, one unsigned byte. *)
Definition tokenDecimals (pool : PoolData.t) : Prop :=
  0 <= TokenInfo.decimals (PoolData.mintA pool) <= 255
  /\ 0 <= TokenInfo.decimals (PoolData.mintB pool) <= 255.

(** An amount far inside the exponent range of the decimal library
    ([9e15]).  Outside it the library throws "Exponent out of range",
    which the embedding, with its unbounded exponents, does not follow. *)
Definition inExponentRange (amount : Api.Amount) : Prop :=
  match amount with
  | Some d =>
      Z.abs (Decimal.expo d) + Decimal.ndigits (Z.abs (Decimal.coef d))
      <= 10 ^ 15
  | None => True
  end.

(** A computed price [p] is within a relative [1 / 10 ^ 19] of the exact
    price [num / den * 10 ^ n]. *)
Definition accurate (p : Decimal.t) (num den n : Z) : Prop :=
  (Qabs (Decimal.value p * inject_Z den - inject_Z num * 10 ^ n)
   * inject_Z (10 ^ 19) <= inject_Z num * 10 ^ n)%Q.

(** [options.cacheTTL ?? DEFAULT_CACHE_TTL] *)
Definition ttlOf (options : PoolFetcher.FetchPoolOptions.t) : Z :=
  match PoolFetcher.FetchPoolOptions.cacheTTL options with
  | Some ttl => ttl
  | None => PoolFetcher.DEFAULT_CACHE_TTL
  end.

(** A fetch that did not take its answer from the cache. *)
Definition refreshed (w : PoolFetcher.World.t) (st : PoolFetcher.state)
    (poolId : PoolFetcher.PoolId) (options : PoolFetcher.FetchPoolOptions.t)
    (now : Z) : Prop :=
  PoolFetcher.FetchPoolOptions.forceRefresh options = Some true
  \/ PoolFetcher.getPoolDataFromCache w st poolId now = None.

(** The two variables are set and cleared together. *)
Definition coherent (st : PoolFetcher.state) : Prop :=
  PoolFetcher.raydiumInstance st = None
  <-> PoolFetcher.raydiumConnection st = None.

(** Sample data for the fetchers and the cache. *)
Module SampleFetch.

(** The parameters of the test suite's first account. *)
Definition params : Mock.BondingCurveParams.t :=
  Mock.BondingCurveParams.mk 1000000000000 30000000000 800000000000
                             50000000000 1000000000000 false.

(** A connection that serves an all-zero account of 365 bytes, owned by
    the given program, at every address. *)
Definition zeroConnection (owner : PublicKey) : Connection :=
  Sample.connection (Sample.account owner (Buffer.alloc 365)).

(** What the SDK answers for the sample pool. *)
Definition rpc : PoolFetcher.PoolInfoFromRpc.t :=
  {| PoolFetcher.PoolInfoFromRpc.mintA :=
       PoolFetcher.ApiToken.mk "mintA" 6 None;
     PoolFetcher.PoolInfoFromRpc.mintB :=
       PoolFetcher.ApiToken.mk "mintB" 9 (Some "SOL"%string);
     PoolFetcher.PoolInfoFromRpc.baseReserve := 1000000000;
     PoolFetcher.PoolInfoFromRpc.quoteReserve := 1000000000;
     PoolFetcher.PoolInfoFromRpc.configInfo :=
       Some (PoolFetcher.ConfigInfo.mk 2500 120000 40000) |}.

(** A world in which every load and every query succeeds, and one in
    which the query fails.  In both a stand-in takes the place of base
    58: every key prints as the same string, and a string reads as the
    key that is its length. *)
Definition world : PoolFetcher.World.t :=
  {| PoolFetcher.World.load := fun connection => Some connection;
     PoolFetcher.World.getPoolInfoFromRpc := fun _ _ => Some rpc;
     PoolFetcher.World.PublicKey_of_string :=
       fun s => Some (Z.of_nat (String.length s));
     PoolFetcher.World.PublicKey_toString := fun _ => "pool"%string |}.

Definition offline : PoolFetcher.World.t :=
  {| PoolFetcher.World.load := fun connection => Some connection;
     PoolFetcher.World.getPoolInfoFromRpc := fun _ _ => None;
     PoolFetcher.World.PublicKey_of_string :=
       fun s => Some (Z.of_nat (String.length s));
     PoolFetcher.World.PublicKey_toString := fun _ => "pool"%string |}.

Definition options : PoolFetcher.FetchPoolOptions.t :=
  PoolFetcher.FetchPoolOptions.mk None None.

Definition calculator : LaunchpadQuoteCalculator.t :=
  LaunchpadQuoteCalculator.mk 7 4 10000.

End SampleFetch.

(* ================================================================== *)
(** * Properties *)

(** ** Integer division: truncation, floor and ceiling *)

Lemma ceil_div_spec (a b : Z) :
  0 < b -> (ceil_div a b - 1) * b < a <= ceil_div a b * b.
Proof.
  intros Hb. unfold ceil_div.
  pose proof (Z.mul_div_le (- a) b Hb).
  pose proof (Z.mul_succ_div_gt (- a) b Hb).
  nia.
Qed.

Lemma ceil_div_unique (a b c : Z) :
  0 < b -> (c - 1) * b < a <= c * b -> ceil_div a b = c.
Proof.
  intros Hb Hc. pose proof (ceil_div_spec a Hb). nia.
Qed.

Lemma BN_div_nonneg (a b : Z) :
  0 <= a -> 0 < b -> BN.div a b = Ok (a / b).
Proof.
  intros Ha Hb. unfold BN.div.
  destruct (Z.eqb_spec b 0); [lia|].
  now rewrite Z.quot_div_nonneg.
Qed.

Lemma BN_div_Err (a b : Z) (e : error) :
  BN.div a b = Err e -> b = 0 /\ e = BNAssertion.
Proof.
  unfold BN.div. destruct (Z.eqb_spec b 0); intros H; inversion H; auto.
Qed.

Lemma ceilDiv_nonneg (a b : Z) :
  0 <= a -> 0 < b -> Quote.ceilDiv a b = Ok (ceil_div a b).
Proof.
  intros Ha Hb. unfold Quote.ceilDiv.
  rewrite BN_div_nonneg by lia. f_equal. symmetry.
  apply ceil_div_unique; [assumption|].
  pose proof (Z.mul_div_le (a + (b - 1)) b Hb).
  pose proof (Z.mul_succ_div_gt (a + (b - 1)) b Hb).
  nia.
Qed.

Lemma ceil_div_nonneg (a b : Z) : 0 <= a -> 0 < b -> 0 <= ceil_div a b.
Proof.
  intros Ha Hb. pose proof (ceil_div_spec a Hb). nia.
Qed.

(** ** Decimal digits and the cut to precision *)

Lemma ndigits_aux_spec (fuel : nat) : forall n : Z,
  0 < n -> Z.log2 n <= Z.of_nat fuel ->
  1 <= Decimal.ndigits_aux fuel n
  /\ 10 ^ (Decimal.ndigits_aux fuel n - 1) <= n < 10 ^ Decimal.ndigits_aux fuel n.
Proof.
  induction fuel as [|fuel IH]; intros n Hn Hlog.
  - cbn [Decimal.ndigits_aux].
    assert (n < 2).
    { destruct (Z_lt_ge_dec n 2); [assumption|].
      pose proof (Z.log2_le_mono 2 n ltac:(lia)) as Hl.
      change (Z.log2 2) with 1 in Hl. cbn in Hlog. lia. }
    cbn. lia.
  - cbn [Decimal.ndigits_aux].
    destruct (Z.ltb_spec n 10) as [Hlt|Hge]; [cbn; lia|].
    assert (Hq : 0 < n / 10) by (apply Z.div_str_pos; lia).
    assert (Hl : Z.log2 (n / 10) <= Z.of_nat fuel).
    { destruct (Z.log2_spec n Hn) as [_ Hup].
      rewrite Z.pow_succ_r in Hup by apply Z.log2_nonneg.
      assert (n / 10 < 2 ^ Z.log2 n).
      { apply Z.div_lt_upper_bound; lia. }
      apply Z.log2_lt_pow2 in H; lia. }
    destruct (IH (n / 10) Hq Hl) as (H1 & Hlo & Hhi).
    set (d := Decimal.ndigits_aux fuel (n / 10)) in *.
    replace (1 + d - 1) with (Z.succ (d - 1)) by lia.
    replace (1 + d) with (Z.succ d) by lia.
    rewrite !Z.pow_succ_r by lia.
    pose proof (Z.mul_div_le n 10 ltac:(lia)).
    pose proof (Z.mul_succ_div_gt n 10 ltac:(lia)).
    lia.
Qed.

Lemma ndigits_spec (n : Z) :
  0 < n ->
  1 <= Decimal.ndigits n
  /\ 10 ^ (Decimal.ndigits n - 1) <= n < 10 ^ Decimal.ndigits n.
Proof.
  intros Hn. unfold Decimal.ndigits. apply ndigits_aux_spec; [assumption|].
  rewrite Z2Nat.id; [lia | apply Z.log2_nonneg].
Qed.

Lemma ndigits_unique (n d : Z) :
  0 < n -> 10 ^ (d - 1) <= n < 10 ^ d -> 1 <= d -> Decimal.ndigits n = d.
Proof.
  intros Hn [Hlo Hhi] Hd.
  destruct (ndigits_spec Hn) as (H1 & Hlo' & Hhi').
  set (m := Decimal.ndigits n) in *.
  assert (m - 1 < d).
  { apply (Z.pow_lt_mono_r_iff 10); lia. }
  assert (d - 1 < m).
  { apply (Z.pow_lt_mono_r_iff 10); lia. }
  lia.
Qed.


(** Cutting a coefficient [a > 0] that has [k > 0] digits too many:
    the kept digits [c] are the first twenty digits of [a]. *)
Lemma round_digits (a : Z) :
  0 < a ->
  let k := Decimal.ndigits a - Decimal.precision in
  0 < k ->
  let c := a / 10 ^ k in
  c * 10 ^ k <= a < (c + 1) * 10 ^ k
  /\ 10 ^ 19 <= c < 10 ^ 20
  /\ 10 ^ 19 * 10 ^ k <= a.
Proof.
  intros Ha k Hk c.
  destruct (ndigits_spec Ha) as (_ & Hlo & Hhi).
  unfold Decimal.precision in k.
  replace (Decimal.ndigits a) with (k + 20) in Hlo, Hhi by (subst k; lia).
  replace (k + 20 - 1) with (19 + k) in Hlo by lia.
  rewrite Z.pow_add_r in Hlo by lia.
  replace (k + 20) with (20 + k) in Hhi by lia.
  rewrite Z.pow_add_r in Hhi by lia.
  assert (Hp : 0 < 10 ^ k) by (apply Z.pow_pos_nonneg; lia).
  pose proof (Z.mul_div_le a (10 ^ k) Hp) as H1.
  pose proof (Z.mul_succ_div_gt a (10 ^ k) Hp) as H2.
  fold c in H1, H2.
  change (10 ^ 19) with 10000000000000000000 in *.
  change (10 ^ 20) with 100000000000000000000 in *.
  repeat split; nia.
Qed.

Lemma round_sgn (d : Decimal.t) :
  Z.sgn (Decimal.coef (Decimal.round d)) = Z.sgn (Decimal.coef d).
Proof.
  unfold Decimal.round. cbv zeta.
  destruct (Z.leb_spec (Decimal.ndigits (Z.abs (Decimal.coef d))
                        - Decimal.precision) 0) as [|Hk]; [reflexivity|].
  cbn [Decimal.coef].
  assert (Ha : 0 < Z.abs (Decimal.coef d)).
  { destruct (Z.eq_dec (Decimal.coef d) 0) as [E|]; [|lia].
    rewrite E in Hk. vm_compute in Hk. discriminate. }
  destruct (round_digits Ha Hk) as (_ & Hc & _).
  change (10 ^ 19) with 10000000000000000000 in Hc.
  rewrite Z.sgn_mul, Z.sgn_sgn.
  rewrite (Z.sgn_pos (_ / _)) by lia. lia.
Qed.

Lemma isZero_round (d : Decimal.t) :
  Decimal.isZero (Decimal.round d) = Decimal.isZero d.
Proof.
  unfold Decimal.isZero. pose proof (round_sgn d) as H.
  destruct (Z.eqb_spec (Decimal.coef (Decimal.round d)) 0) as [E|E];
    destruct (Z.eqb_spec (Decimal.coef d) 0) as [E'|E']; try reflexivity;
    [rewrite E in H | rewrite E' in H]; cbn in H; lia.
Qed.

Lemma isZero_mul (x y : Decimal.t) :
  Decimal.isZero (Decimal.mul x y) = Decimal.isZero x || Decimal.isZero y.
Proof.
  unfold Decimal.mul. rewrite isZero_round. unfold Decimal.isZero. cbn.
  destruct (Z.eqb_spec (Decimal.coef x * Decimal.coef y) 0);
    destruct (Z.eqb_spec (Decimal.coef x) 0);
    destruct (Z.eqb_spec (Decimal.coef y) 0); try reflexivity; nia.
Qed.

Lemma isZero_of_Z (n : Z) : Decimal.isZero (Decimal.of_Z n) = (n =? 0).
Proof. reflexivity. Qed.

(** [x.div(y)] returns unless a non-zero [x] meets a zero [y]; the
    quotient is zero exactly when [x] is. *)
Lemma Decimal_div_Ok (x y : Decimal.t) :
  Decimal.isZero x = true \/ Decimal.isZero y = false ->
  exists z, Decimal.div x y = Ok z /\ Decimal.isZero z = Decimal.isZero x.
Proof.
  intros H. unfold Decimal.div.
  destruct (Decimal.isZero x) eqn:Ex; [eauto|].
  destruct H as [H|H]; [discriminate|]. rewrite H.
  eexists; split; [reflexivity|].
  rewrite isZero_round. unfold Decimal.isZero in *. cbn [Decimal.coef].
  apply Z.eqb_neq in Ex, H. apply Z.eqb_neq.
  set (a := Z.abs (Decimal.coef x)). set (b := Z.abs (Decimal.coef y)).
  assert (Ha : 0 < a) by (subst a; lia).
  assert (Hb : 0 < b) by (subst b; lia).
  destruct (ndigits_spec Hb) as (Hn & _ & _).
  set (s := Decimal.precision + Decimal.ndigits b).
  assert (0 < 10 ^ s) by (apply Z.pow_pos_nonneg; unfold Decimal.precision in s; lia).
  assert (b < 10 ^ s).
  { destruct (ndigits_spec Hb) as (_ & _ & Hhi).
    eapply Z.lt_le_trans; [exact Hhi|].
    apply Z.pow_le_mono_r; unfold Decimal.precision in s; lia. }
  assert (0 < a * 10 ^ s / b) by (apply Z.div_str_pos; nia).
  destruct (Decimal.coef x), (Decimal.coef y); cbn [Z.sgn]; lia.
Qed.

(** ** Which step throws what *)

Lemma Decimal_div_Err (x y : Decimal.t) (e : error) :
  Decimal.div x y = Err e ->
  e = DecimalDivisionByZero
  /\ Decimal.isZero x = false /\ Decimal.isZero y = true.
Proof.
  unfold Decimal.div.
  destruct (Decimal.isZero x); [discriminate|].
  destruct (Decimal.isZero y); [|discriminate].
  intros H; inversion H; auto.
Qed.

Lemma ceilDiv_Err (a b : Z) (e : error) :
  Quote.ceilDiv a b = Err e -> e = BNAssertion.
Proof.
  unfold Quote.ceilDiv. intros H. now apply BN_div_Err in H.
Qed.

Lemma calculateSwapInput_Err (a b c : Z) (e : error) :
  Quote.calculateSwapInput a b c = Err e -> e = BNAssertion.
Proof.
  unfold Quote.calculateSwapInput. apply ceilDiv_Err.
Qed.

Lemma slippageRate_Err (slippage : float) (e : error) :
  Quote.slippageRate slippage = Err e -> e = BNAssertion.
Proof.
  unfold Quote.slippageRate, JS.to_BN.
  destruct (JS.Math_floor _); [destruct (_ <? _)| |]; intros H; now inversion H.
Qed.

Lemma toHumanAmount_Err (a d : Z) (e : error) :
  Quote.toHumanAmount a d = Err e -> e = DecimalDivisionByZero.
Proof.
  unfold Quote.toHumanAmount. intros H. now apply Decimal_div_Err in H.
Qed.

Lemma calculateCurrentPrice_Err (pool : PoolData.t) (e : error) :
  Quote.calculateCurrentPrice pool = Err e -> e = DecimalDivisionByZero.
Proof.
  unfold Quote.calculateCurrentPrice. cbv zeta.
  destruct (Decimal.div _ _) eqn:E; cbn [bind]; [discriminate|].
  intros H; inversion H; subst. now apply Decimal_div_Err in E.
Qed.

Lemma calculatePriceImpact_Err (c x : Decimal.t) (d : SwapDirection) (e : error) :
  Quote.calculatePriceImpact c x d = Err e -> e = DecimalDivisionByZero.
Proof.
  unfold Quote.calculatePriceImpact.
  destruct d; (destruct (Decimal.div _ _) eqn:E; cbn [bind]; [discriminate|]);
    intros H; inversion H; subst; now apply Decimal_div_Err in E.
Qed.

(** ** Stepping through a quote *)

Ltac bind_inv H :=
  repeat match type of H with
  | bind ?m _ = Ok _ =>
      let E := fresh "E" in
      destruct m eqn:E; cbn [bind] in H; [ | discriminate H ]
  end.

Section ExactInput.

Variable params : ExactInputQuoteParams.t.

Let pool := ExactInputQuoteParams.poolData params.
Let dir := ExactInputQuoteParams.direction params.
Let r := Quote.getReserves pool dir.
Let feeRate := FeeConfig.tradeFeeRate (PoolData.feeConfig pool).

(** What a returned exact-input quote went through. *)
Lemma calculateExactInputQuote_Ok (q : QuoteResult.t) :
  Quote.calculateExactInputQuote params = Ok q ->
  exists rawAmountIn fee rawAmountOut slippageBN slippageAmount,
    Quote.toRawAmount (ExactInputQuoteParams.amountIn params)
                      (Quote.inputDecimals r) = Ok rawAmountIn
    /\ Quote.calculateFee rawAmountIn feeRate = Ok fee
    /\ Quote.calculateSwapOutput (rawAmountIn - fee)
         (Quote.inputReserve r) (Quote.outputReserve r) = Ok rawAmountOut
    /\ Quote.slippageRate (ExactInputQuoteParams.slippage params) = Ok slippageBN
    /\ BN.div (rawAmountOut * slippageBN) Quote.FEE_RATE_DENOMINATOR
       = Ok slippageAmount
    /\ QuoteResult.amountIn q = rawAmountIn
    /\ QuoteResult.amountOut q = rawAmountOut
    /\ QuoteResult.minAmountOut q = rawAmountOut - slippageAmount
    /\ QuoteResult.maxAmountIn q = rawAmountIn
    /\ QuoteResult.fee q = fee
    /\ QuoteResult.direction q = dir.
Proof.
  unfold Quote.calculateExactInputQuote.
  fold pool; fold dir; fold r; fold feeRate. cbv zeta.
  intros H. bind_inv H. injection H as <-.
  match goal with
  | Ea : Quote.toRawAmount _ _ = Ok ?a,
    Eb : Quote.calculateFee _ _ = Ok ?b,
    Ec : Quote.calculateSwapOutput _ _ _ = Ok ?c,
    Ed : Quote.slippageRate _ = Ok ?d,
    Ee : BN.div _ _ = Ok ?e |- _ => exists a, b, c, d, e
  end.
  repeat split; first [assumption | reflexivity].
Qed.

End ExactInput.

Section ExactOutput.

Variable params : ExactOutputQuoteParams.t.

Let pool := ExactOutputQuoteParams.poolData params.
Let dir := ExactOutputQuoteParams.direction params.
Let r := Quote.getReserves pool dir.
Let feeRate := FeeConfig.tradeFeeRate (PoolData.feeConfig pool).

(** What a returned exact-output quote went through. *)
Lemma calculateExactOutputQuote_Ok (q : QuoteResult.t) :
  Quote.calculateExactOutputQuote params = Ok q ->
  exists rawAmountOut amountInBeforeFee rawAmountIn slippageBN slippageAmount,
    Quote.toRawAmount (ExactOutputQuoteParams.amountOut params)
                      (Quote.outputDecimals r) = Ok rawAmountOut
    /\ rawAmountOut < Quote.outputReserve r
    /\ Quote.calculateSwapInput rawAmountOut
         (Quote.inputReserve r) (Quote.outputReserve r) = Ok amountInBeforeFee
    /\ Quote.ceilDiv (amountInBeforeFee * Quote.FEE_RATE_DENOMINATOR)
         (Quote.FEE_RATE_DENOMINATOR - feeRate) = Ok rawAmountIn
    /\ Quote.slippageRate (ExactOutputQuoteParams.slippage params) = Ok slippageBN
    /\ BN.div (rawAmountIn * slippageBN) Quote.FEE_RATE_DENOMINATOR
       = Ok slippageAmount
    /\ QuoteResult.amountIn q = rawAmountIn
    /\ QuoteResult.amountOut q = rawAmountOut
    /\ QuoteResult.minAmountOut q = rawAmountOut
    /\ QuoteResult.maxAmountIn q = rawAmountIn + slippageAmount
    /\ QuoteResult.fee q = rawAmountIn - amountInBeforeFee
    /\ QuoteResult.direction q = dir.
Proof.
  unfold Quote.calculateExactOutputQuote.
  fold pool; fold dir; fold r; fold feeRate. cbv zeta.
  intros H. bind_inv H.
  unfold BN.gte in H.
  destruct (Z.leb_spec (Quote.outputReserve r) t); [discriminate H|].
  bind_inv H. injection H as <-.
  match goal with
  | Ea : Quote.toRawAmount _ _ = Ok ?a,
    Eb : Quote.calculateSwapInput _ _ _ = Ok ?b,
    Ec : Quote.ceilDiv _ _ = Ok ?c,
    Ed : Quote.slippageRate _ = Ok ?d,
    Ee : BN.div _ _ = Ok ?e |- _ => exists a, b, c, d, e
  end.
  repeat split; first [assumption | reflexivity].
Qed.


End ExactOutput.

(** ** Exact-input quotes *)

Lemma calculateFee_nonneg (amount feeRate : Z) :
  0 <= amount -> 0 <= feeRate ->
  Quote.calculateFee amount feeRate = Ok (amount * feeRate / 1000000).
Proof.
  intros Ha Hf. unfold Quote.calculateFee, Quote.FEE_RATE_DENOMINATOR.
  apply BN_div_nonneg; nia.
Qed.

Lemma fee_le_amount (amount feeRate : Z) :
  0 <= amount -> 0 <= feeRate <= 1000000 ->
  0 <= amount * feeRate / 1000000 <= amount.
Proof.
  intros Ha Hf. split.
  - apply Z.div_pos; nia.
  - apply Z.div_le_upper_bound; nia.
Qed.

Lemma calculateSwapOutput_Ok (a inR outR out : Z) :
  0 <= a -> 0 <= inR -> 0 <= outR ->
  Quote.calculateSwapOutput a inR outR = Ok out ->
  inR + a <> 0 /\ out = a * outR / (inR + a).
Proof.
  intros Ha Hi Ho. unfold Quote.calculateSwapOutput, BN.div.
  destruct (Z.eqb_spec (inR + a) 0) as [|Hne]; [discriminate|].
  intros H; injection H as <-. split; [assumption|].
  apply Z.quot_div_nonneg; nia.
Qed.

(** C1: for every pool state (reserves and fee rate as unsigned values,
    the fee rate below the denominator) and every exact-input request of
    a nonnegative raw amount, a returned quote has
    [amountOut = floor(amountInAfterFee * outputReserve /
    (inputReserve + amountInAfterFee))] with
    [amountInAfterFee = rawAmountIn - fee]; the quoted output is never
    more than this floor; and the swap step itself yields that floor
    whenever its denominator is not zero. *)
Theorem C1_exact_input_output_is_floor
    (params : ExactInputQuoteParams.t) (rawAmountIn : BN.t) :
  let pool := ExactInputQuoteParams.poolData params in
  let r := Quote.getReserves pool (ExactInputQuoteParams.direction params) in
  let feeRate := FeeConfig.tradeFeeRate (PoolData.feeConfig pool) in
  Quote.toRawAmount (ExactInputQuoteParams.amountIn params)
                    (Quote.inputDecimals r) = Ok rawAmountIn ->
  0 <= rawAmountIn ->
  0 <= Quote.inputReserve r ->
  0 <= Quote.outputReserve r ->
  0 <= feeRate < Quote.FEE_RATE_DENOMINATOR ->
  (forall q, Quote.calculateExactInputQuote params = Ok q ->
     let amountInAfterFee := rawAmountIn - QuoteResult.fee q in
     let floorOut :=
       amountInAfterFee * Quote.outputReserve r
       / (Quote.inputReserve r + amountInAfterFee) in
     QuoteResult.amountIn q = rawAmountIn
     /\ QuoteResult.amountOut q = floorOut
     /\ QuoteResult.amountOut q <= floorOut)
  /\ (forall fee, Quote.calculateFee rawAmountIn feeRate = Ok fee ->
        let amountInAfterFee := rawAmountIn - fee in
        Quote.inputReserve r + amountInAfterFee <> 0 ->
        Quote.calculateSwapOutput amountInAfterFee
          (Quote.inputReserve r) (Quote.outputReserve r)
        = Ok (amountInAfterFee * Quote.outputReserve r
              / (Quote.inputReserve r + amountInAfterFee))).
Proof.
  intros pool r feeRate Hraw Hin HinR HoutR Hfee.
  unfold Quote.FEE_RATE_DENOMINATOR in Hfee.
  pose proof (@fee_le_amount rawAmountIn feeRate Hin ltac:(lia)) as Hf.
  split.
  - intros q Hq.
    apply calculateExactInputQuote_Ok in Hq.
    destruct Hq as (raw & fee & out & sBN & sAmt & Ea & Eb & Ec & _ & _
                    & Hai & Hao & _ & _ & Hfq & _).
    fold pool r in Ea. fold pool r feeRate in Eb. fold pool r in Ec.
    rewrite Hraw in Ea. injection Ea as <-.
    rewrite calculateFee_nonneg in Eb by lia. injection Eb as <-.
    apply calculateSwapOutput_Ok in Ec; try lia.
    destruct Ec as [_ ->].
    cbv zeta. rewrite Hfq, Hao, Hai. repeat split; lia.
  - intros fee Efee amountInAfterFee Hden.
    rewrite calculateFee_nonneg in Efee by lia. injection Efee as <-.
    unfold Quote.calculateSwapOutput.
    apply BN_div_nonneg; subst amountInAfterFee; nia.
Qed.

(** C4: for every nonnegative raw input amount and every fee rate in
    [0, 999_999], the fee step yields [floor(rawAmountIn * feeRate /
    1_000_000)], and that is the fee of every returned exact-input quote. *)
Theorem C4_exact_input_fee_is_floor
    (params : ExactInputQuoteParams.t) (rawAmountIn : BN.t) :
  let pool := ExactInputQuoteParams.poolData params in
  let r := Quote.getReserves pool (ExactInputQuoteParams.direction params) in
  let feeRate := FeeConfig.tradeFeeRate (PoolData.feeConfig pool) in
  Quote.toRawAmount (ExactInputQuoteParams.amountIn params)
                    (Quote.inputDecimals r) = Ok rawAmountIn ->
  0 <= rawAmountIn ->
  0 <= feeRate <= 999999 ->
  Quote.calculateFee rawAmountIn feeRate
  = Ok (rawAmountIn * feeRate / 1000000)
  /\ forall q, Quote.calculateExactInputQuote params = Ok q ->
       QuoteResult.fee q = rawAmountIn * feeRate / 1000000.
Proof.
  intros pool r feeRate Hraw Hin Hfee.
  split; [apply calculateFee_nonneg; lia|].
  intros q Hq.
  apply calculateExactInputQuote_Ok in Hq.
  destruct Hq as (raw & fee & out & sBN & sAmt & Ea & Eb & _ & _ & _
                  & _ & _ & _ & _ & Hfq & _).
  fold pool r in Ea. fold pool r feeRate in Eb.
  rewrite Hraw in Ea. injection Ea as <-.
  rewrite calculateFee_nonneg in Eb by lia. injection Eb as <-.
  exact Hfq.
Qed.

(** ** When an exact-input quote returns *)

Lemma toHumanAmount_Ok (amount decimals : Z) :
  exists h, Quote.toHumanAmount amount decimals = Ok h
            /\ Decimal.isZero h = (amount =? 0).
Proof.
  unfold Quote.toHumanAmount.
  destruct (@Decimal_div_Ok (Decimal.of_Z amount) (Decimal.pow10 decimals))
    as (h & Hh & Hz); [right; reflexivity|].
  exists h. split; [assumption|]. now rewrite Hz.
Qed.



Section ExactInputReturns.

Variable params : ExactInputQuoteParams.t.

Let pool := ExactInputQuoteParams.poolData params.
Let dir := ExactInputQuoteParams.direction params.
Let r := Quote.getReserves pool dir.
Let feeRate := FeeConfig.tradeFeeRate (PoolData.feeConfig pool).


End ExactInputReturns.



(** ** Exact-output quotes *)




(** The two ceilings of an exact-output quote. *)
Lemma calculateExactOutputQuote_amounts
    (params : ExactOutputQuoteParams.t) (rawAmountOut : BN.t) :
  let pool := ExactOutputQuoteParams.poolData params in
  let r := Quote.getReserves pool (ExactOutputQuoteParams.direction params) in
  let feeRate := FeeConfig.tradeFeeRate (PoolData.feeConfig pool) in
  Quote.toRawAmount (ExactOutputQuoteParams.amountOut params)
                    (Quote.outputDecimals r) = Ok rawAmountOut ->
  0 <= rawAmountOut < Quote.outputReserve r ->
  0 <= Quote.inputReserve r ->
  feeRate < 1000000 ->
  let amountInBeforeFee :=
    ceil_div (Quote.inputReserve r * rawAmountOut)
             (Quote.outputReserve r - rawAmountOut) in
  let rawAmountIn :=
    ceil_div (amountInBeforeFee * 1000000) (1000000 - feeRate) in
  Quote.calculateSwapInput rawAmountOut
    (Quote.inputReserve r) (Quote.outputReserve r) = Ok amountInBeforeFee
  /\ Quote.ceilDiv (amountInBeforeFee * Quote.FEE_RATE_DENOMINATOR)
       (Quote.FEE_RATE_DENOMINATOR - feeRate) = Ok rawAmountIn
  /\ forall q, Quote.calculateExactOutputQuote params = Ok q ->
       QuoteResult.amountOut q = rawAmountOut
       /\ QuoteResult.amountIn q = rawAmountIn
       /\ QuoteResult.fee q = rawAmountIn - amountInBeforeFee.
Proof.
  intros pool r feeRate Hraw Hout HinR Hfee amountInBeforeFee rawAmountIn.
  assert (Hbefore : Quote.calculateSwapInput rawAmountOut
            (Quote.inputReserve r) (Quote.outputReserve r)
          = Ok amountInBeforeFee).
  { unfold Quote.calculateSwapInput. apply ceilDiv_nonneg; nia. }
  assert (Hb0 : 0 <= amountInBeforeFee).
  { apply ceil_div_nonneg; nia. }
  assert (Hrawin : Quote.ceilDiv (amountInBeforeFee * Quote.FEE_RATE_DENOMINATOR)
            (Quote.FEE_RATE_DENOMINATOR - feeRate) = Ok rawAmountIn).
  { unfold Quote.FEE_RATE_DENOMINATOR. apply ceilDiv_nonneg; nia. }
  split; [exact Hbefore|]. split; [exact Hrawin|].
  intros q Hq.
  apply calculateExactOutputQuote_Ok in Hq.
  destruct Hq as (out & before & rawin & sBN & sAmt & Ea & _ & Eb & Ec & _ & _
                  & Hai & Hao & _ & _ & Hfq & _).
  fold pool r in Ea, Eb. fold pool r feeRate in Ec.
  rewrite Hraw in Ea. injection Ea as <-.
  rewrite Hbefore in Eb. injection Eb as <-.
  rewrite Hrawin in Ec. injection Ec as <-.
  repeat split; assumption.
Qed.

(** C3: for every exact-output request with [0 <= rawAmountOut <
    outputReserve], a nonnegative input reserve and [feeRate < 1_000_000],
    the quote computes [amountInBeforeFee = ceil(inputReserve *
    rawAmountOut / (outputReserve - rawAmountOut))], then [rawAmountIn =
    ceil(amountInBeforeFee * 1_000_000 / (1_000_000 - feeRate))], and a
    returned quote has that [amountIn] and [fee = rawAmountIn -
    amountInBeforeFee]. *)
Theorem C3_exact_output_ceilings
    (params : ExactOutputQuoteParams.t) (rawAmountOut : BN.t) :
  let pool := ExactOutputQuoteParams.poolData params in
  let r := Quote.getReserves pool (ExactOutputQuoteParams.direction params) in
  let feeRate := FeeConfig.tradeFeeRate (PoolData.feeConfig pool) in
  Quote.toRawAmount (ExactOutputQuoteParams.amountOut params)
                    (Quote.outputDecimals r) = Ok rawAmountOut ->
  0 <= rawAmountOut < Quote.outputReserve r ->
  0 <= Quote.inputReserve r ->
  feeRate < 1000000 ->
  let amountInBeforeFee :=
    ceil_div (Quote.inputReserve r * rawAmountOut)
             (Quote.outputReserve r - rawAmountOut) in
  let rawAmountIn :=
    ceil_div (amountInBeforeFee * 1000000) (1000000 - feeRate) in
  Quote.calculateSwapInput rawAmountOut
    (Quote.inputReserve r) (Quote.outputReserve r) = Ok amountInBeforeFee
  /\ Quote.ceilDiv (amountInBeforeFee * Quote.FEE_RATE_DENOMINATOR)
       (Quote.FEE_RATE_DENOMINATOR - feeRate) = Ok rawAmountIn
  /\ forall q, Quote.calculateExactOutputQuote params = Ok q ->
       QuoteResult.amountOut q = rawAmountOut
       /\ QuoteResult.amountIn q = rawAmountIn
       /\ QuoteResult.fee q = rawAmountIn - amountInBeforeFee.
Proof.
  exact (@calculateExactOutputQuote_amounts params rawAmountOut).
Qed.

(** C6, as stated, fails: buying 0.1 token from the sample pool needs
    100262 lamports; 1 % of that is 1002.62, the quote adds 1002 and
    returns 101264 where the ceiling would give 101265. *)
Lemma C6_counterexample :
  exists q slippageRate,
    Quote.calculateExactOutputQuote Sample.exactOut = Ok q
    /\ Quote.slippageRate (ExactOutputQuoteParams.slippage Sample.exactOut)
       = Ok slippageRate
    /\ ~ maxAmountIn_with_ceiling q slippageRate.
Proof.
  eexists. exists 10000. split; [vm_compute; reflexivity|].
  split; [vm_compute; reflexivity|].
  unfold maxAmountIn_with_ceiling. vm_compute. discriminate.
Qed.

(** C6 (amended): for every successful exact-output quote on unsigned
    data, [maxAmountIn = rawAmountIn + floor(rawAmountIn * slippageRate /
    1_000_000)], where [slippageRate] is the caller's tolerance times
    1_000_000, floored to an integer. *)
Theorem C6_max_amount_in_floor
    (params : ExactOutputQuoteParams.t) (rawAmountOut slippageBN : BN.t) :
  let pool := ExactOutputQuoteParams.poolData params in
  let r := Quote.getReserves pool (ExactOutputQuoteParams.direction params) in
  let feeRate := FeeConfig.tradeFeeRate (PoolData.feeConfig pool) in
  Quote.toRawAmount (ExactOutputQuoteParams.amountOut params)
                    (Quote.outputDecimals r) = Ok rawAmountOut ->
  0 <= rawAmountOut ->
  0 <= Quote.inputReserve r ->
  feeRate < 1000000 ->
  JS.to_BN (JS.Math_floor
              (ExactOutputQuoteParams.slippage params * 1000000)%float)
  = Ok slippageBN ->
  0 <= slippageBN ->
  forall q, Quote.calculateExactOutputQuote params = Ok q ->
    QuoteResult.maxAmountIn q
    = QuoteResult.amountIn q + QuoteResult.amountIn q * slippageBN / 1000000.
Proof.
  intros pool r feeRate Hraw Hout HinR Hfee Hslip Hs0 q Hq.
  pose proof Hq as Hq'.
  apply calculateExactOutputQuote_Ok in Hq'.
  destruct Hq' as (out & before & rawin & sBN & sAmt & Ea & Hlt & _ & _ & Ed & Ee
                 & Hai & _ & _ & Hmax & _ & _).
  fold pool r in Ea, Hlt.
  rewrite Hraw in Ea. injection Ea as <-.
  unfold Quote.slippageRate in Ed. rewrite Hslip in Ed. injection Ed as <-.
  destruct (@calculateExactOutputQuote_amounts params rawAmountOut Hraw
              ltac:(fold pool r; lia) HinR Hfee) as (_ & _ & Hc3).
  destruct (Hc3 q Hq) as (_ & Hin & _).
  assert (0 <= rawin).
  { rewrite <- Hai, Hin. fold pool r feeRate.
    apply ceil_div_nonneg; [|lia].
    apply Z.mul_nonneg_nonneg; [|lia].
    apply ceil_div_nonneg; nia. }
  unfold Quote.FEE_RATE_DENOMINATOR in Ee.
  rewrite BN_div_nonneg in Ee by nia. injection Ee as <-.
  rewrite Hmax, Hai. reflexivity.
Qed.

(** C10: in every exact-input quote result [maxAmountIn] equals
    [amountIn], and in every successful exact-output quote result
    [minAmountOut] equals [amountOut]. *)
Theorem C10_bound_on_fixed_side :
  (forall params q,
     Quote.calculateExactInputQuote params = Ok q ->
     QuoteResult.maxAmountIn q = QuoteResult.amountIn q)
  /\ (forall params q,
        Quote.calculateExactOutputQuote params = Ok q ->
        QuoteResult.minAmountOut q = QuoteResult.amountOut q).
Proof.
  split; intros params q Hq.
  - apply calculateExactInputQuote_Ok in Hq.
    destruct Hq as (? & ? & ? & ? & ? & _ & _ & _ & _ & _
                    & Hai & _ & _ & Hmax & _).
    congruence.
  - apply calculateExactOutputQuote_Ok in Hq.
    destruct Hq as (? & ? & ? & ? & ? & _ & _ & _ & _ & _ & _
                    & _ & Hao & Hmin & _).
    congruence.
Qed.

(** ** Decoding account data *)

Lemma of_le_zeros (n : nat) : BN.of_le (repeat x00 n) = 0.
Proof.
  induction n as [|n IH]; [reflexivity|].
  cbn [repeat BN.of_le]. rewrite IH. reflexivity.
Qed.

Lemma of_le_app_zeros (bs : list byte) (n : nat) :
  BN.of_le (bs ++ repeat x00 n) = BN.of_le bs.
Proof.
  induction bs as [|b bs IH]; cbn [app BN.of_le].
  - apply of_le_zeros.
  - now rewrite IH.
Qed.

Lemma firstn_repeat (A : Type) (x : A) (k n : nat) :
  firstn k (repeat x n) = repeat x (Nat.min k n).
Proof.
  revert n; induction k as [|k IH]; intros [|n]; cbn; try reflexivity.
  now rewrite IH.
Qed.

Lemma skipn_repeat (A : Type) (x : A) (k n : nat) :
  skipn k (repeat x n) = repeat x (n - k).
Proof.
  revert n; induction k as [|k IH]; intros [|n]; cbn; try reflexivity.
  apply IH.
Qed.

(** A 64-bit field reads a buffer as if it were extended with zero bytes. *)
Lemma subarray_le_zero_extend (data : Buffer.t) (n start stop : nat) :
  BN.of_le (Buffer.subarray (data ++ Buffer.alloc n) start stop)
  = BN.of_le (Buffer.subarray data start stop).
Proof.
  unfold Buffer.subarray, Buffer.alloc.
  rewrite skipn_app, firstn_app, skipn_repeat, firstn_repeat.
  apply of_le_app_zeros.
Qed.

Lemma subarray_past_end (data : Buffer.t) (start stop : nat) :
  (List.length data <= start)%nat -> Buffer.subarray data start stop = [].
Proof.
  intros H. unfold Buffer.subarray. rewrite skipn_all2 by exact H.
  apply firstn_nil.
Qed.

Lemma get_past_end (data : Buffer.t) (offset : nat) :
  (List.length data <= offset)%nat -> Buffer.get data offset = None.
Proof.
  intros H. unfold Buffer.get.
  now rewrite (proj2 (nth_error_None data offset) H).
Qed.

Ltac unfold_offsets :=
  unfold PumpFun.BONDING_CURVE_OFFSETS.virtualTokenReserves,
    PumpFun.BONDING_CURVE_OFFSETS.virtualSolReserves,
    PumpFun.BONDING_CURVE_OFFSETS.realTokenReserves,
    PumpFun.BONDING_CURVE_OFFSETS.realSolReserves,
    PumpFun.BONDING_CURVE_OFFSETS.tokenTotalSupply,
    PumpFun.BONDING_CURVE_OFFSETS.complete,
    Launchpad.POOL_OFFSETS.status,
    Launchpad.POOL_OFFSETS.mintDecimalsA,
    Launchpad.POOL_OFFSETS.mintDecimalsB,
    Launchpad.POOL_OFFSETS.migrateType in *.

(** C5, as stated, fails: the empty buffer decodes to a bonding curve
    with every reserve zero and the complete flag set. *)
Lemma C5_counterexample : ~ rejects_short_buffers.
Proof.
  intros H.
  apply (H (Sample.connection (Sample.account PumpFun.PUMPFUN_PROGRAM [])) 0
           (Sample.account PumpFun.PUMPFUN_PROGRAM []) eq_refl eq_refl
           ltac:(cbn; lia)
           (PumpFun.PumpFunBondingCurveAccount.mk 0 0 0 0 0 true)).
  reflexivity.
Qed.

(** C5 (amended): neither decoder checks the buffer length and neither
    fails on a short buffer.  Every buffer of an account owned by the
    program decodes to a typed record; a 64-bit field is the
    little-endian value of those bytes of its range that lie inside the
    buffer, which is its value in the buffer extended with zero bytes; a
    single-byte field past the end is undefined, and the bonding curve's
    complete flag then reads true.  Nothing outside the buffer is read. *)
Theorem C5_decoders_accept_short_buffers :
  (forall (connection : Connection) (address : PublicKey) (info : AccountInfo.t),
     connection address = Some info ->
     AccountInfo.owner info = PumpFun.PUMPFUN_PROGRAM ->
     let data := AccountInfo.data info in
     let curve := PumpFun.deserializePumpFunBondingCurve data in
     PumpFun.fetchPumpFunBondingCurveAccount connection address = Ok curve
     /\ (forall n,
           let padded :=
             PumpFun.deserializePumpFunBondingCurve (data ++ Buffer.alloc n) in
           PumpFun.PumpFunBondingCurveAccount.virtualTokenReserves curve
           = PumpFun.PumpFunBondingCurveAccount.virtualTokenReserves padded
           /\ PumpFun.PumpFunBondingCurveAccount.virtualSolReserves curve
              = PumpFun.PumpFunBondingCurveAccount.virtualSolReserves padded
           /\ PumpFun.PumpFunBondingCurveAccount.realTokenReserves curve
              = PumpFun.PumpFunBondingCurveAccount.realTokenReserves padded
           /\ PumpFun.PumpFunBondingCurveAccount.realSolReserves curve
              = PumpFun.PumpFunBondingCurveAccount.realSolReserves padded
           /\ PumpFun.PumpFunBondingCurveAccount.tokenTotalSupply curve
              = PumpFun.PumpFunBondingCurveAccount.tokenTotalSupply padded)
     /\ ((List.length data < 49)%nat ->
         PumpFun.PumpFunBondingCurveAccount.complete curve = true)
     /\ ((List.length data <= 8)%nat ->
         curve = PumpFun.PumpFunBondingCurveAccount.mk 0 0 0 0 0 true))
  /\ (forall (connection : Connection) (address : PublicKey) (info : AccountInfo.t),
        connection address = Some info ->
        AccountInfo.owner info = Launchpad.LAUNCHPAD_PROGRAM ->
        let data := AccountInfo.data info in
        let pool := Launchpad.deserializeLaunchpadPool data in
        Launchpad.fetchLaunchpadPoolAccount connection address = Ok pool
        /\ (forall n,
              let padded :=
                Launchpad.deserializeLaunchpadPool (data ++ Buffer.alloc n) in
              Launchpad.LaunchpadPoolAccount.supply pool
              = Launchpad.LaunchpadPoolAccount.supply padded
              /\ Launchpad.LaunchpadPoolAccount.totalSellA pool
                 = Launchpad.LaunchpadPoolAccount.totalSellA padded
              /\ Launchpad.LaunchpadPoolAccount.virtualA pool
                 = Launchpad.LaunchpadPoolAccount.virtualA padded
              /\ Launchpad.LaunchpadPoolAccount.virtualB pool
                 = Launchpad.LaunchpadPoolAccount.virtualB padded
              /\ Launchpad.LaunchpadPoolAccount.realA pool
                 = Launchpad.LaunchpadPoolAccount.realA padded
              /\ Launchpad.LaunchpadPoolAccount.realB pool
                 = Launchpad.LaunchpadPoolAccount.realB padded
              /\ Launchpad.LaunchpadPoolAccount.totalFundRaisingB pool
                 = Launchpad.LaunchpadPoolAccount.totalFundRaisingB padded
              /\ Launchpad.LaunchpadPoolAccount.migrateFee pool
                 = Launchpad.LaunchpadPoolAccount.migrateFee padded
              /\ Launchpad.LaunchpadPoolAccount.totalLockedAmount pool
                 = Launchpad.LaunchpadPoolAccount.totalLockedAmount padded)
        /\ ((List.length data <= 17)%nat ->
            Launchpad.LaunchpadPoolAccount.status pool = None
            /\ Launchpad.LaunchpadPoolAccount.mintDecimalsA pool = None
            /\ Launchpad.LaunchpadPoolAccount.mintDecimalsB pool = None
            /\ Launchpad.LaunchpadPoolAccount.migrateType pool = None)).
Proof.
  split; intros connection address info Hget Howner data.
  - intros curve. repeat split.
    + unfold PumpFun.fetchPumpFunBondingCurveAccount.
      rewrite Hget, Howner, Z.eqb_refl. reflexivity.
    + symmetry; apply subarray_le_zero_extend.
    + symmetry; apply subarray_le_zero_extend.
    + symmetry; apply subarray_le_zero_extend.
    + symmetry; apply subarray_le_zero_extend.
    + symmetry; apply subarray_le_zero_extend.
    + intros Hlen. subst curve. cbn.
      unfold PumpFun.readBool, PumpFun.BONDING_CURVE_OFFSETS.complete.
      rewrite get_past_end by lia. reflexivity.
    + intros Hlen. subst curve.
      unfold PumpFun.deserializePumpFunBondingCurve, PumpFun.readU64,
        PumpFun.readBool.
      rewrite !subarray_past_end, get_past_end;
        [reflexivity | unfold_offsets; lia ..].
  - intros pool. repeat split;
      try (symmetry; apply subarray_le_zero_extend).
    + unfold Launchpad.fetchLaunchpadPoolAccount.
      rewrite Hget, Howner, Z.eqb_refl. reflexivity.
    + apply get_past_end; unfold_offsets; lia.
    + apply get_past_end; unfold_offsets; lia.
    + apply get_past_end; unfold_offsets; lia.
    + apply get_past_end; unfold_offsets; lia.
Qed.

(** ** Current price at a zero denominator *)

Lemma PumpFun_price_zero_denominator (curve : PumpFun.PumpFunBondingCurveAccount.t) :
  PumpFun.PumpFunBondingCurveAccount.virtualTokenReserves curve
  = PumpFun.PumpFunBondingCurveAccount.realTokenReserves curve ->
  PumpFun.calculateCurrentPrice curve = Ok (Decimal.of_Z 0).
Proof.
  intros E. unfold PumpFun.calculateCurrentPrice. cbv zeta.
  rewrite E, Z.sub_diag. reflexivity.
Qed.

Lemma Launchpad_price_zero_denominator
    (pool : Launchpad.LaunchpadPoolAccount.t) (curveType : CurveType) :
  Launchpad.LaunchpadPoolAccount.virtualA pool
  = Launchpad.LaunchpadPoolAccount.realA pool ->
  Launchpad.LaunchpadPoolAccount.virtualB pool
  + Launchpad.LaunchpadPoolAccount.realB pool <> 0 ->
  Launchpad.calculateCurrentPrice pool curveType = Err DecimalDivisionByZero.
Proof.
  intros E Hne. unfold Launchpad.calculateCurrentPrice. cbv zeta.
  rewrite E, Z.sub_diag. unfold Decimal.div.
  rewrite isZero_of_Z. apply Z.eqb_neq in Hne. rewrite Hne.
  destruct curveType; reflexivity.
Qed.

(** C8: with constant-product pricing and a zero denominator
    [virtualBase - realBase] the PumpFun computation reports the price
    zero; the launchpad computation, on the same reserves, does not: its
    division throws. *)
Theorem C8_zero_denominator_price :
  PumpFun.calculateCurrentPrice Sample.soldOutCurve = Ok (Decimal.of_Z 0)
  /\ Launchpad.calculateCurrentPrice Sample.soldOutPool ConstantProduct
     = Err DecimalDivisionByZero.
Proof.
  split.
  - apply PumpFun_price_zero_denominator. reflexivity.
  - apply Launchpad_price_zero_denominator; [reflexivity | discriminate].
Qed.

(** ** Decimal quotients: exact cases and the error of the cut *)

(** The quotient of two positive coefficients: twenty digits, never
    above the exact quotient and less than one unit of the last digit
    below it. *)
Lemma div_positive (a b ex ey : Z) :
  0 < a -> 0 < b ->
  exists c k s,
    Decimal.div (Decimal.mk a ex) (Decimal.mk b ey)
    = Ok (Decimal.mk c (ex - ey - s + k))
    /\ 0 < k /\ 0 < s
    /\ 10 ^ 19 <= c < 10 ^ 20
    /\ c * 10 ^ k * b <= a * 10 ^ s
    /\ 10 ^ 19 * (a * 10 ^ s - c * 10 ^ k * b) <= a * 10 ^ s.
Proof.
  intros Ha Hb.
  destruct (ndigits_spec Hb) as (Hn & _ & Hhi).
  set (s := Decimal.precision + Decimal.ndigits b).
  assert (Hs : 20 < s) by (unfold Decimal.precision in s; lia).
  assert (Hps : 0 < 10 ^ s) by (apply Z.pow_pos_nonneg; lia).
  set (q := a * 10 ^ s / b).
  assert (Hq : 10 ^ 20 <= q).
  { subst q. apply Z.div_le_lower_bound; [lia|].
    replace s with (20 + Decimal.ndigits b) by (unfold s, Decimal.precision; lia).
    rewrite Z.pow_add_r by lia.
    assert (0 < 10 ^ 20) by (apply Z.pow_pos_nonneg; lia).
    nia. }
  assert (Hq0 : 0 < q).
  { assert (0 < 10 ^ 20) by (apply Z.pow_pos_nonneg; lia). lia. }
  set (k := Decimal.ndigits q - Decimal.precision).
  assert (Hk : 0 < k).
  { destruct (ndigits_spec Hq0) as (Hq1 & _ & Hqhi).
    assert (20 < Decimal.ndigits q).
    { apply (Z.pow_lt_mono_r_iff 10); lia. }
    unfold k, Decimal.precision. lia. }
  destruct (@round_digits q Hq0 Hk) as ((Hc1 & Hc2) & Hc & Hlow).
  fold k in Hc1, Hc2, Hc, Hlow.
  set (c := q / 10 ^ k) in *.
  exists c, k, s.
  split.
  { unfold Decimal.div, Decimal.isZero. cbn [Decimal.coef Decimal.expo].
    destruct (Z.eqb_spec a 0); [lia|]. destruct (Z.eqb_spec b 0); [lia|].
    rewrite (Z.abs_eq a), (Z.abs_eq b) by lia.
    rewrite (Z.sgn_pos a), (Z.sgn_pos b) by lia.
    fold s. fold q. rewrite !Z.mul_1_l.
    unfold Decimal.round. cbn [Decimal.coef Decimal.expo].
    rewrite (Z.abs_eq q) by lia. fold k.
    destruct (Z.leb_spec k 0); [lia|].
    rewrite (Z.sgn_pos q) by lia. rewrite Z.mul_1_l. reflexivity. }
  split; [lia|]. split; [lia|]. split; [lia|].
  pose proof (Z.mul_div_le (a * 10 ^ s) b Hb) as Hd1.
  pose proof (Z.mul_succ_div_gt (a * 10 ^ s) b Hb) as Hd2.
  fold q in Hd1, Hd2.
  assert (Hpk : 0 < 10 ^ k) by (apply Z.pow_pos_nonneg; lia).
  assert (Hup : c * 10 ^ k * b <= a * 10 ^ s) by nia.
  assert (Hdn : a * 10 ^ s < (c + 1) * 10 ^ k * b) by nia.
  assert (Hrel : 10 ^ 19 * (10 ^ k * b) <= a * 10 ^ s).
  { change (10 ^ 19) with 10000000000000000000 in *. nia. }
  split; [exact Hup|].
  change (10 ^ 19) with 10000000000000000000 in *.
  nia.
Qed.

Lemma ten_pow_inject (k : Z) : 0 <= k -> (inject_Z (10 ^ k) == 10 ^ k)%Q.
Proof. intros Hk. apply (Zpower_Qpower 10 k Hk). Qed.

Lemma value_scaled (c k s : Z) :
  0 <= k -> 0 <= s ->
  (Decimal.value (Decimal.mk c (0 - 0 - s + k)) * inject_Z (10 ^ s)
   == inject_Z (c * 10 ^ k))%Q.
Proof.
  intros Hk Hs. unfold Decimal.value. cbn [Decimal.coef Decimal.expo].
  replace (0 - 0 - s + k) with (k - s) by lia.
  rewrite Qpower_minus by discriminate.
  rewrite inject_Z_mult, !ten_pow_inject by assumption.
  assert (~ (10 ^ s == 0)%Q).
  { rewrite <- ten_pow_inject by assumption.
    intros E. change 0%Q with (inject_Z 0) in E.
    rewrite inject_Z_injective in E.
    pose proof (Z.pow_pos_nonneg 10 s ltac:(lia) Hs) as Hp.
    rewrite E in Hp. inversion Hp. }
  field. assumption.
Qed.

Lemma Qabs_inject_Z (z : Z) : (Qabs (inject_Z z) == inject_Z (Z.abs z))%Q.
Proof. reflexivity. Qed.

(** The quotient of two positive integers is within a relative
    [1 / 10 ^ 19] of the exact one: less than one unit in the twentieth
    significant digit. *)
Lemma div_of_Z_bound (r t : Z) :
  0 < r -> 0 < t ->
  exists ratio,
    Decimal.div (Decimal.of_Z r) (Decimal.of_Z t) = Ok ratio
    /\ Z.abs (Decimal.coef ratio) < 10 ^ 20
    /\ (Qabs (Decimal.value ratio * inject_Z t - inject_Z r)
        * inject_Z (10 ^ 19) <= inject_Z r)%Q.
Proof.
  intros Hr Ht.
  destruct (@div_positive r t 0 0 Hr Ht)
    as (c & k & s & Hdiv & Hk & Hs & Hc & Hup & Hb).
  eexists. split; [exact Hdiv|]. cbn [Decimal.coef]. split; [lia|].
  assert (HP : (0 < inject_Z (10 ^ s))%Q).
  { rewrite <- (Zlt_Qlt 0). apply Z.pow_pos_nonneg; lia. }
  apply (Qmult_lt_0_le_reg_r _ _ _ HP).
  pose proof (@value_scaled c k s ltac:(lia) ltac:(lia)) as Hv.
  set (V := Decimal.value _) in *.
  assert (E : (Qabs (V * inject_Z t - inject_Z r) * inject_Z (10 ^ 19)
               * inject_Z (10 ^ s)
               == inject_Z (10 ^ 19 * Z.abs (c * 10 ^ k * t - r * 10 ^ s)))%Q).
  { rewrite (inject_Z_mult (10 ^ 19)), <- Qabs_inject_Z.
    unfold Z.sub. rewrite inject_Z_plus, inject_Z_opp, !inject_Z_mult.
    rewrite <- inject_Z_mult, <- Hv.
    rewrite <- (Qabs_pos (inject_Z (10 ^ s))) at 1 by (apply Qlt_le_weak; exact HP).
    setoid_replace (Qabs (V * inject_Z t + - inject_Z r) * inject_Z (10 ^ 19)
                    * Qabs (inject_Z (10 ^ s)))%Q
      with (inject_Z (10 ^ 19)
            * (Qabs (V * inject_Z t + - inject_Z r) * Qabs (inject_Z (10 ^ s))))%Q
      by ring.
    rewrite <- Qabs_Qmult.
    apply Qmult_comp; [reflexivity|]. apply Qabs_wd. ring. }
  rewrite E, <- inject_Z_mult, <- Zle_Qle.
  rewrite Z.abs_neq by lia. lia.
Qed.

(** Cutting changes nothing when the dropped digits are zeros. *)
Lemma round_exact (d : Decimal.t) (m : Z) :
  let k := Decimal.ndigits (Z.abs (Decimal.coef d)) - Decimal.precision in
  0 < k -> Z.abs (Decimal.coef d) = m * 10 ^ k ->
  (Decimal.value (Decimal.round d) == Decimal.value d)%Q.
Proof.
  intros k Hk Hm. unfold Decimal.round. cbv zeta. fold k.
  destruct (Z.leb_spec k 0); [lia|].
  assert (Hp : 0 < 10 ^ k) by (apply Z.pow_pos_nonneg; lia).
  rewrite Hm, Z.div_mul by lia.
  unfold Decimal.value. cbn [Decimal.coef Decimal.expo].
  rewrite Qpower_plus by discriminate.
  rewrite <- (@ten_pow_inject k) by lia.
  assert (Hc : Decimal.coef d = Z.sgn (Decimal.coef d) * (m * 10 ^ k)).
  { rewrite <- Hm. destruct (Decimal.coef d); cbn; lia. }
  rewrite Hc at 2. rewrite !inject_Z_mult. ring.
Qed.



(** ** Bonding percentage *)






(** ** The theorems at the sample data *)

(** C1 at the sample pool: 0.001 SOL buys 996505 raw tokens. *)
Lemma C1_witness :
  exists q,
    Quote.calculateExactInputQuote Sample.exactIn = Ok q
    /\ Quote.toRawAmount (Decimal.mk 1 (-3)) 9 = Ok 1000000
    /\ QuoteResult.amountOut q = 996505.
Proof.
  assert (Hraw : Quote.toRawAmount (Decimal.mk 1 (-3)) 9 = Ok 1000000)
    by (vm_compute; reflexivity).
  destruct (Quote.calculateExactInputQuote Sample.exactIn) as [q|] eqn:Hq;
    [|vm_compute in Hq; discriminate Hq].
  exists q. split; [reflexivity|]. split; [exact Hraw|].
  destruct (proj1 (@C1_exact_input_output_is_floor Sample.exactIn 1000000
                     Hraw ltac:(lia) ltac:(vm_compute; discriminate)
                     ltac:(vm_compute; discriminate)
                     ltac:(split; vm_compute; [discriminate | reflexivity]))
              q Hq) as (_ & Hout & _).
  rewrite Hout. vm_compute in Hq. injection Hq as <-. vm_compute. reflexivity.
Defined.

(** C4 at the sample pool: the fee on 1000000 lamports is 2500. *)
Lemma C4_witness :
  exists q,
    Quote.calculateExactInputQuote Sample.exactIn = Ok q
    /\ Quote.toRawAmount (Decimal.mk 1 (-3)) 9 = Ok 1000000
    /\ Quote.calculateFee 1000000 2500 = Ok 2500
    /\ QuoteResult.fee q = 2500.
Proof.
  assert (Hraw : Quote.toRawAmount (Decimal.mk 1 (-3)) 9 = Ok 1000000)
    by (vm_compute; reflexivity).
  destruct (Quote.calculateExactInputQuote Sample.exactIn) as [q|] eqn:Hq;
    [|vm_compute in Hq; discriminate Hq].
  exists q. split; [reflexivity|]. split; [exact Hraw|].
  destruct (@C4_exact_input_fee_is_floor Sample.exactIn 1000000
              Hraw ltac:(lia) ltac:(split; vm_compute; discriminate))
    as (Hfee & Hall).
  split; [exact Hfee | exact (Hall q Hq)].
Defined.


(** C3 at the sample pool: 0.1 token costs 100011 lamports before the
    fee and 100262 with it. *)
Lemma C3_witness :
  exists q,
    Quote.calculateExactOutputQuote Sample.exactOut = Ok q
    /\ Quote.toRawAmount (Decimal.mk 1 (-1)) 6 = Ok 100000
    /\ Quote.calculateSwapInput 100000 1000000000 1000000000 = Ok 100011
    /\ QuoteResult.amountIn q = 100262
    /\ QuoteResult.fee q = 100262 - 100011.
Proof.
  assert (Hraw : Quote.toRawAmount (Decimal.mk 1 (-1)) 6 = Ok 100000)
    by (vm_compute; reflexivity).
  destruct (Quote.calculateExactOutputQuote Sample.exactOut) as [q|] eqn:Hq;
    [|vm_compute in Hq; discriminate Hq].
  exists q. split; [reflexivity|]. split; [exact Hraw|].
  destruct (@C3_exact_output_ceilings Sample.exactOut 100000
              Hraw ltac:(split; vm_compute; [discriminate | reflexivity])
              ltac:(vm_compute; discriminate) ltac:(vm_compute; reflexivity))
    as (Hbefore & _ & Hall).
  split; [exact Hbefore|].
  exact (proj2 (Hall q Hq)).
Defined.

(** C6 at the sample pool, 1 % tolerance. *)
Lemma C6_witness :
  exists q,
    Quote.calculateExactOutputQuote Sample.exactOut = Ok q
    /\ Quote.toRawAmount (Decimal.mk 1 (-1)) 6 = Ok 100000
    /\ Quote.slippageRate Sample.slippage = Ok 10000
    /\ QuoteResult.maxAmountIn q
       = QuoteResult.amountIn q + QuoteResult.amountIn q * 10000 / 1000000.
Proof.
  assert (Hraw : Quote.toRawAmount (Decimal.mk 1 (-1)) 6 = Ok 100000)
    by (vm_compute; reflexivity).
  assert (Hslip : Quote.slippageRate Sample.slippage = Ok 10000)
    by (vm_compute; reflexivity).
  destruct (Quote.calculateExactOutputQuote Sample.exactOut) as [q|] eqn:Hq;
    [|vm_compute in Hq; discriminate Hq].
  exists q. split; [reflexivity|]. split; [exact Hraw|]. split; [exact Hslip|].
  exact (@C6_max_amount_in_floor Sample.exactOut 100000 10000
           Hraw ltac:(lia) ltac:(vm_compute; discriminate)
           ltac:(vm_compute; reflexivity) Hslip ltac:(lia) q Hq).
Defined.


(** C10 at the two sample requests. *)
Lemma C10_witness :
  exists qin qout,
    Quote.calculateExactInputQuote Sample.exactIn = Ok qin
    /\ Quote.calculateExactOutputQuote Sample.exactOut = Ok qout
    /\ QuoteResult.maxAmountIn qin = QuoteResult.amountIn qin
    /\ QuoteResult.minAmountOut qout = QuoteResult.amountOut qout.
Proof.
  destruct (Quote.calculateExactInputQuote Sample.exactIn) as [qin|] eqn:Hin;
    [|vm_compute in Hin; discriminate Hin].
  destruct (Quote.calculateExactOutputQuote Sample.exactOut) as [qout|] eqn:Hout;
    [|vm_compute in Hout; discriminate Hout].
  exists qin, qout. split; [reflexivity|]. split; [reflexivity|].
  split.
  - exact (proj1 C10_bound_on_fixed_side Sample.exactIn qin Hin).
  - exact (proj2 C10_bound_on_fixed_side Sample.exactOut qout Hout).
Defined.

(** C5 at the empty buffer. *)
Lemma C5_witness :
  Sample.connection (Sample.account PumpFun.PUMPFUN_PROGRAM []) 0
  = Some (Sample.account PumpFun.PUMPFUN_PROGRAM [])
  /\ (List.length ([] : Buffer.t) <= 8)%nat
  /\ PumpFun.fetchPumpFunBondingCurveAccount
       (Sample.connection (Sample.account PumpFun.PUMPFUN_PROGRAM [])) 0
     = Ok (PumpFun.PumpFunBondingCurveAccount.mk 0 0 0 0 0 true).
Proof.
  split; [reflexivity|]. split; [cbn; lia|].
  pose proof (proj1 C5_decoders_accept_short_buffers
                (Sample.connection (Sample.account PumpFun.PUMPFUN_PROGRAM []))
                0 (Sample.account PumpFun.PUMPFUN_PROGRAM [])
                eq_refl eq_refl) as (Hfetch & _ & _ & Hshort).
  rewrite Hfetch. apply f_equal. apply Hshort. cbn; lia.
Defined.


(* ================================================================== *)
(** * Further properties *)

(** ** Arithmetic of the swap *)

Lemma swap_output_le_reserve (a inR outR : Z) :
  0 <= a -> 0 <= inR -> 0 <= outR -> 0 < inR + a ->
  0 <= a * outR / (inR + a) <= outR.
Proof.
  intros Ha Hi Ho Hd. split.
  - apply Z.div_pos; nia.
  - apply Z.div_le_upper_bound; nia.
Qed.

Lemma swap_output_mono (a1 a2 inR outR : Z) :
  0 <= a1 <= a2 -> 0 <= inR -> 0 <= outR -> 0 < inR + a1 ->
  a1 * outR / (inR + a1) <= a2 * outR / (inR + a2).
Proof.
  intros Ha Hi Ho Hd.
  pose proof (@swap_output_le_reserve a1 inR outR ltac:(lia) Hi Ho Hd) as [H0 H1].
  pose proof (Z.mul_div_le (a1 * outR) (inR + a1) Hd) as H2.
  apply Z.div_le_lower_bound; [lia|].
  set (o := a1 * outR / (inR + a1)) in *. nia.
Qed.

Lemma swap_output_invariant (a inR outR : Z) :
  0 <= a -> 0 <= inR -> 0 <= outR -> 0 < inR + a ->
  inR * outR <= (inR + a) * (outR - a * outR / (inR + a)).
Proof.
  intros Ha Hi Ho Hd.
  pose proof (Z.mul_div_le (a * outR) (inR + a) Hd) as H2.
  set (o := a * outR / (inR + a)) in *. nia.
Qed.

Lemma after_fee_mono (a1 a2 f : Z) :
  0 <= a1 <= a2 -> 0 <= f <= 1000000 ->
  a1 * f / 1000000 <= a2 * f / 1000000
  /\ a1 - a1 * f / 1000000 <= a2 - a2 * f / 1000000.
Proof.
  intros Ha Hf. split.
  - apply Z.div_le_mono; nia.
  - pose proof (Z.mul_div_le (a1 * f) 1000000 ltac:(lia)) as H1.
    pose proof (Z.mul_succ_div_gt (a1 * f) 1000000 ltac:(lia)) as H2.
    pose proof (Z.mul_div_le (a2 * f) 1000000 ltac:(lia)) as H3.
    pose proof (Z.mul_succ_div_gt (a2 * f) 1000000 ltac:(lia)) as H4.
    set (x1 := a1 * f / 1000000) in *. set (x2 := a2 * f / 1000000) in *.
    nia.
Qed.

(** The required input of [calculateSwapInput] buys at least the output. *)
Lemma swap_input_suffices (out inR outR : Z) :
  0 <= out < outR -> 0 <= inR ->
  let before := ceil_div (inR * out) (outR - out) in
  0 <= before
  /\ inR * outR <= (inR + before) * (outR - out)
  /\ (0 < inR + before -> out <= before * outR / (inR + before)).
Proof.
  intros Ho Hi before.
  pose proof (@ceil_div_spec (inR * out) (outR - out) ltac:(lia)) as [H1 H2].
  fold before in H1, H2.
  assert (Hb : 0 <= before) by (apply ceil_div_nonneg; nia).
  split; [exact Hb|]. split; [nia|].
  intros Hd. apply Z.div_le_lower_bound; [lia | nia].
Qed.

(** Grossing up by the fee rate leaves at least the net amount after the
    fee is taken again, and overshoots the floor fee by at most one. *)
Lemma gross_up_fee (before f : Z) :
  0 <= before -> 0 <= f < 1000000 ->
  let rawIn := ceil_div (before * 1000000) (1000000 - f) in
  before <= rawIn - rawIn * f / 1000000
  /\ rawIn * f / 1000000 <= rawIn - before <= rawIn * f / 1000000 + 1.
Proof.
  intros Hb Hf rawIn.
  pose proof (@ceil_div_spec (before * 1000000) (1000000 - f) ltac:(lia)) as [H1 H2].
  fold rawIn in H1, H2.
  assert (0 <= rawIn) by (apply ceil_div_nonneg; nia).
  pose proof (Z.mul_div_le (rawIn * f) 1000000 ltac:(lia)) as H3.
  pose proof (Z.mul_succ_div_gt (rawIn * f) 1000000 ltac:(lia)) as H4.
  set (x := rawIn * f / 1000000) in *.
  repeat split; nia.
Qed.

(** ** Exact-input quotes on unsigned data *)

(** The integer fields of a returned exact-input quote. *)
Lemma calculateExactInputQuote_amounts
    (params : ExactInputQuoteParams.t) (rawAmountIn : BN.t) (q : QuoteResult.t) :
  let pool := ExactInputQuoteParams.poolData params in
  let r := Quote.getReserves pool (ExactInputQuoteParams.direction params) in
  let feeRate := FeeConfig.tradeFeeRate (PoolData.feeConfig pool) in
  Quote.toRawAmount (ExactInputQuoteParams.amountIn params)
                    (Quote.inputDecimals r) = Ok rawAmountIn ->
  0 <= rawAmountIn ->
  0 <= Quote.inputReserve r ->
  0 <= Quote.outputReserve r ->
  0 <= feeRate < 1000000 ->
  Quote.calculateExactInputQuote params = Ok q ->
  let fee := rawAmountIn * feeRate / 1000000 in
  let afterFee := rawAmountIn - fee in
  QuoteResult.amountIn q = rawAmountIn
  /\ QuoteResult.fee q = fee
  /\ 0 < Quote.inputReserve r + afterFee
  /\ QuoteResult.amountOut q
     = afterFee * Quote.outputReserve r / (Quote.inputReserve r + afterFee)
  /\ exists slippageBN,
       Quote.slippageRate (ExactInputQuoteParams.slippage params) = Ok slippageBN
       /\ QuoteResult.minAmountOut q
          = QuoteResult.amountOut q
            - Z.quot (QuoteResult.amountOut q * slippageBN) 1000000.
Proof.
  intros pool r feeRate Hraw Hin HinR HoutR Hfee Hq fee afterFee.
  pose proof (@fee_le_amount rawAmountIn feeRate Hin ltac:(lia)) as Hf.
  apply calculateExactInputQuote_Ok in Hq.
  destruct Hq as (raw & fee' & out & sBN & sAmt & Ea & Eb & Ec & Ed & Ee
                  & Hai & Hao & Hmin & _ & Hfq & _).
  fold pool r in Ea. fold pool r feeRate in Eb. fold pool r in Ec.
  rewrite Hraw in Ea. injection Ea as <-.
  rewrite calculateFee_nonneg in Eb by lia. injection Eb as <-.
  fold fee afterFee in Ec.
  apply calculateSwapOutput_Ok in Ec; [|subst afterFee fee; lia|lia|lia].
  destruct Ec as [Hne ->].
  unfold BN.div, Quote.FEE_RATE_DENOMINATOR in Ee. cbn in Ee. injection Ee as <-.
  split; [exact Hai|]. split; [exact Hfq|].
  split; [subst afterFee fee; lia|]. split; [exact Hao|].
  exists sBN. split; [exact Ed|]. rewrite Hmin, Hao. reflexivity.
Qed.

(** X1: an exact-input quote never lowers the product of the reserves,
    and its fee and output stay within the input and the output reserve. *)
Theorem X1_exact_input_keeps_product
    (params : ExactInputQuoteParams.t) (rawAmountIn : BN.t) :
  let pool := ExactInputQuoteParams.poolData params in
  let r := Quote.getReserves pool (ExactInputQuoteParams.direction params) in
  let feeRate := FeeConfig.tradeFeeRate (PoolData.feeConfig pool) in
  Quote.toRawAmount (ExactInputQuoteParams.amountIn params)
                    (Quote.inputDecimals r) = Ok rawAmountIn ->
  0 <= rawAmountIn ->
  0 <= Quote.inputReserve r ->
  0 <= Quote.outputReserve r ->
  0 <= feeRate < 1000000 ->
  forall q, Quote.calculateExactInputQuote params = Ok q ->
    Quote.inputReserve r * Quote.outputReserve r
    <= (Quote.inputReserve r + (QuoteResult.amountIn q - QuoteResult.fee q))
       * (Quote.outputReserve r - QuoteResult.amountOut q)
    /\ 0 <= QuoteResult.fee q <= QuoteResult.amountIn q
    /\ 0 <= QuoteResult.amountOut q <= Quote.outputReserve r.
Proof.
  intros pool r feeRate Hraw Hin HinR HoutR Hfee q Hq.
  destruct (@calculateExactInputQuote_amounts params rawAmountIn q
              Hraw Hin HinR HoutR Hfee Hq) as (Hai & Hfq & Hd & Hao & _).
  fold pool r feeRate in Hfq, Hd, Hao.
  pose proof (@fee_le_amount rawAmountIn feeRate Hin ltac:(lia)) as Hf.
  rewrite Hai, Hfq, Hao.
  split; [apply swap_output_invariant; lia|].
  split; [lia|]. apply swap_output_le_reserve; lia.
Qed.

(** X2: on one pool and direction a larger raw input never pays a smaller
    fee nor receives a smaller output. *)
Theorem X2_exact_input_monotone
    (p1 p2 : ExactInputQuoteParams.t) (raw1 raw2 : BN.t) :
  ExactInputQuoteParams.poolData p1 = ExactInputQuoteParams.poolData p2 ->
  ExactInputQuoteParams.direction p1 = ExactInputQuoteParams.direction p2 ->
  let pool := ExactInputQuoteParams.poolData p1 in
  let r := Quote.getReserves pool (ExactInputQuoteParams.direction p1) in
  let feeRate := FeeConfig.tradeFeeRate (PoolData.feeConfig pool) in
  Quote.toRawAmount (ExactInputQuoteParams.amountIn p1)
                    (Quote.inputDecimals r) = Ok raw1 ->
  Quote.toRawAmount (ExactInputQuoteParams.amountIn p2)
                    (Quote.inputDecimals r) = Ok raw2 ->
  0 <= raw1 <= raw2 ->
  0 <= Quote.inputReserve r ->
  0 <= Quote.outputReserve r ->
  0 <= feeRate < 1000000 ->
  forall q1 q2,
    Quote.calculateExactInputQuote p1 = Ok q1 ->
    Quote.calculateExactInputQuote p2 = Ok q2 ->
    QuoteResult.fee q1 <= QuoteResult.fee q2
    /\ QuoteResult.amountOut q1 <= QuoteResult.amountOut q2.
Proof.
  intros Hpool Hdir pool r feeRate Hraw1 Hraw2 Hle HinR HoutR Hfee q1 q2 Hq1 Hq2.
  destruct (@calculateExactInputQuote_amounts p1 raw1 q1
              Hraw1 ltac:(lia) HinR HoutR Hfee Hq1) as (_ & Hf1 & Hd1 & Ho1 & _).
  assert (Hraw2' : Quote.toRawAmount (ExactInputQuoteParams.amountIn p2)
            (Quote.inputDecimals
               (Quote.getReserves (ExactInputQuoteParams.poolData p2)
                  (ExactInputQuoteParams.direction p2))) = Ok raw2).
  { rewrite <- Hpool, <- Hdir. exact Hraw2. }
  destruct (@calculateExactInputQuote_amounts p2 raw2 q2 Hraw2' ltac:(lia)
              ltac:(rewrite <- Hpool, <- Hdir; exact HinR)
              ltac:(rewrite <- Hpool, <- Hdir; exact HoutR)
              ltac:(rewrite <- Hpool; exact Hfee) Hq2)
    as (_ & Hf2 & Hd2 & Ho2 & _).
  rewrite <- Hpool in Hf2, Hd2, Ho2. rewrite <- Hdir in Hd2, Ho2.
  fold pool r feeRate in Hf1, Hd1, Ho1, Hf2, Hd2, Ho2.
  destruct (@after_fee_mono raw1 raw2 feeRate Hle ltac:(lia)) as [Hfm Ham].
  pose proof (@fee_le_amount raw1 feeRate ltac:(lia) ltac:(lia)) as Hb1.
  rewrite Hf1, Hf2, Ho1, Ho2. split; [exact Hfm|].
  apply swap_output_mono; lia.
Qed.

(** X3: the slippage bound of an exact-input quote is the output less
    the floor of its share, and lies between zero and the output, for a
    tolerance between 0 and 100 %. *)
Theorem X3_exact_input_min_amount_out
    (params : ExactInputQuoteParams.t) (rawAmountIn slippageBN : BN.t) :
  let pool := ExactInputQuoteParams.poolData params in
  let r := Quote.getReserves pool (ExactInputQuoteParams.direction params) in
  let feeRate := FeeConfig.tradeFeeRate (PoolData.feeConfig pool) in
  Quote.toRawAmount (ExactInputQuoteParams.amountIn params)
                    (Quote.inputDecimals r) = Ok rawAmountIn ->
  0 <= rawAmountIn ->
  0 <= Quote.inputReserve r ->
  0 <= Quote.outputReserve r ->
  0 <= feeRate < 1000000 ->
  Quote.slippageRate (ExactInputQuoteParams.slippage params) = Ok slippageBN ->
  0 <= slippageBN <= 1000000 ->
  forall q, Quote.calculateExactInputQuote params = Ok q ->
    QuoteResult.minAmountOut q
    = QuoteResult.amountOut q - QuoteResult.amountOut q * slippageBN / 1000000
    /\ 0 <= QuoteResult.minAmountOut q <= QuoteResult.amountOut q
    /\ (slippageBN = 0 -> QuoteResult.minAmountOut q = QuoteResult.amountOut q).
Proof.
  intros pool r feeRate Hraw Hin HinR HoutR Hfee Hslip Hs q Hq.
  destruct (@calculateExactInputQuote_amounts params rawAmountIn q
              Hraw Hin HinR HoutR Hfee Hq) as (_ & _ & Hd & Hao & s & Es & Hmin).
  fold pool r feeRate in Hd, Hao.
  rewrite Hslip in Es. injection Es as <-.
  pose proof (@fee_le_amount rawAmountIn feeRate Hin ltac:(lia)) as Hf.
  assert (Ho : 0 <= QuoteResult.amountOut q).
  { rewrite Hao. apply Z.div_pos; nia. }
  rewrite Z.quot_div_nonneg in Hmin by nia.
  pose proof (@fee_le_amount (QuoteResult.amountOut q) slippageBN Ho Hs) as Hb.
  split; [exact Hmin|]. split; [lia|].
  intros ->. rewrite Hmin, Z.mul_0_r. cbn. lia.
Qed.

(** ** Exact-output quotes on unsigned data *)

(** X4: a returned exact-output quote keeps the requested output below
    the reserve, never lowers the product of the reserves, and charges a
    fee that is the floor fee on its input or one unit more. *)
Theorem X4_exact_output_bounds
    (params : ExactOutputQuoteParams.t) (rawAmountOut : BN.t) :
  let pool := ExactOutputQuoteParams.poolData params in
  let r := Quote.getReserves pool (ExactOutputQuoteParams.direction params) in
  let feeRate := FeeConfig.tradeFeeRate (PoolData.feeConfig pool) in
  Quote.toRawAmount (ExactOutputQuoteParams.amountOut params)
                    (Quote.outputDecimals r) = Ok rawAmountOut ->
  0 <= rawAmountOut ->
  0 <= Quote.inputReserve r ->
  0 <= feeRate < 1000000 ->
  forall q, Quote.calculateExactOutputQuote params = Ok q ->
    0 <= QuoteResult.amountOut q < Quote.outputReserve r
    /\ Quote.inputReserve r * Quote.outputReserve r
       <= (Quote.inputReserve r + (QuoteResult.amountIn q - QuoteResult.fee q))
          * (Quote.outputReserve r - QuoteResult.amountOut q)
    /\ 0 <= QuoteResult.fee q
    /\ QuoteResult.amountIn q * feeRate / 1000000 <= QuoteResult.fee q
       <= QuoteResult.amountIn q * feeRate / 1000000 + 1.
Proof.
  intros pool r feeRate Hraw Hout HinR Hfee q Hq.
  pose proof Hq as Hq'.
  apply calculateExactOutputQuote_Ok in Hq'.
  destruct Hq' as (out & _ & _ & _ & _ & Ea & Hlt & _).
  fold pool r in Ea, Hlt. rewrite Hraw in Ea. injection Ea as <-.
  destruct (@calculateExactOutputQuote_amounts params rawAmountOut Hraw
              ltac:(fold pool r; lia) HinR ltac:(fold pool; lia))
    as (_ & _ & Hall).
  destruct (Hall q Hq) as (Hao & Hai & Hfq).
  fold pool r feeRate in Hai, Hfq.
  destruct (@swap_input_suffices rawAmountOut (Quote.inputReserve r)
              (Quote.outputReserve r) ltac:(lia) HinR) as (Hb & Hk & _).
  set (before := ceil_div (Quote.inputReserve r * rawAmountOut)
                          (Quote.outputReserve r - rawAmountOut)) in *.
  destruct (@gross_up_fee before feeRate Hb Hfee) as (_ & Hlo & Hhi).
  set (rawIn := ceil_div (before * 1000000) (1000000 - feeRate)) in *.
  rewrite Hao, Hai, Hfq.
  replace (rawIn - (rawIn - before)) with before by lia.
  assert (0 <= rawIn * feeRate / 1000000).
  { apply Z.div_pos; [|lia]. apply Z.mul_nonneg_nonneg; [|lia].
    apply ceil_div_nonneg; nia. }
  repeat split; lia.
Qed.

(** X5: the input that an exact-output quote asks for is enough: fed to
    an exact-input quote on the same pool and direction it yields at
    least the requested output. *)
Theorem X5_exact_output_input_suffices
    (pout : ExactOutputQuoteParams.t) (pin : ExactInputQuoteParams.t)
    (rawAmountOut : BN.t) (qout qin : QuoteResult.t) :
  let pool := ExactOutputQuoteParams.poolData pout in
  let dir := ExactOutputQuoteParams.direction pout in
  let r := Quote.getReserves pool dir in
  let feeRate := FeeConfig.tradeFeeRate (PoolData.feeConfig pool) in
  ExactInputQuoteParams.poolData pin = pool ->
  ExactInputQuoteParams.direction pin = dir ->
  Quote.toRawAmount (ExactOutputQuoteParams.amountOut pout)
                    (Quote.outputDecimals r) = Ok rawAmountOut ->
  0 <= rawAmountOut ->
  0 <= Quote.inputReserve r ->
  0 <= feeRate < 1000000 ->
  Quote.calculateExactOutputQuote pout = Ok qout ->
  Quote.toRawAmount (ExactInputQuoteParams.amountIn pin)
                    (Quote.inputDecimals r) = Ok (QuoteResult.amountIn qout) ->
  Quote.calculateExactInputQuote pin = Ok qin ->
  QuoteResult.amountOut qout <= QuoteResult.amountOut qin.
Proof.
  intros pool dir r feeRate Hpool Hdir Hraw Hout HinR Hfee Hqout Hrawin Hqin.
  pose proof Hqout as Hq'.
  apply calculateExactOutputQuote_Ok in Hq'.
  destruct Hq' as (out & _ & _ & _ & _ & Ea & Hlt & _).
  fold pool dir r in Ea, Hlt. rewrite Hraw in Ea. injection Ea as <-.
  destruct (@calculateExactOutputQuote_amounts pout rawAmountOut Hraw
              ltac:(fold pool dir r; lia) HinR ltac:(fold pool; lia))
    as (_ & _ & Hall).
  destruct (Hall qout Hqout) as (Hao & Hai & _).
  fold pool dir r feeRate in Hai.
  destruct (@swap_input_suffices rawAmountOut (Quote.inputReserve r)
              (Quote.outputReserve r) ltac:(lia) HinR) as (Hb & _ & Hsuff).
  set (before := ceil_div (Quote.inputReserve r * rawAmountOut)
                          (Quote.outputReserve r - rawAmountOut)) in *.
  destruct (@gross_up_fee before feeRate Hb Hfee) as (Hnet & _ & _).
  set (rawIn := ceil_div (before * 1000000) (1000000 - feeRate)) in *.
  assert (Hr0 : 0 <= rawIn).
  { apply ceil_div_nonneg; nia. }
  destruct (@calculateExactInputQuote_amounts pin rawIn qin
              ltac:(rewrite Hpool, Hdir; fold r; rewrite <- Hai; exact Hrawin)
              Hr0
              ltac:(rewrite Hpool, Hdir; exact HinR)
              ltac:(rewrite Hpool, Hdir; fold r; lia)
              ltac:(rewrite Hpool; exact Hfee) Hqin)
    as (_ & _ & Hd & Ho & _).
  rewrite Hpool in Hd, Ho. rewrite Hdir in Hd, Ho.
  fold pool dir r feeRate in Hd, Ho.
  set (afterFee := rawIn - rawIn * feeRate / 1000000) in *.
  rewrite Hao, Ho.
  destruct (Z.eq_dec rawAmountOut 0) as [->|Hne].
  - apply Z.div_pos; nia.
  - assert (Hbpos : 0 < Quote.inputReserve r + before).
    { destruct (Z.eq_dec (Quote.inputReserve r + before) 0) as [E|]; [|lia].
      exfalso.
      assert (Hb0 : before = 0) by lia.
      assert (Hr : rawIn = 0).
      { subst rawIn. rewrite Hb0. apply ceil_div_unique; lia. }
      subst afterFee. rewrite Hr in Hd. cbn in Hd. lia. }
    etransitivity; [apply Hsuff; exact Hbpos|].
    apply swap_output_mono; lia.
Qed.

(** Both ceilings grow with the requested output. *)
Lemma swap_input_mono (out1 out2 inR outR : Z) :
  0 <= out1 <= out2 -> out2 < outR -> 0 <= inR ->
  ceil_div (inR * out1) (outR - out1) <= ceil_div (inR * out2) (outR - out2).
Proof.
  intros Ho Hlt HinR.
  pose proof (@ceil_div_spec (inR * out1) (outR - out1) ltac:(lia)) as H1.
  pose proof (@ceil_div_spec (inR * out2) (outR - out2) ltac:(lia)) as H2.
  pose proof (@ceil_div_nonneg (inR * out2) (outR - out2) ltac:(nia) ltac:(lia)) as H0.
  set (c1 := ceil_div (inR * out1) (outR - out1)) in *.
  set (c2 := ceil_div (inR * out2) (outR - out2)) in *.
  assert (inR * out1 <= inR * out2) by nia.
  assert (c2 * (outR - out2) <= c2 * (outR - out1)) by nia.
  nia.
Qed.

Lemma gross_up_mono (b1 b2 f : Z) :
  0 <= b1 <= b2 -> 0 <= f < 1000000 ->
  let r1 := ceil_div (b1 * 1000000) (1000000 - f) in
  let r2 := ceil_div (b2 * 1000000) (1000000 - f) in
  r1 <= r2 /\ r1 - b1 <= r2 - b2.
Proof.
  intros Hb Hf r1 r2.
  pose proof (@ceil_div_spec (b1 * 1000000) (1000000 - f) ltac:(lia)) as H1.
  pose proof (@ceil_div_spec (b2 * 1000000) (1000000 - f) ltac:(lia)) as H2.
  fold r1 in H1. fold r2 in H2.
  split; nia.
Qed.

(** X24: on one pool and direction a larger requested output never
    costs a smaller input nor a smaller fee. *)
Theorem X24_exact_output_monotone
    (p1 p2 : ExactOutputQuoteParams.t) (raw1 raw2 : BN.t) :
  ExactOutputQuoteParams.poolData p1 = ExactOutputQuoteParams.poolData p2 ->
  ExactOutputQuoteParams.direction p1 = ExactOutputQuoteParams.direction p2 ->
  let pool := ExactOutputQuoteParams.poolData p1 in
  let r := Quote.getReserves pool (ExactOutputQuoteParams.direction p1) in
  let feeRate := FeeConfig.tradeFeeRate (PoolData.feeConfig pool) in
  Quote.toRawAmount (ExactOutputQuoteParams.amountOut p1)
                    (Quote.outputDecimals r) = Ok raw1 ->
  Quote.toRawAmount (ExactOutputQuoteParams.amountOut p2)
                    (Quote.outputDecimals r) = Ok raw2 ->
  0 <= raw1 <= raw2 ->
  0 <= Quote.inputReserve r ->
  0 <= feeRate < 1000000 ->
  forall q1 q2,
    Quote.calculateExactOutputQuote p1 = Ok q1 ->
    Quote.calculateExactOutputQuote p2 = Ok q2 ->
    QuoteResult.amountIn q1 <= QuoteResult.amountIn q2
    /\ QuoteResult.fee q1 <= QuoteResult.fee q2.
Proof.
  intros Hpool Hdir pool r feeRate Hraw1 Hraw2 Hle HinR Hfee q1 q2 Hq1 Hq2.
  assert (Hlt2 : raw2 < Quote.outputReserve r).
  { pose proof Hq2 as Hq'. apply calculateExactOutputQuote_Ok in Hq'.
    destruct Hq' as (out & _ & _ & _ & _ & Ea & Hlt & _).
    rewrite <- Hpool, <- Hdir in Ea, Hlt. fold pool r in Ea, Hlt.
    rewrite Hraw2 in Ea. injection Ea as <-. exact Hlt. }
  destruct (@calculateExactOutputQuote_amounts p1 raw1 Hraw1
              ltac:(fold pool r; lia) HinR ltac:(fold pool; lia))
    as (_ & _ & Hall1).
  assert (Hraw2' : Quote.toRawAmount (ExactOutputQuoteParams.amountOut p2)
            (Quote.outputDecimals
               (Quote.getReserves (ExactOutputQuoteParams.poolData p2)
                  (ExactOutputQuoteParams.direction p2))) = Ok raw2).
  { rewrite <- Hpool, <- Hdir. exact Hraw2. }
  destruct (@calculateExactOutputQuote_amounts p2 raw2 Hraw2'
              ltac:(rewrite <- Hpool, <- Hdir; fold pool r; lia)
              ltac:(rewrite <- Hpool, <- Hdir; exact HinR)
              ltac:(rewrite <- Hpool; fold pool; lia))
    as (_ & _ & Hall2).
  destruct (Hall1 q1 Hq1) as (_ & Hi1 & Hf1).
  destruct (Hall2 q2 Hq2) as (_ & Hi2 & Hf2).
  rewrite <- Hpool in Hi2, Hf2. rewrite <- Hdir in Hi2, Hf2.
  fold pool r feeRate in Hi1, Hf1, Hi2, Hf2.
  pose proof (@swap_input_mono raw1 raw2 (Quote.inputReserve r)
                (Quote.outputReserve r) Hle Hlt2 HinR) as Hb.
  assert (Hb0 : 0 <= ceil_div (Quote.inputReserve r * raw1)
                              (Quote.outputReserve r - raw1)).
  { apply ceil_div_nonneg; nia. }
  destruct (@gross_up_mono _ _ feeRate (conj Hb0 Hb) Hfee) as (Hr & Hfe).
  rewrite Hi1, Hi2, Hf1, Hf2. split; [exact Hr | exact Hfe].
Qed.

(** ** Batches *)

Lemma mapM_Ok_iff (A B : Type) (f : A -> result B) (l : list A) (bs : list B) :
  Quote.mapM f l = Ok bs <-> Forall2 (fun a b => f a = Ok b) l bs.
Proof.
  revert bs; induction l as [|a l IH]; intros bs; cbn [Quote.mapM].
  - split.
    + intros H; injection H as <-. constructor.
    + intros H; inversion H; reflexivity.
  - split.
    + intros H. destruct (f a) as [b|] eqn:Ea; cbn [bind] in H; [|discriminate].
      destruct (Quote.mapM f l) as [bs'|] eqn:El; cbn [bind] in H; [|discriminate].
      injection H as <-. constructor; [exact Ea|]. now apply IH.
    + intros H. inversion H as [|a' b l' bs' Ha Hl]; subst.
      rewrite Ha. cbn [bind]. apply IH in Hl. rewrite Hl. reflexivity.
Qed.

Lemma mapM_Err (A B : Type) (f : A -> result B) (l : list A) (e : error) :
  Quote.mapM f l = Err e -> exists a, In a l /\ f a = Err e.
Proof.
  induction l as [|a l IH]; cbn [Quote.mapM]; [discriminate|].
  destruct (f a) as [b|e'] eqn:Ea; cbn [bind].
  - destruct (Quote.mapM f l) as [bs'|e'] eqn:El; cbn [bind]; [discriminate|].
    intros H; injection H as ->.
    destruct (IH eq_refl) as (a' & Hin & Ha'). exists a'. split; [now right | exact Ha'].
  - intros H; injection H as ->. exists a. split; [now left | exact Ea].
Qed.

(** X6: a batch returns exactly the quotes of its amounts, one for one and
    in order, each computed against the same pool; it throws exactly
    when one of them throws, with the error of one of its amounts. *)
Theorem X6_batch_is_pointwise
    (poolData : PoolData.t) (amounts : list Decimal.t) (slippage : float)
    (direction : SwapDirection) (isExactInput : bool) :
  (forall qs,
     Quote.calculateMultipleQuotes poolData amounts slippage direction isExactInput
     = Ok qs
     <-> Forall2 (fun amount q =>
                    single_quote poolData slippage direction isExactInput amount
                    = Ok q) amounts qs)
  /\ (forall e,
        Quote.calculateMultipleQuotes poolData amounts slippage direction
          isExactInput = Err e ->
        exists amount,
          In amount amounts
          /\ single_quote poolData slippage direction isExactInput amount = Err e).
Proof.
  split.
  - intros qs. unfold Quote.calculateMultipleQuotes. apply mapM_Ok_iff.
  - intros e H. unfold Quote.calculateMultipleQuotes in H.
    apply mapM_Err in H. exact H.
Qed.

(** ** The quote theorems at the sample pool *)

(** X1 at the sample pool. *)
Lemma X1_witness :
  exists q,
    Quote.calculateExactInputQuote Sample.exactIn = Ok q
    /\ Quote.toRawAmount (Decimal.mk 1 (-3)) 9 = Ok 1000000
    /\ 1000000000 * 1000000000
       <= (1000000000 + (QuoteResult.amountIn q - QuoteResult.fee q))
          * (1000000000 - QuoteResult.amountOut q)
    /\ 0 <= QuoteResult.fee q <= QuoteResult.amountIn q
    /\ 0 <= QuoteResult.amountOut q <= 1000000000.
Proof.
  assert (Hraw : Quote.toRawAmount (Decimal.mk 1 (-3)) 9 = Ok 1000000)
    by (vm_compute; reflexivity).
  destruct (Quote.calculateExactInputQuote Sample.exactIn) as [q|] eqn:Hq;
    [|vm_compute in Hq; discriminate Hq].
  exists q. split; [reflexivity|]. split; [exact Hraw|].
  exact (@X1_exact_input_keeps_product Sample.exactIn 1000000
           Hraw ltac:(lia) ltac:(vm_compute; discriminate)
           ltac:(vm_compute; discriminate)
           ltac:(split; vm_compute; [discriminate | reflexivity]) q Hq).
Defined.

(** X2 at the sample pool: 0.001 SOL against 0.002 SOL. *)
Lemma X2_witness :
  exists q1 q2,
    Quote.calculateExactInputQuote Sample.exactIn = Ok q1
    /\ Quote.calculateExactInputQuote
         (ExactInputQuoteParams.mk Sample.pool (Decimal.mk 2 (-3))
            Sample.slippage solToToken) = Ok q2
    /\ QuoteResult.fee q1 <= QuoteResult.fee q2
    /\ QuoteResult.amountOut q1 <= QuoteResult.amountOut q2.
Proof.
  set (p2 := ExactInputQuoteParams.mk Sample.pool (Decimal.mk 2 (-3))
               Sample.slippage solToToken).
  assert (Hraw1 : Quote.toRawAmount (Decimal.mk 1 (-3)) 9 = Ok 1000000)
    by (vm_compute; reflexivity).
  assert (Hraw2 : Quote.toRawAmount (Decimal.mk 2 (-3)) 9 = Ok 2000000)
    by (vm_compute; reflexivity).
  destruct (Quote.calculateExactInputQuote Sample.exactIn) as [q1|] eqn:Hq1;
    [|vm_compute in Hq1; discriminate Hq1].
  destruct (Quote.calculateExactInputQuote p2) as [q2|] eqn:Hq2;
    [|vm_compute in Hq2; discriminate Hq2].
  exists q1, q2. split; [reflexivity|]. split; [reflexivity|].
  exact (@X2_exact_input_monotone Sample.exactIn p2 1000000 2000000
           eq_refl eq_refl Hraw1 Hraw2 ltac:(lia)
           ltac:(vm_compute; discriminate) ltac:(vm_compute; discriminate)
           ltac:(split; vm_compute; [discriminate | reflexivity])
           q1 q2 Hq1 Hq2).
Defined.

(** X3 at the sample pool, 1 % tolerance. *)
Lemma X3_witness :
  exists q,
    Quote.calculateExactInputQuote Sample.exactIn = Ok q
    /\ Quote.slippageRate Sample.slippage = Ok 10000
    /\ QuoteResult.minAmountOut q
       = QuoteResult.amountOut q - QuoteResult.amountOut q * 10000 / 1000000
    /\ 0 <= QuoteResult.minAmountOut q <= QuoteResult.amountOut q.
Proof.
  assert (Hraw : Quote.toRawAmount (Decimal.mk 1 (-3)) 9 = Ok 1000000)
    by (vm_compute; reflexivity).
  assert (Hslip : Quote.slippageRate Sample.slippage = Ok 10000)
    by (vm_compute; reflexivity).
  destruct (Quote.calculateExactInputQuote Sample.exactIn) as [q|] eqn:Hq;
    [|vm_compute in Hq; discriminate Hq].
  exists q. split; [reflexivity|]. split; [exact Hslip|].
  destruct (@X3_exact_input_min_amount_out Sample.exactIn 1000000 10000
              Hraw ltac:(lia) ltac:(vm_compute; discriminate)
              ltac:(vm_compute; discriminate)
              ltac:(split; vm_compute; [discriminate | reflexivity])
              Hslip ltac:(lia) q Hq) as (Hmin & Hb & _).
  split; [exact Hmin | exact Hb].
Defined.

(** X4 at the sample pool. *)
Lemma X4_witness :
  exists q,
    Quote.calculateExactOutputQuote Sample.exactOut = Ok q
    /\ Quote.toRawAmount (Decimal.mk 1 (-1)) 6 = Ok 100000
    /\ 0 <= QuoteResult.amountOut q < 1000000000
    /\ 1000000000 * 1000000000
       <= (1000000000 + (QuoteResult.amountIn q - QuoteResult.fee q))
          * (1000000000 - QuoteResult.amountOut q)
    /\ 0 <= QuoteResult.fee q
    /\ QuoteResult.amountIn q * 2500 / 1000000 <= QuoteResult.fee q
       <= QuoteResult.amountIn q * 2500 / 1000000 + 1.
Proof.
  assert (Hraw : Quote.toRawAmount (Decimal.mk 1 (-1)) 6 = Ok 100000)
    by (vm_compute; reflexivity).
  destruct (Quote.calculateExactOutputQuote Sample.exactOut) as [q|] eqn:Hq;
    [|vm_compute in Hq; discriminate Hq].
  exists q. split; [reflexivity|]. split; [exact Hraw|].
  exact (@X4_exact_output_bounds Sample.exactOut 100000
           Hraw ltac:(lia) ltac:(vm_compute; discriminate)
           ltac:(split; vm_compute; [discriminate | reflexivity]) q Hq).
Defined.

(** X5 at the sample pool: the 100262 lamports asked for 0.1 token buy
    at least 0.1 token. *)
Lemma X5_witness :
  exists qout qin,
    Quote.calculateExactOutputQuote Sample.exactOut = Ok qout
    /\ Quote.calculateExactInputQuote
         (ExactInputQuoteParams.mk Sample.pool (Decimal.mk 100262 (-9))
            Sample.slippage solToToken) = Ok qin
    /\ QuoteResult.amountOut qout <= QuoteResult.amountOut qin.
Proof.
  set (pin := ExactInputQuoteParams.mk Sample.pool (Decimal.mk 100262 (-9))
                Sample.slippage solToToken).
  assert (Hraw : Quote.toRawAmount (Decimal.mk 1 (-1)) 6 = Ok 100000)
    by (vm_compute; reflexivity).
  destruct (Quote.calculateExactOutputQuote Sample.exactOut) as [qout|] eqn:Hqout;
    [|vm_compute in Hqout; discriminate Hqout].
  destruct (Quote.calculateExactInputQuote pin) as [qin|] eqn:Hqin;
    [|vm_compute in Hqin; discriminate Hqin].
  exists qout, qin. split; [reflexivity|]. split; [reflexivity|].
  assert (Hrawin : Quote.toRawAmount (Decimal.mk 100262 (-9)) 9
                   = Ok (QuoteResult.amountIn qout)).
  { pose proof Hqout as H. vm_compute in H. injection H as <-.
    vm_compute. reflexivity. }
  exact (@X5_exact_output_input_suffices Sample.exactOut pin 100000 qout qin
           eq_refl eq_refl Hraw ltac:(lia) ltac:(vm_compute; discriminate)
           ltac:(split; vm_compute; [discriminate | reflexivity])
           Hqout Hrawin Hqin).
Defined.

(** X6 at the sample pool: a batch of two amounts. *)
Lemma X6_witness :
  exists qs,
    Quote.calculateMultipleQuotes Sample.pool
      [Decimal.mk 1 (-3); Decimal.mk 2 (-3)] Sample.slippage solToToken true
    = Ok qs
    /\ Forall2 (fun amount q =>
                  single_quote Sample.pool Sample.slippage solToToken true amount
                  = Ok q)
         [Decimal.mk 1 (-3); Decimal.mk 2 (-3)] qs.
Proof.
  destruct (Quote.calculateMultipleQuotes Sample.pool
              [Decimal.mk 1 (-3); Decimal.mk 2 (-3)] Sample.slippage
              solToToken true) as [qs|] eqn:Hqs;
    [|vm_compute in Hqs; discriminate Hqs].
  exists qs. split; [reflexivity|].
  exact (proj1 (proj1 (@X6_batch_is_pointwise Sample.pool
                         [Decimal.mk 1 (-3); Decimal.mk 2 (-3)]
                         Sample.slippage solToToken true) qs) Hqs).
Defined.

(** X24 at the sample pool: 0.1 token against 0.2 token. *)
Lemma X24_witness :
  exists q1 q2,
    Quote.calculateExactOutputQuote Sample.exactOut = Ok q1
    /\ Quote.calculateExactOutputQuote
         (ExactOutputQuoteParams.mk Sample.pool (Decimal.mk 2 (-1))
            Sample.slippage solToToken) = Ok q2
    /\ QuoteResult.amountIn q1 <= QuoteResult.amountIn q2
    /\ QuoteResult.fee q1 <= QuoteResult.fee q2.
Proof.
  set (p2 := ExactOutputQuoteParams.mk Sample.pool (Decimal.mk 2 (-1))
               Sample.slippage solToToken).
  assert (Hraw1 : Quote.toRawAmount (Decimal.mk 1 (-1)) 6 = Ok 100000)
    by (vm_compute; reflexivity).
  assert (Hraw2 : Quote.toRawAmount (Decimal.mk 2 (-1)) 6 = Ok 200000)
    by (vm_compute; reflexivity).
  destruct (Quote.calculateExactOutputQuote Sample.exactOut) as [q1|] eqn:Hq1;
    [|vm_compute in Hq1; discriminate Hq1].
  destruct (Quote.calculateExactOutputQuote p2) as [q2|] eqn:Hq2;
    [|vm_compute in Hq2; discriminate Hq2].
  exists q1, q2. split; [reflexivity|]. split; [reflexivity|].
  exact (@X24_exact_output_monotone Sample.exactOut p2 100000 200000
           eq_refl eq_refl Hraw1 Hraw2 ltac:(lia)
           ltac:(vm_compute; discriminate)
           ltac:(split; vm_compute; [discriminate | reflexivity])
           q1 q2 Hq1 Hq2).
Defined.

(** ** Human and raw amounts *)

Lemma round_small (d : Decimal.t) :
  Z.abs (Decimal.coef d) < 10 ^ 20 -> Decimal.round d = d.
Proof.
  intros Hc. unfold Decimal.round. cbv zeta.
  destruct (Z.leb_spec (Decimal.ndigits (Z.abs (Decimal.coef d))
                        - Decimal.precision) 0) as [|Hk]; [reflexivity|].
  exfalso.
  destruct (Z.eq_dec (Decimal.coef d) 0) as [E|E].
  - rewrite E in Hk. vm_compute in Hk. discriminate.
  - assert (Ha : 0 < Z.abs (Decimal.coef d)) by lia.
    destruct (ndigits_spec Ha) as (_ & Hlo & _).
    unfold Decimal.precision in Hk.
    assert (Decimal.ndigits (Z.abs (Decimal.coef d)) - 1 < 20).
    { apply (Z.pow_lt_mono_r_iff 10); lia. }
    lia.
Qed.

(** [toRawAmount] of an amount of at most twenty digits. *)
Lemma toRawAmount_small (c e d : Z) :
  Z.abs c < 10 ^ 20 ->
  Quote.toRawAmount (Decimal.mk c e) d
  = if 0 <=? e + d then
      if Z.abs c * 10 ^ (e + d) <? 10 ^ 21 then Ok (c * 10 ^ (e + d))
      else Err BNAssertion
    else Ok (Z.quot c (10 ^ (- (e + d)))).
Proof.
  intros Hc. unfold Quote.toRawAmount, Decimal.mul, Decimal.pow10.
  cbn [Decimal.coef Decimal.expo]. rewrite Z.mul_1_r.
  rewrite round_small by exact Hc.
  unfold Decimal.truncate. cbn [Decimal.coef Decimal.expo].
  destruct (Z.leb_spec 0 (e + d)) as [He|He].
  - unfold Decimal.to_BN, Decimal.toExpPos. cbn [Decimal.coef Decimal.expo].
    assert (0 < 10 ^ (e + d)) by (apply Z.pow_pos_nonneg; lia).
    rewrite Z.abs_mul, (Z.abs_eq (10 ^ (e + d))) by lia. reflexivity.
  - unfold Decimal.to_BN, Decimal.toExpPos. cbn [Decimal.coef Decimal.expo].
    rewrite Z.pow_0_r, Z.mul_1_r.
    assert (Hp : 0 < 10 ^ (- (e + d))) by (apply Z.pow_pos_nonneg; lia).
    assert (Hq : Z.abs (Z.quot c (10 ^ (- (e + d)))) <= Z.abs c).
    { rewrite <- Z.quot_abs by lia.
      rewrite (Z.abs_eq (10 ^ _)) by lia.
      rewrite Z.quot_div_nonneg by lia.
      apply Z.div_le_upper_bound; [lia|]. nia. }
    destruct (Z.ltb_spec (Z.abs (Z.quot c (10 ^ (- (e + d))))) (10 ^ 21)) as [|Hge];
      [reflexivity|].
    exfalso. change (10 ^ 20) with 100000000000000000000 in Hc.
    change (10 ^ 21) with 1000000000000000000000 in Hge. lia.
Qed.

(** [toHumanAmount] of a positive raw amount of [n <= 20] digits: the
    coefficient is padded to twenty digits, nothing is cut. *)
Lemma toHumanAmount_small (raw d : Z) :
  0 < raw < 10 ^ 20 ->
  let n := Decimal.ndigits raw in
  Quote.toHumanAmount raw d
  = Ok (Decimal.mk (raw * 10 ^ (20 - n)) (n - 20 - d))
  /\ 1 <= n <= 20.
Proof.
  intros [Hr Hlt] n.
  destruct (@ndigits_spec raw Hr) as (Hn1 & Hlo & Hhi). fold n in Hn1, Hlo, Hhi.
  assert (Hn20 : n <= 20).
  { assert (n - 1 < 20) by (apply (Z.pow_lt_mono_r_iff 10); lia). lia. }
  split; [|lia].
  unfold Quote.toHumanAmount, Decimal.div, Decimal.isZero, Decimal.of_Z,
    Decimal.pow10.
  cbn [Decimal.coef Decimal.expo].
  destruct (Z.eqb_spec raw 0); [lia|].
  destruct (Z.eqb_spec 1 0); [lia|].
  change (Z.abs 1) with 1. change (Decimal.ndigits 1) with 1.
  change (Z.sgn 1) with 1.
  rewrite (Z.abs_eq raw), (Z.sgn_pos raw), Z.div_1_r by lia.
  unfold Decimal.precision. change (20 + 1) with 21.
  rewrite !Z.mul_1_l.
  unfold Decimal.round. cbn [Decimal.coef Decimal.expo].
  assert (H21 : 0 < 10 ^ 21) by (apply Z.pow_pos_nonneg; lia).
  rewrite (Z.abs_eq (raw * 10 ^ 21)) by nia.
  assert (Hnd : Decimal.ndigits (raw * 10 ^ 21) = n + 21).
  { apply ndigits_unique; [nia| |lia].
    replace (n + 21 - 1) with (n - 1 + 21) by lia.
    rewrite !Z.pow_add_r by lia. nia. }
  rewrite Hnd. unfold Decimal.precision.
  destruct (Z.leb_spec (n + 21 - 20) 0); [lia|].
  rewrite (Z.sgn_pos (raw * 10 ^ 21)) by nia. rewrite Z.mul_1_l.
  f_equal. f_equal; [|lia].
  replace 21 with ((20 - n) + (n + 21 - 20)) at 1 by lia.
  rewrite Z.pow_add_r by lia.
  rewrite Z.mul_assoc, Z.div_mul; [reflexivity|].
  assert (0 < 10 ^ (n + 21 - 20)) by (apply Z.pow_pos_nonneg; lia). lia.
Qed.

Lemma toHumanAmount_toRawAmount (raw d : Z) :
  0 <= raw < 10 ^ 20 ->
  exists h,
    Quote.toHumanAmount raw d = Ok h
    /\ Quote.toRawAmount h d = Ok raw
    /\ (Decimal.value h * 10 ^ d == inject_Z raw)%Q.
Proof.
  intros [Hr Hlt].
  destruct (Z.eq_dec raw 0) as [E|E].
  - subst raw. exists (Decimal.mk 0 0). split; [reflexivity|].
    split.
    + rewrite toRawAmount_small by (cbn; lia).
      change (0 + d) with d.
      destruct (0 <=? d); [|reflexivity].
      rewrite Z.mul_0_l. reflexivity.
    + unfold Decimal.value. cbn [Decimal.coef Decimal.expo].
      change (inject_Z 0) with 0%Q. ring.
  - destruct (@toHumanAmount_small raw d ltac:(lia)) as (Hh & Hn1 & Hn20).
    set (n := Decimal.ndigits raw) in *.
    assert (Hp : 0 < 10 ^ (20 - n)) by (apply Z.pow_pos_nonneg; lia).
    assert (Hhi : raw * 10 ^ (20 - n) < 10 ^ 20).
    { destruct (@ndigits_spec raw ltac:(lia)) as (_ & _ & Hhi). fold n in Hhi.
      replace 20 with (n + (20 - n)) at 2 by lia.
      rewrite Z.pow_add_r by lia. nia. }
    eexists. split; [exact Hh|]. split.
    + rewrite toRawAmount_small by (rewrite Z.abs_eq; nia).
      replace (n - 20 - d + d) with (n - 20) by lia.
      destruct (Z.leb_spec 0 (n - 20)) as [H0|H0].
      * assert (n = 20) by lia.
        replace (n - 20) with 0 by lia. replace (20 - n) with 0 in * by lia.
        rewrite !Z.pow_0_r, !Z.mul_1_r in *.
        rewrite Z.abs_eq by lia.
        destruct (Z.ltb_spec raw (10 ^ 21)) as [|Hge]; [reflexivity|].
        exfalso. change (10 ^ 20) with 100000000000000000000 in Hlt.
        change (10 ^ 21) with 1000000000000000000000 in Hge. lia.
      * replace (- (n - 20)) with (20 - n) by lia.
        rewrite Z.quot_mul by lia. reflexivity.
    + unfold Decimal.value. cbn [Decimal.coef Decimal.expo].
      rewrite inject_Z_mult, ten_pow_inject by lia.
      rewrite <- Qmult_assoc, <- Qpower_plus by discriminate.
      rewrite <- Qmult_assoc, <- Qpower_plus by discriminate.
      replace (20 - n + (n - 20 - d + d)) with 0 by lia.
      change (10 ^ 0)%Q with 1%Q. ring.
Qed.

(** X7: a raw amount below [10 ^ 20] survives the trip through its human
    form: [toHumanAmount] is exact on it and [toRawAmount] gives it back,
    whatever the number of decimals. *)
Theorem X7_human_raw_round_trip (raw d : Z) :
  0 <= raw < 10 ^ 20 ->
  exists h,
    Quote.toHumanAmount raw d = Ok h
    /\ Quote.toRawAmount h d = Ok raw
    /\ (Decimal.value h * 10 ^ d == inject_Z raw)%Q.
Proof.
  intros Hraw.
  destruct (@toHumanAmount_toRawAmount raw d Hraw) as (h & Hh & Hback & Hv).
  exists h. split; [exact Hh|]. split; [exact Hback | exact Hv].
Qed.

Lemma X7_witness :
  0 <= 123456789 < 10 ^ 20
  /\ exists h,
       Quote.toHumanAmount 123456789 9 = Ok h
       /\ Quote.toRawAmount h 9 = Ok 123456789
       /\ (Decimal.value h * 10 ^ 9 == inject_Z 123456789)%Q.
Proof.
  assert (H : 0 <= 123456789 < 10 ^ 20)
    by (split; [vm_compute; discriminate | vm_compute; reflexivity]).
  split; [exact H | exact (@X7_human_raw_round_trip 123456789 9 H)].
Defined.

(** X8: [toRawAmount] of an amount of at most twenty digits drops the
    fraction below one raw unit, toward zero and without rounding; an
    amount with no such fraction is scaled exactly, and is refused by
    [BN] from [10 ^ 21] on. *)
Theorem X8_toRawAmount_truncates (c e d : Z) :
  Z.abs c < 10 ^ 20 ->
  (e + d < 0 ->
   Quote.toRawAmount (Decimal.mk c e) d = Ok (Z.quot c (10 ^ (- (e + d)))))
  /\ (0 <= e + d -> Z.abs c * 10 ^ (e + d) < 10 ^ 21 ->
      Quote.toRawAmount (Decimal.mk c e) d = Ok (c * 10 ^ (e + d)))
  /\ (0 <= e + d -> 10 ^ 21 <= Z.abs c * 10 ^ (e + d) ->
      Quote.toRawAmount (Decimal.mk c e) d = Err BNAssertion).
Proof.
  intros Hc. rewrite toRawAmount_small by exact Hc.
  split; [|split].
  - intros H. destruct (Z.leb_spec 0 (e + d)); [lia | reflexivity].
  - intros H Hlt. destruct (Z.leb_spec 0 (e + d)); [|lia].
    destruct (Z.ltb_spec (Z.abs c * 10 ^ (e + d)) (10 ^ 21)); [reflexivity | lia].
  - intros H Hge. destruct (Z.leb_spec 0 (e + d)); [|lia].
    destruct (Z.ltb_spec (Z.abs c * 10 ^ (e + d)) (10 ^ 21)); [lia | reflexivity].
Qed.

Lemma X8_witness :
  Z.abs 15 < 10 ^ 20
  /\ (-1 + 0 < 0 ->
      Quote.toRawAmount (Decimal.mk 15 (-1)) 0 = Ok (Z.quot 15 (10 ^ (- (-1 + 0)))))
  /\ (0 <= -1 + 0 -> Z.abs 15 * 10 ^ (-1 + 0) < 10 ^ 21 ->
      Quote.toRawAmount (Decimal.mk 15 (-1)) 0 = Ok (15 * 10 ^ (-1 + 0)))
  /\ (0 <= -1 + 0 -> 10 ^ 21 <= Z.abs 15 * 10 ^ (-1 + 0) ->
      Quote.toRawAmount (Decimal.mk 15 (-1)) 0 = Err BNAssertion).
Proof.
  assert (H : Z.abs 15 < 10 ^ 20) by (vm_compute; reflexivity).
  split; [exact H | exact (@X8_toRawAmount_truncates 15 (-1) 0 H)].
Defined.

(** ** The price side of a quote *)

Lemma Decimal_div_Ok_inv (x y z : Decimal.t) :
  Decimal.div x y = Ok z ->
  Decimal.isZero z = Decimal.isZero x
  /\ (Decimal.isZero x = true \/ Decimal.isZero y = false).
Proof.
  intros H.
  destruct (Decimal.isZero x) eqn:Ex.
  - unfold Decimal.div in H. rewrite Ex in H. injection H as <-. auto.
  - destruct (Decimal.isZero y) eqn:Ey.
    + unfold Decimal.div in H. rewrite Ex, Ey in H. discriminate.
    + destruct (@Decimal_div_Ok x y) as (z' & Hz' & Hzero); [now right|].
      rewrite Hz' in H. injection H as <-. rewrite Hzero, Ex. auto.
Qed.

Lemma toHumanAmount_isZero (amount decimals : Z) (h : Decimal.t) :
  Quote.toHumanAmount amount decimals = Ok h ->
  Decimal.isZero h = (amount =? 0).
Proof.
  intros H. destruct (toHumanAmount_Ok amount decimals) as (h' & Hh' & Hz).
  congruence.
Qed.

Lemma calculateCurrentPrice_Ok_inv (pool : PoolData.t) (c : Decimal.t) :
  Quote.calculateCurrentPrice pool = Ok c ->
  (PoolData.baseReserve pool = 0 -> PoolData.quoteReserve pool = 0)
  /\ Decimal.isZero c = (PoolData.quoteReserve pool =? 0).
Proof.
  unfold Quote.calculateCurrentPrice. cbv zeta. intros H.
  destruct (Decimal.div _ _) as [ratio|] eqn:E; cbn [bind] in H; [|discriminate].
  injection H as <-.
  apply Decimal_div_Ok_inv in E. destruct E as (Hz & Hor).
  rewrite !isZero_of_Z in *. split.
  - intros Hb. destruct Hor as [Hq|Hq].
    + now apply Z.eqb_eq in Hq.
    + apply Z.eqb_neq in Hq. contradiction.
  - rewrite isZero_mul, Hz. apply orb_false_r.
Qed.

Lemma calculatePriceImpact_nonneg (cur exec i : Decimal.t) (dir : SwapDirection) :
  Quote.calculatePriceImpact cur exec dir = Ok i -> 0 <= Decimal.coef i.
Proof.
  unfold Quote.calculatePriceImpact.
  destruct dir; (destruct (Decimal.div _ _); cbn [bind]; [|discriminate]);
    intros H; injection H as <-; cbn [Decimal.abs Decimal.coef]; lia.
Qed.

Lemma calculateExactInputQuote_prices
    (params : ExactInputQuoteParams.t) (q : QuoteResult.t) :
  Quote.calculateExactInputQuote params = Ok q ->
  price_side (ExactInputQuoteParams.poolData params)
             (ExactInputQuoteParams.direction params) q.
Proof.
  unfold Quote.calculateExactInputQuote, price_side. cbv zeta.
  intros H. bind_inv H. injection H as <-. cbn [QuoteResult.currentPrice
    QuoteResult.amountIn QuoteResult.amountOut QuoteResult.executionPrice
    QuoteResult.priceImpact].
  split; [reflexivity|].
  match goal with
  | Ea : Quote.toHumanAmount _ (Quote.inputDecimals _) = Ok ?a,
    Eb : Quote.toHumanAmount _ (Quote.outputDecimals _) = Ok ?b |- _ =>
      exists a, b
  end.
  split; [assumption|]. split; [assumption|]. split; assumption.
Qed.

Lemma calculateExactOutputQuote_prices
    (params : ExactOutputQuoteParams.t) (q : QuoteResult.t) :
  Quote.calculateExactOutputQuote params = Ok q ->
  price_side (ExactOutputQuoteParams.poolData params)
             (ExactOutputQuoteParams.direction params) q.
Proof.
  unfold Quote.calculateExactOutputQuote, price_side. cbv zeta.
  intros H. bind_inv H.
  destruct (BN.gte _ _); [discriminate H|].
  bind_inv H. injection H as <-. cbn [QuoteResult.currentPrice
    QuoteResult.amountIn QuoteResult.amountOut QuoteResult.executionPrice
    QuoteResult.priceImpact].
  split; [reflexivity|].
  match goal with
  | Ea : Quote.toHumanAmount _ (Quote.inputDecimals _) = Ok ?a,
    Eb : Quote.toHumanAmount _ (Quote.outputDecimals _) = Ok ?b |- _ =>
      exists a, b
  end.
  split; [assumption|]. split; [assumption|]. split; assumption.
Qed.

(** What the decimal steps imply for a quote that came back. *)
Lemma price_side_current (pool : PoolData.t) (dir : SwapDirection)
    (q : QuoteResult.t) :
  price_side pool dir q ->
  Quote.calculateCurrentPrice pool = Ok (QuoteResult.currentPrice q)
  /\ (PoolData.baseReserve pool = 0 -> PoolData.quoteReserve pool = 0)
  /\ Decimal.isZero (QuoteResult.currentPrice q)
     = (PoolData.quoteReserve pool =? 0)
  /\ 0 <= Decimal.coef (QuoteResult.priceImpact q).
Proof.
  intros (Hcur & inH & outH & _ & _ & _ & Himp).
  destruct (@calculateCurrentPrice_Ok_inv _ _ Hcur) as (Hb & Hz).
  split; [exact Hcur|]. split; [exact Hb|]. split; [exact Hz|].
  exact (@calculatePriceImpact_nonneg _ _ _ _ Himp).
Qed.

Lemma price_side_execution (pool : PoolData.t) (dir : SwapDirection)
    (q : QuoteResult.t) :
  price_side pool dir q ->
  match dir with
  | solToToken =>
      (QuoteResult.amountOut q = 0 -> QuoteResult.amountIn q = 0)
      /\ Decimal.isZero (QuoteResult.executionPrice q)
         = (QuoteResult.amountIn q =? 0)
  | tokenToSol =>
      (QuoteResult.amountIn q = 0 -> QuoteResult.amountOut q = 0)
      /\ Decimal.isZero (QuoteResult.executionPrice q)
         = (QuoteResult.amountOut q =? 0)
  end.
Proof.
  intros (_ & inH & outH & Hin & Hout & Hexec & _).
  apply toHumanAmount_isZero in Hin, Hout.
  destruct dir; apply Decimal_div_Ok_inv in Hexec;
    destruct Hexec as (Hz & Hor); rewrite Hin, Hout in *;
    (split; [|exact Hz]); intros H0; rewrite H0 in Hor; cbn in Hor;
    (destruct Hor as [Hor|Hor]; [now apply Z.eqb_eq in Hor | discriminate]).
Qed.

(** X9: every quote that is returned, of either kind, carries the pool's
    current price, the one [calculateCurrentPrice] computes from the
    reserves alone, whatever the amount, the direction and the
    tolerance; that price is zero exactly when the quote reserve is; the
    price impact is never negative; and a pool with an empty base
    reserve and a non-empty quote reserve gets no quote at all. *)
Theorem X9_quote_current_price (pool : PoolData.t) (q : QuoteResult.t) :
  (exists amount slippage dir,
     Quote.calculateExactInputQuote
       (ExactInputQuoteParams.mk pool amount slippage dir) = Ok q
     \/ Quote.calculateExactOutputQuote
          (ExactOutputQuoteParams.mk pool amount slippage dir) = Ok q) ->
  Quote.calculateCurrentPrice pool = Ok (QuoteResult.currentPrice q)
  /\ (PoolData.baseReserve pool = 0 -> PoolData.quoteReserve pool = 0)
  /\ Decimal.isZero (QuoteResult.currentPrice q)
     = (PoolData.quoteReserve pool =? 0)
  /\ 0 <= Decimal.coef (QuoteResult.priceImpact q).
Proof.
  intros (amount & slippage & dir & [H|H]).
  - apply calculateExactInputQuote_prices in H.
    exact (@price_side_current _ _ _ H).
  - apply calculateExactOutputQuote_prices in H.
    exact (@price_side_current _ _ _ H).
Qed.

(** X10: in a returned quote of either kind the execution price is zero
    exactly when its numerator is: the input of a [solToToken] quote, the
    output of a [tokenToSol] quote.  The denominator is zero only when
    the numerator is, so a [solToToken] quote that pays something never
    reports nothing in return. *)
Theorem X10_quote_execution_price
    (pool : PoolData.t) (dir : SwapDirection) (q : QuoteResult.t) :
  (exists amount slippage,
     Quote.calculateExactInputQuote
       (ExactInputQuoteParams.mk pool amount slippage dir) = Ok q
     \/ Quote.calculateExactOutputQuote
          (ExactOutputQuoteParams.mk pool amount slippage dir) = Ok q) ->
  match dir with
  | solToToken =>
      (QuoteResult.amountOut q = 0 -> QuoteResult.amountIn q = 0)
      /\ Decimal.isZero (QuoteResult.executionPrice q)
         = (QuoteResult.amountIn q =? 0)
  | tokenToSol =>
      (QuoteResult.amountIn q = 0 -> QuoteResult.amountOut q = 0)
      /\ Decimal.isZero (QuoteResult.executionPrice q)
         = (QuoteResult.amountOut q =? 0)
  end.
Proof.
  intros (amount & slippage & [H|H]).
  - apply calculateExactInputQuote_prices in H.
    exact (@price_side_execution _ _ _ H).
  - apply calculateExactOutputQuote_prices in H.
    exact (@price_side_execution _ _ _ H).
Qed.

(** X9 at the sample pool. *)
Lemma X9_witness :
  exists q,
    Quote.calculateExactOutputQuote Sample.exactOut = Ok q
    /\ Quote.calculateCurrentPrice Sample.pool = Ok (QuoteResult.currentPrice q)
    /\ Decimal.isZero (QuoteResult.currentPrice q) = false
    /\ 0 <= Decimal.coef (QuoteResult.priceImpact q).
Proof.
  destruct (Quote.calculateExactOutputQuote Sample.exactOut) as [q|] eqn:Hq;
    [|vm_compute in Hq; discriminate Hq].
  exists q. split; [reflexivity|].
  destruct (@X9_quote_current_price Sample.pool q
              (ex_intro _ (Decimal.mk 1 (-1))
                 (ex_intro _ Sample.slippage
                    (ex_intro _ solToToken (or_intror Hq)))))
    as (Hcur & _ & Hz & Himp).
  split; [exact Hcur|]. split; [exact Hz | exact Himp].
Defined.

(** X10 at the sample pool. *)
Lemma X10_witness :
  exists q,
    Quote.calculateExactInputQuote Sample.exactIn = Ok q
    /\ (QuoteResult.amountOut q = 0 -> QuoteResult.amountIn q = 0)
    /\ Decimal.isZero (QuoteResult.executionPrice q)
       = (QuoteResult.amountIn q =? 0).
Proof.
  destruct (Quote.calculateExactInputQuote Sample.exactIn) as [q|] eqn:Hq;
    [|vm_compute in Hq; discriminate Hq].
  exists q. split; [reflexivity|].
  exact (@X10_quote_execution_price Sample.pool solToToken q
           (ex_intro _ (Decimal.mk 1 (-3))
              (ex_intro _ Sample.slippage (or_introl Hq)))).
Defined.

(* ================================================================== *)
(** ** Bytes and integers *)

Lemma byte_to_N_bound (b : byte) : 0 <= Z.of_N (Byte.to_N b) < 256.
Proof. pose proof (Byte.to_N_bounded b). lia. Qed.

Lemma of_le_bound (bs : list byte) :
  0 <= BN.of_le bs < 256 ^ Z.of_nat (List.length bs).
Proof.
  induction bs as [|b bs IH].
  - cbn. lia.
  - cbn [BN.of_le List.length]. rewrite Nat2Z.inj_succ, Z.pow_succ_r by lia.
    pose proof (byte_to_N_bound b). lia.
Qed.

Lemma of_be_acc_bound (bs : list byte) : forall acc k,
  0 <= k -> 0 <= acc < 256 ^ k ->
  0 <= fold_left (fun acc b => 256 * acc + Z.of_N (Byte.to_N b)) bs acc
    < 256 ^ (k + Z.of_nat (List.length bs)).
Proof.
  induction bs as [|b bs IH]; intros acc k Hk Hacc.
  - cbn [fold_left List.length]. change (Z.of_nat 0) with 0.
    rewrite Z.add_0_r. exact Hacc.
  - cbn [fold_left List.length]. rewrite Nat2Z.inj_succ.
    replace (k + Z.succ (Z.of_nat (List.length bs)))
      with (Z.succ k + Z.of_nat (List.length bs)) by lia.
    apply IH; [lia|].
    rewrite Z.pow_succ_r by lia. pose proof (byte_to_N_bound b). lia.
Qed.

Lemma of_be_bound (bs : list byte) :
  0 <= BN.of_be bs < 256 ^ Z.of_nat (List.length bs).
Proof.
  unfold BN.of_be.
  exact (@of_be_acc_bound bs 0 0 ltac:(lia) ltac:(cbn; lia)).
Qed.

Lemma subarray_length (data : Buffer.t) (start n : nat) :
  (List.length (Buffer.subarray data start (start + n)) <= n)%nat.
Proof.
  unfold Buffer.subarray. rewrite length_firstn. lia.
Qed.

Lemma read_le_range (data : Buffer.t) (offset : nat) :
  0 <= BN.of_le (Buffer.subarray data offset (offset + 8)) < 2 ^ 64.
Proof.
  pose proof (of_le_bound (Buffer.subarray data offset (offset + 8))) as H.
  pose proof (subarray_length data offset 8) as Hl.
  assert (256 ^ Z.of_nat (List.length (Buffer.subarray data offset (offset + 8)))
          <= 256 ^ 8) by (apply Z.pow_le_mono_r; lia).
  change (2 ^ 64) with (256 ^ 8). lia.
Qed.

Lemma read_be_range (data : Buffer.t) (offset : nat) :
  0 <= BN.of_be (Buffer.subarray data offset (offset + 32)) < 2 ^ 256.
Proof.
  pose proof (of_be_bound (Buffer.subarray data offset (offset + 32))) as H.
  pose proof (subarray_length data offset 32) as Hl.
  assert (256 ^ Z.of_nat (List.length (Buffer.subarray data offset (offset + 32)))
          <= 256 ^ 32) by (apply Z.pow_le_mono_r; lia).
  change (2 ^ 256) with (256 ^ 32). lia.
Qed.

(** X11: whatever the bytes of an account, and however short, every
    64-bit field of a decoded bonding curve or launchpad pool is an
    unsigned 64-bit value, every public key an unsigned 256-bit value
    (so that [new PublicKey] never rejects it), and every single-byte
    field, when defined, is below 256. *)
Theorem X11_decoded_fields_in_range (data : Buffer.t) :
  (let c := PumpFun.deserializePumpFunBondingCurve data in
   u64 (PumpFun.PumpFunBondingCurveAccount.virtualTokenReserves c)
   /\ u64 (PumpFun.PumpFunBondingCurveAccount.virtualSolReserves c)
   /\ u64 (PumpFun.PumpFunBondingCurveAccount.realTokenReserves c)
   /\ u64 (PumpFun.PumpFunBondingCurveAccount.realSolReserves c)
   /\ u64 (PumpFun.PumpFunBondingCurveAccount.tokenTotalSupply c))
  /\ (let p := Launchpad.deserializeLaunchpadPool data in
      u64 (Launchpad.LaunchpadPoolAccount.supply p)
      /\ u64 (Launchpad.LaunchpadPoolAccount.totalSellA p)
      /\ u64 (Launchpad.LaunchpadPoolAccount.virtualA p)
      /\ u64 (Launchpad.LaunchpadPoolAccount.virtualB p)
      /\ u64 (Launchpad.LaunchpadPoolAccount.realA p)
      /\ u64 (Launchpad.LaunchpadPoolAccount.realB p)
      /\ u64 (Launchpad.LaunchpadPoolAccount.totalFundRaisingB p)
      /\ u64 (Launchpad.LaunchpadPoolAccount.migrateFee p)
      /\ u64 (Launchpad.LaunchpadPoolAccount.totalLockedAmount p)
      /\ u256 (Launchpad.LaunchpadPoolAccount.configId p)
      /\ u256 (Launchpad.LaunchpadPoolAccount.platformId p)
      /\ u256 (Launchpad.LaunchpadPoolAccount.mintA p)
      /\ u256 (Launchpad.LaunchpadPoolAccount.mintB p)
      /\ u256 (Launchpad.LaunchpadPoolAccount.creator p)
      /\ (forall d, Launchpad.LaunchpadPoolAccount.mintDecimalsA p = Some d
                    \/ Launchpad.LaunchpadPoolAccount.mintDecimalsB p = Some d
                    \/ Launchpad.LaunchpadPoolAccount.status p = Some d
                    \/ Launchpad.LaunchpadPoolAccount.migrateType p = Some d ->
                    0 <= d < 256)).
Proof.
  split; cbv zeta.
  - repeat split; apply read_le_range.
  - repeat match goal with
    | |- _ /\ _ => split
    | |- u64 _ => apply read_le_range
    | |- u256 _ => apply read_be_range
    end.
    intros d H.
    assert (Hget : forall off, Buffer.get data off = Some d -> 0 <= d < 256).
    { intros off. unfold Buffer.get.
      destruct (nth_error data off) as [b|]; cbn [option_map]; [|discriminate].
      intros E; injection E as <-. apply byte_to_N_bound. }
    destruct H as [H|[H|[H|H]]]; exact (Hget _ H).
Qed.

(** ** Building an account and decoding it *)

Lemma byte_of_Z_to_N (z : Z) :
  0 <= z < 256 -> Z.of_N (Byte.to_N (Mock.byte_of_Z z)) = z.
Proof.
  intros Hz. unfold Mock.byte_of_Z.
  destruct (Byte.of_N (Z.to_N z)) as [b|] eqn:E.
  - apply Byte.to_of_N in E. rewrite E. lia.
  - apply Byte.of_N_None_iff in E. lia.
Qed.

Lemma le_bytes_length (n : nat) : forall v, List.length (Mock.le_bytes n v) = n.
Proof.
  induction n as [|n IH]; intros v; cbn [Mock.le_bytes List.length];
    [reflexivity | now rewrite IH].
Qed.

Lemma of_le_le_bytes (n : nat) : forall v,
  0 <= v -> BN.of_le (Mock.le_bytes n v) = v mod 256 ^ Z.of_nat n.
Proof.
  induction n as [|n IH]; intros v Hv.
  - cbn [Mock.le_bytes BN.of_le]. change (256 ^ Z.of_nat 0) with 1.
    now rewrite Z.mod_1_r.
  - cbn [Mock.le_bytes BN.of_le].
    rewrite byte_of_Z_to_N by (apply Z.mod_pos_bound; lia).
    rewrite IH by (apply Z.div_pos; lia).
    rewrite Nat2Z.inj_succ, Z.pow_succ_r by lia.
    rewrite Z.rem_mul_r; [reflexivity | lia |].
    apply Z.pow_pos_nonneg; lia.
Qed.

Lemma list_of_length_8 (A : Type) (l : list A) :
  List.length l = 8%nat ->
  exists a b c d e f g h, l = [a; b; c; d; e; f; g; h].
Proof.
  intros H.
  do 8 (destruct l as [|? l]; [discriminate H|]).
  destruct l; [|discriminate H]. repeat eexists.
Qed.

Lemma toBuffer_le_8 (v : Z) :
  Z.abs v < 2 ^ 64 ->
  exists a b c d e f g h,
    Mock.toBuffer_le v 8 = Some [a; b; c; d; e; f; g; h]
    /\ BN.of_le [a; b; c; d; e; f; g; h] = Z.abs v.
Proof.
  intros Hv. unfold Mock.toBuffer_le.
  change (256 ^ Z.of_nat 8) with (2 ^ 64).
  destruct (Z.ltb_spec (Z.abs v) (2 ^ 64)) as [_|]; [|lia].
  destruct (@list_of_length_8 _ _ (le_bytes_length 8 (Z.abs v)))
    as (a & b & c & d & e & f & g & h & E).
  exists a, b, c, d, e, f, g, h. split; [now rewrite E|].
  rewrite <- E, of_le_le_bytes by lia.
  change (256 ^ Z.of_nat 8) with (2 ^ 64).
  apply Z.mod_small. lia.
Qed.

Lemma toBuffer_le_None (v : Z) (n : nat) :
  256 ^ Z.of_nat n <= Z.abs v -> Mock.toBuffer_le v n = None.
Proof.
  intros H. unfold Mock.toBuffer_le.
  destruct (Z.ltb_spec (Z.abs v) (256 ^ Z.of_nat n)); [lia | reflexivity].
Qed.

(** The account that the builder produces decodes to the magnitudes of
    its parameters. *)
Lemma createMockBondingCurveData_decodes (params : Mock.BondingCurveParams.t) :
  Z.abs (Mock.BondingCurveParams.virtualTokenReserves params) < 2 ^ 64 ->
  Z.abs (Mock.BondingCurveParams.virtualSolReserves params) < 2 ^ 64 ->
  Z.abs (Mock.BondingCurveParams.realTokenReserves params) < 2 ^ 64 ->
  Z.abs (Mock.BondingCurveParams.realSolReserves params) < 2 ^ 64 ->
  Z.abs (Mock.BondingCurveParams.tokenTotalSupply params) < 2 ^ 64 ->
  exists data,
    Mock.createMockBondingCurveData params = Some data
    /\ List.length data = 57%nat
    /\ PumpFun.deserializePumpFunBondingCurve data
       = {| PumpFun.PumpFunBondingCurveAccount.virtualTokenReserves :=
              Z.abs (Mock.BondingCurveParams.virtualTokenReserves params);
            PumpFun.PumpFunBondingCurveAccount.virtualSolReserves :=
              Z.abs (Mock.BondingCurveParams.virtualSolReserves params);
            PumpFun.PumpFunBondingCurveAccount.realTokenReserves :=
              Z.abs (Mock.BondingCurveParams.realTokenReserves params);
            PumpFun.PumpFunBondingCurveAccount.realSolReserves :=
              Z.abs (Mock.BondingCurveParams.realSolReserves params);
            PumpFun.PumpFunBondingCurveAccount.tokenTotalSupply :=
              Z.abs (Mock.BondingCurveParams.tokenTotalSupply params);
            PumpFun.PumpFunBondingCurveAccount.complete :=
              Mock.BondingCurveParams.complete params |}.
Proof.
  intros H1 H2 H3 H4 H5.
  destruct (@toBuffer_le_8 _ H1) as (a1 & b1 & c1 & d1 & e1 & f1 & g1 & h1 & E1 & V1).
  destruct (@toBuffer_le_8 _ H2) as (a2 & b2 & c2 & d2 & e2 & f2 & g2 & h2 & E2 & V2).
  destruct (@toBuffer_le_8 _ H3) as (a3 & b3 & c3 & d3 & e3 & f3 & g3 & h3 & E3 & V3).
  destruct (@toBuffer_le_8 _ H4) as (a4 & b4 & c4 & d4 & e4 & f4 & g4 & h4 & E4 & V4).
  destruct (@toBuffer_le_8 _ H5) as (a5 & b5 & c5 & d5 & e5 & f5 & g5 & h5 & E5 & V5).
  unfold Mock.createMockBondingCurveData.
  rewrite E1, E2, E3, E4, E5. cbv zeta.
  cbv [Mock.andThen Mock.copy Mock.writeUInt8 Buffer.alloc repeat firstn skipn
       app List.length Nat.sub Nat.add Nat.ltb Nat.leb].
  eexists. split; [reflexivity|]. split; [reflexivity|].
  cbv [PumpFun.deserializePumpFunBondingCurve PumpFun.readU64 PumpFun.readBool
       Buffer.subarray Buffer.get
       PumpFun.BONDING_CURVE_OFFSETS.virtualTokenReserves
       PumpFun.BONDING_CURVE_OFFSETS.virtualSolReserves
       PumpFun.BONDING_CURVE_OFFSETS.realTokenReserves
       PumpFun.BONDING_CURVE_OFFSETS.realSolReserves
       PumpFun.BONDING_CURVE_OFFSETS.tokenTotalSupply
       PumpFun.BONDING_CURVE_OFFSETS.complete
       firstn skipn nth_error option_map Nat.sub Nat.add].
  rewrite V1, V2, V3, V4, V5.
  destruct (Mock.BondingCurveParams.complete params); reflexivity.
Qed.

(** X12: the account builder of the test suite and the decoder are
    inverse to each other on unsigned 64-bit parameters: the builder
    returns 57 bytes, and [deserializePumpFunBondingCurve] reads the five
    reserves and the flag back from them. *)
Theorem X12_build_then_decode (params : Mock.BondingCurveParams.t) :
  u64 (Mock.BondingCurveParams.virtualTokenReserves params) ->
  u64 (Mock.BondingCurveParams.virtualSolReserves params) ->
  u64 (Mock.BondingCurveParams.realTokenReserves params) ->
  u64 (Mock.BondingCurveParams.realSolReserves params) ->
  u64 (Mock.BondingCurveParams.tokenTotalSupply params) ->
  exists data,
    Mock.createMockBondingCurveData params = Some data
    /\ List.length data = 57%nat
    /\ PumpFun.deserializePumpFunBondingCurve data
       = {| PumpFun.PumpFunBondingCurveAccount.virtualTokenReserves :=
              Mock.BondingCurveParams.virtualTokenReserves params;
            PumpFun.PumpFunBondingCurveAccount.virtualSolReserves :=
              Mock.BondingCurveParams.virtualSolReserves params;
            PumpFun.PumpFunBondingCurveAccount.realTokenReserves :=
              Mock.BondingCurveParams.realTokenReserves params;
            PumpFun.PumpFunBondingCurveAccount.realSolReserves :=
              Mock.BondingCurveParams.realSolReserves params;
            PumpFun.PumpFunBondingCurveAccount.tokenTotalSupply :=
              Mock.BondingCurveParams.tokenTotalSupply params;
            PumpFun.PumpFunBondingCurveAccount.complete :=
              Mock.BondingCurveParams.complete params |}
    /\ forall address,
         PumpFun.fetchPumpFunBondingCurveAccount
           (fun _ => Some (Mock.createMockAccountInfo data)) address
         = Ok (PumpFun.deserializePumpFunBondingCurve data).
Proof.
  unfold u64. intros H1 H2 H3 H4 H5.
  destruct (@createMockBondingCurveData_decodes params) as (data & Hd & Hl & He);
    try (rewrite Z.abs_eq; lia).
  exists data. split; [exact Hd|]. split; [exact Hl|]. split.
  - rewrite He. rewrite !Z.abs_eq by lia. reflexivity.
  - intros address. reflexivity.
Qed.

(** ** What the decoders do not read *)

Lemma subarray_frame (p body e : Buffer.t) (start stop : nat) :
  (List.length p <= start)%nat ->
  (stop <= List.length p + List.length body)%nat ->
  Buffer.subarray (p ++ body ++ e) start stop
  = Buffer.subarray body (start - List.length p) (stop - List.length p).
Proof.
  intros Hs He. unfold Buffer.subarray.
  rewrite skipn_app, (skipn_all2 p) by exact Hs. cbn [app].
  rewrite skipn_app, firstn_app, length_skipn.
  replace (stop - start - (List.length body - (start - List.length p)))%nat
    with 0%nat by lia.
  rewrite firstn_O, app_nil_r.
  f_equal. lia.
Qed.

Lemma get_frame (p body e : Buffer.t) (offset : nat) :
  (List.length p <= offset)%nat ->
  (offset < List.length p + List.length body)%nat ->
  Buffer.get (p ++ body ++ e) offset = Buffer.get body (offset - List.length p).
Proof.
  intros Hs He. unfold Buffer.get.
  rewrite nth_error_app2 by exact Hs.
  rewrite nth_error_app1 by lia. reflexivity.
Qed.

(** X13: the decoders never look at the head of an account nor past
    their last field.  A bonding curve is decoded from bytes 8 to 48
    alone: the 8-byte discriminator is not compared with anything and
    any trailing bytes are ignored.  A launchpad pool is decoded from
    bytes 17 to 364 alone. *)
Theorem X13_decoders_ignore_head_and_tail :
  (forall head head' body tail tail' : Buffer.t,
     List.length head = 8%nat -> List.length head' = 8%nat ->
     (41 <= List.length body)%nat ->
     PumpFun.deserializePumpFunBondingCurve (head ++ body ++ tail)
     = PumpFun.deserializePumpFunBondingCurve (head' ++ body ++ tail'))
  /\ (forall head head' body tail tail' : Buffer.t,
        List.length head = 17%nat -> List.length head' = 17%nat ->
        (348 <= List.length body)%nat ->
        Launchpad.deserializeLaunchpadPool (head ++ body ++ tail)
        = Launchpad.deserializeLaunchpadPool (head' ++ body ++ tail')).
Proof.
  split; intros head head' body tail tail' Hh Hh' Hb.
  - unfold PumpFun.deserializePumpFunBondingCurve, PumpFun.readU64,
      PumpFun.readBool.
    unfold_offsets.
    rewrite !(@subarray_frame head), !(@subarray_frame head'),
      (@get_frame head), (@get_frame head') by lia.
    rewrite Hh, Hh'. reflexivity.
  - unfold Launchpad.deserializeLaunchpadPool, Launchpad.readU64,
      Launchpad.readU8, Launchpad.readPublicKey.
    unfold_offsets.
    unfold Launchpad.POOL_OFFSETS.supply, Launchpad.POOL_OFFSETS.totalSellA,
      Launchpad.POOL_OFFSETS.virtualA, Launchpad.POOL_OFFSETS.virtualB,
      Launchpad.POOL_OFFSETS.realA, Launchpad.POOL_OFFSETS.realB,
      Launchpad.POOL_OFFSETS.totalFundRaisingB,
      Launchpad.POOL_OFFSETS.migrateFee,
      Launchpad.POOL_OFFSETS.totalLockedAmount,
      Launchpad.POOL_OFFSETS.configId, Launchpad.POOL_OFFSETS.platformId,
      Launchpad.POOL_OFFSETS.mintA, Launchpad.POOL_OFFSETS.mintB,
      Launchpad.POOL_OFFSETS.creator.
    rewrite !(@subarray_frame head), !(@subarray_frame head'),
      !(@get_frame head), !(@get_frame head') by lia.
    rewrite Hh, Hh'. reflexivity.
Qed.

(** ** When the bonding-curve summary returns *)

Ltac div_returns :=
  repeat match goal with
  | |- context [Decimal.div ?x ?y] =>
      let z := fresh "z" in
      let Hz := fresh "Hz" in
      let H0 := fresh "Hzero" in
      destruct (@Decimal_div_Ok x y) as (z & Hz & H0);
      [ first [ right; reflexivity | right; assumption | left; assumption ]
      | rewrite Hz; cbn [bind] ]
  end.

Lemma PumpFun_calculateCurrentPrice_returns
    (curve : PumpFun.PumpFunBondingCurveAccount.t) :
  exists p, PumpFun.calculateCurrentPrice curve = Ok p.
Proof.
  unfold PumpFun.calculateCurrentPrice. cbv zeta.
  destruct (Decimal.isZero (Decimal.of_Z _)) eqn:E; [eauto|].
  div_returns. cbn [Decimal.Math_pow10 option_map Decimal.mul_number]. eauto.
Qed.

Lemma PumpFun_calculateGraduationPrice_returns
    (curve : PumpFun.PumpFunBondingCurveAccount.t) :
  0 <= PumpFun.PumpFunBondingCurveAccount.virtualSolReserves curve ->
  exists p, PumpFun.calculateGraduationPrice curve = Ok p.
Proof.
  intros Hv. unfold PumpFun.calculateGraduationPrice. cbv zeta.
  assert (Hg : Decimal.isZero
                 (Decimal.of_Z
                    (PumpFun.PumpFunBondingCurveAccount.virtualSolReserves curve
                     + PumpFun.PUMPFUN_GRADUATION_TARGET)) = false).
  { rewrite isZero_of_Z. apply Z.eqb_neq.
    unfold PumpFun.PUMPFUN_GRADUATION_TARGET. lia. }
  match goal with
  | |- context [Decimal.div ?x ?y] =>
      destruct (@Decimal_div_Ok x y) as (t & Ht & _); [right; exact Hg|]
  end.
  rewrite Ht. cbn [bind].
  destruct (Decimal.isZero t) eqn:Et; [eauto|].
  match goal with
  | |- context [Decimal.div ?x ?y] =>
      destruct (@Decimal_div_Ok x y) as (z & Hz & _); [right; exact Et|]
  end.
  rewrite Hz. cbn [bind Decimal.Math_pow10 option_map Decimal.mul_number]. eauto.
Qed.

Lemma fetchPumpFunBondingCurveInfo_returns
    (connection : Connection) (address : PublicKey)
    (curve : PumpFun.PumpFunBondingCurveAccount.t) :
  PumpFun.fetchPumpFunBondingCurveAccount connection address = Ok curve ->
  0 <= PumpFun.PumpFunBondingCurveAccount.virtualSolReserves curve ->
  exists info,
    PumpFun.fetchPumpFunBondingCurveInfo connection address = Ok info
    /\ PumpFun.PumpFunBondingCurveInfo.complete info
       = PumpFun.PumpFunBondingCurveAccount.complete curve.
Proof.
  intros Hc Hv. unfold PumpFun.fetchPumpFunBondingCurveInfo.
  rewrite Hc. cbn [bind].
  unfold PumpFun.bondingPercentage.
  destruct (PumpFun_calculateCurrentPrice_returns curve) as (p & ->).
  destruct (PumpFun_calculateGraduationPrice_returns curve Hv) as (g & ->).
  div_returns. eexists. split; reflexivity.
Qed.

(** What [fetchPumpFunBondingCurveInfo] does with a key. *)
Lemma fetchPumpFunBondingCurveInfo_at_key
    (connection : Connection) (address : PublicKey) :
  match connection address with
  | None =>
      PumpFun.fetchPumpFunBondingCurveInfo connection address
      = Err AccountNotFound
  | Some account =>
      if AccountInfo.owner account =? PumpFun.PUMPFUN_PROGRAM then
        exists info,
          PumpFun.fetchPumpFunBondingCurveInfo connection address = Ok info
          /\ PumpFun.PumpFunBondingCurveInfo.complete info
             = PumpFun.readBool (AccountInfo.data account) 48
      else
        PumpFun.fetchPumpFunBondingCurveInfo connection address
        = Err OwnershipMismatch
  end.
Proof.
  destruct (connection address) as [account|] eqn:Hget.
  - destruct (Z.eqb_spec (AccountInfo.owner account) PumpFun.PUMPFUN_PROGRAM)
      as [Ho|Ho].
    + apply fetchPumpFunBondingCurveInfo_returns
        with (curve := PumpFun.deserializePumpFunBondingCurve
                         (AccountInfo.data account)).
      * unfold PumpFun.fetchPumpFunBondingCurveAccount.
        rewrite Hget, Ho, Z.eqb_refl. reflexivity.
      * apply read_le_range.
    + unfold PumpFun.fetchPumpFunBondingCurveInfo,
        PumpFun.fetchPumpFunBondingCurveAccount.
      rewrite Hget. apply Z.eqb_neq in Ho. rewrite Ho. reflexivity.
  - unfold PumpFun.fetchPumpFunBondingCurveInfo,
      PumpFun.fetchPumpFunBondingCurveAccount.
    rewrite Hget. reflexivity.
Qed.

(** X14: on a connection that answers, [fetchPumpFunBondingCurveInfo]
    throws for an address string that [new PublicKey] rejects, for a
    missing account and for an account of another owner, and for nothing
    else: every account that the PumpFun program owns, whatever its
    bytes and however short, gets a summary, whose [complete] flag is
    byte 48 read as a boolean. *)
Theorem X14_pumpfun_info_returns
    (connection : Connection) (address : Api.Address) :
  match Api.toPublicKey address with
  | Err _ =>
      address = Api.ofString None
      /\ Api.fetchPumpFunBondingCurveInfo connection address
         = Err InvalidPublicKey
  | Ok pubkey =>
      match connection pubkey with
      | None =>
          Api.fetchPumpFunBondingCurveInfo connection address
          = Err AccountNotFound
      | Some account =>
          if AccountInfo.owner account =? PumpFun.PUMPFUN_PROGRAM then
            exists info,
              Api.fetchPumpFunBondingCurveInfo connection address = Ok info
              /\ PumpFun.PumpFunBondingCurveInfo.complete info
                 = PumpFun.readBool (AccountInfo.data account) 48
          else
            Api.fetchPumpFunBondingCurveInfo connection address
            = Err OwnershipMismatch
      end
  end.
Proof.
  unfold Api.fetchPumpFunBondingCurveInfo.
  destruct address as [key|[key|]]; cbn [Api.toPublicKey bind].
  - exact (fetchPumpFunBondingCurveInfo_at_key connection key).
  - exact (fetchPumpFunBondingCurveInfo_at_key connection key).
  - split; reflexivity.
Qed.

(** ** Differences of human amounts *)

Lemma sub_value_raw (x y : Decimal.t) :
  let e := Z.min (Decimal.expo x) (Decimal.expo y) in
  (Decimal.value
     (Decimal.mk (Decimal.coef x * 10 ^ (Decimal.expo x - e)
                  - Decimal.coef y * 10 ^ (Decimal.expo y - e)) e)
   == Decimal.value x - Decimal.value y)%Q.
Proof.
  intros e. unfold Decimal.value. cbn [Decimal.coef Decimal.expo].
  assert (Hx : 0 <= Decimal.expo x - e) by (subst e; lia).
  assert (Hy : 0 <= Decimal.expo y - e) by (subst e; lia).
  unfold Z.sub at 1. rewrite inject_Z_plus, inject_Z_opp, !inject_Z_mult.
  rewrite !ten_pow_inject by assumption.
  assert (Ex : (10 ^ (Decimal.expo x - e) * 10 ^ e == 10 ^ Decimal.expo x)%Q).
  { rewrite <- Qpower_plus by discriminate.
    replace (Decimal.expo x - e + e) with (Decimal.expo x) by lia. reflexivity. }
  assert (Ey : (10 ^ (Decimal.expo y - e) * 10 ^ e == 10 ^ Decimal.expo y)%Q).
  { rewrite <- Qpower_plus by discriminate.
    replace (Decimal.expo y - e + e) with (Decimal.expo y) by lia. reflexivity. }
  rewrite <- Ex, <- Ey. ring.
Qed.

Lemma ndigits_le_20 (a : Z) : 0 < a < 10 ^ 20 -> 1 <= Decimal.ndigits a <= 20.
Proof.
  intros [Ha Hlt]. destruct (ndigits_spec Ha) as (H1 & Hlo & _).
  split; [exact H1|].
  assert (Decimal.ndigits a - 1 < 20) by (apply (Z.pow_lt_mono_r_iff 10); lia).
  lia.
Qed.

(** Cutting a coefficient with at most twenty digits before its
    trailing zeros loses nothing. *)
Lemma round_value_multiple (d : Decimal.t) (m j : Z) :
  Decimal.coef d = m * 10 ^ j -> 0 <= j -> Z.abs m < 10 ^ 20 ->
  (Decimal.value (Decimal.round d) == Decimal.value d)%Q.
Proof.
  intros Hc Hj Hm.
  destruct (Z.eq_dec m 0) as [E|E].
  - rewrite round_small; [reflexivity|]. rewrite Hc, E. cbn. lia.
  - assert (Hpj : 0 < 10 ^ j) by (apply Z.pow_pos_nonneg; lia).
    assert (Ha : Z.abs (Decimal.coef d) = Z.abs m * 10 ^ j).
    { rewrite Hc, Z.abs_mul, (Z.abs_eq (10 ^ j)) by lia. reflexivity. }
    assert (Hm0 : 0 < Z.abs m) by lia.
    destruct (@ndigits_le_20 (Z.abs m) ltac:(lia)) as (Hn1 & Hn20).
    destruct (ndigits_spec Hm0) as (_ & Hlo & Hhi).
    set (n := Decimal.ndigits (Z.abs m)) in *.
    assert (Hnd : Decimal.ndigits (Z.abs (Decimal.coef d)) = n + j).
    { rewrite Ha. apply ndigits_unique; [nia| |lia].
      replace (n + j - 1) with (n - 1 + j) by lia.
      rewrite !Z.pow_add_r by lia. nia. }
    destruct (Z_le_gt_dec (n + j - 20) 0) as [Hk|Hk].
    + unfold Decimal.round. cbv zeta. rewrite Hnd. unfold Decimal.precision.
      destruct (Z.leb_spec (n + j - 20) 0); [reflexivity | lia].
    + apply round_exact with (m := Z.abs m * 10 ^ (20 - n)).
      * rewrite Hnd. unfold Decimal.precision. lia.
      * rewrite Hnd, Ha. unfold Decimal.precision.
        rewrite <- Z.mul_assoc, <- Z.pow_add_r by lia.
        f_equal. f_equal. lia.
Qed.

Lemma sub_exact (x y : Decimal.t) (m j : Z) :
  let e := Z.min (Decimal.expo x) (Decimal.expo y) in
  Decimal.coef x * 10 ^ (Decimal.expo x - e)
  - Decimal.coef y * 10 ^ (Decimal.expo y - e) = m * 10 ^ j ->
  0 <= j -> Z.abs m < 10 ^ 20 ->
  (Decimal.value (Decimal.sub x y) == Decimal.value x - Decimal.value y)%Q.
Proof.
  intros e Hc Hj Hm. unfold Decimal.sub. cbv zeta. fold e.
  rewrite (@round_value_multiple _ m j); [|exact Hc|exact Hj|exact Hm].
  apply sub_value_raw.
Qed.

Lemma toHumanAmount_human (raw d : Z) :
  0 <= raw < 10 ^ 20 -> Quote.toHumanAmount raw d = Ok (human raw d).
Proof.
  intros Hr. unfold human.
  destruct (Z.eqb_spec raw 0) as [->|Hne]; [reflexivity|].
  exact (proj1 (@toHumanAmount_small raw d ltac:(lia))).
Qed.

Lemma human_value (raw d : Z) :
  0 <= raw < 10 ^ 20 -> (Decimal.value (human raw d) * 10 ^ d == inject_Z raw)%Q.
Proof.
  intros Hr. destruct (@toHumanAmount_toRawAmount raw d Hr) as (h & Hh & _ & Hv).
  rewrite toHumanAmount_human in Hh by exact Hr. injection Hh as <-. exact Hv.
Qed.

(** The difference of two human amounts is exact: what [sub] cuts
    are zeros. *)
Lemma human_sub_value (T R d : Z) :
  0 <= T < 10 ^ 20 -> 0 <= R < 10 ^ 20 ->
  (Decimal.value (Decimal.sub (human T d) (human R d))
   == Decimal.value (human T d) - Decimal.value (human R d))%Q.
Proof.
  intros HT HR.
  { change (10 ^ 20) with 100000000000000000000 in HT, HR.
    unfold human.
    destruct (Z.eqb_spec T 0) as [ET|ET]; destruct (Z.eqb_spec R 0) as [ER|ER].
    - apply sub_exact with (m := 0) (j := 0); [reflexivity | lia | cbn; lia].
    - destruct (@ndigits_le_20 R ltac:(change (10 ^ 20) with 100000000000000000000; lia))
        as (Hn1 & Hn20).
      set (n := Decimal.ndigits R) in *. cbv zeta.
      destruct (Z.le_ge_cases 0 (n - 20 - d)) as [Hc|Hc].
      + apply sub_exact with (m := - R) (j := (20 - n) + (n - 20 - d));
          [|lia|lia].
        cbn [Decimal.coef Decimal.expo]. rewrite Z.min_l by lia.
        rewrite !Z.sub_0_r, Z.pow_add_r by lia. ring.
      + apply sub_exact with (m := - R) (j := 20 - n); [|lia|lia].
        cbn [Decimal.coef Decimal.expo]. rewrite Z.min_r by lia.
        rewrite Z.sub_diag, Z.pow_0_r. ring.
    - destruct (@ndigits_le_20 T ltac:(change (10 ^ 20) with 100000000000000000000; lia))
        as (Hn1 & Hn20).
      set (n := Decimal.ndigits T) in *. cbv zeta.
      destruct (Z.le_ge_cases 0 (n - 20 - d)) as [Hc|Hc].
      + apply sub_exact with (m := T) (j := (20 - n) + (n - 20 - d));
          [|lia|lia].
        cbn [Decimal.coef Decimal.expo]. rewrite Z.min_r by lia.
        rewrite !Z.sub_0_r, Z.pow_add_r by lia. ring.
      + apply sub_exact with (m := T) (j := 20 - n); [|lia|lia].
        cbn [Decimal.coef Decimal.expo]. rewrite Z.min_l by lia.
        rewrite Z.sub_diag, Z.pow_0_r. ring.
    - destruct (@ndigits_le_20 T ltac:(change (10 ^ 20) with 100000000000000000000; lia))
        as (Ht1 & Ht20).
      destruct (@ndigits_le_20 R ltac:(change (10 ^ 20) with 100000000000000000000; lia))
        as (Hr1 & Hr20).
      set (nT := Decimal.ndigits T) in *. set (nR := Decimal.ndigits R) in *.
      cbv zeta.
      destruct (Z.le_ge_cases nT nR) as [Hc|Hc].
      + apply sub_exact with (m := T - R) (j := 20 - nT); [|lia|lia].
        cbn [Decimal.coef Decimal.expo]. rewrite Z.min_l by lia.
        rewrite Z.sub_diag, Z.pow_0_r.
        replace (nR - 20 - d - (nT - 20 - d)) with (nR - nT) by lia.
        replace (20 - nT) with ((20 - nR) + (nR - nT)) by lia.
        rewrite Z.pow_add_r by lia. ring.
      + apply sub_exact with (m := T - R) (j := 20 - nR); [|lia|lia].
        cbn [Decimal.coef Decimal.expo]. rewrite Z.min_r by lia.
        rewrite Z.sub_diag, Z.pow_0_r.
        replace (nT - 20 - d - (nR - 20 - d)) with (nT - nR) by lia.
        replace (20 - nR) with ((20 - nT) + (nT - nR)) by lia.
        rewrite Z.pow_add_r by lia. ring. }
Qed.

Lemma human_sub_exact (T R d : Z) :
  0 <= T < 10 ^ 20 -> 0 <= R < 10 ^ 20 ->
  (Decimal.value (Decimal.sub (human T d) (human R d)) * 10 ^ d
   == inject_Z (T - R))%Q.
Proof.
  intros HT HR. rewrite human_sub_value by assumption.
  unfold Z.sub. rewrite inject_Z_plus, inject_Z_opp.
  rewrite <- (human_value d HT), <- (human_value d HR). ring.
Qed.

(** ** Raised and remaining *)

Lemma u64_below_precision (v : Z) : u64 v -> 0 <= v < 10 ^ 20.
Proof.
  unfold u64. change (2 ^ 64) with 18446744073709551616.
  change (10 ^ 20) with 100000000000000000000. lia.
Qed.

Lemma fetchPumpFunBondingCurveAccount_Ok
    (connection : Connection) (address : PublicKey)
    (curve : PumpFun.PumpFunBondingCurveAccount.t) :
  PumpFun.fetchPumpFunBondingCurveAccount connection address = Ok curve ->
  exists account,
    connection address = Some account
    /\ AccountInfo.owner account = PumpFun.PUMPFUN_PROGRAM
    /\ curve = PumpFun.deserializePumpFunBondingCurve (AccountInfo.data account).
Proof.
  unfold PumpFun.fetchPumpFunBondingCurveAccount.
  destruct (connection address) as [account|]; [|discriminate].
  destruct (Z.eqb_spec (AccountInfo.owner account) PumpFun.PUMPFUN_PROGRAM)
    as [Ho|Ho]; cbn [negb]; [|discriminate].
  intros H; injection H as <-. exists account. auto.
Qed.

Lemma fetchLaunchpadPoolAccount_Ok
    (connection : Connection) (address : PublicKey)
    (pool : Launchpad.LaunchpadPoolAccount.t) :
  Launchpad.fetchLaunchpadPoolAccount connection address = Ok pool ->
  exists account,
    connection address = Some account
    /\ AccountInfo.owner account = Launchpad.LAUNCHPAD_PROGRAM
    /\ pool = Launchpad.deserializeLaunchpadPool (AccountInfo.data account).
Proof.
  unfold Launchpad.fetchLaunchpadPoolAccount.
  destruct (connection address) as [account|]; [|discriminate].
  destruct (Z.eqb_spec (AccountInfo.owner account) Launchpad.LAUNCHPAD_PROGRAM)
    as [Ho|Ho]; cbn [negb]; [|discriminate].
  intros H; injection H as <-. exists account. auto.
Qed.

(** The amounts of a PumpFun summary. *)
Lemma fetchPumpFunBondingCurveInfo_amounts
    (connection : Connection) (address : PublicKey)
    (info : PumpFun.PumpFunBondingCurveInfo.t) :
  PumpFun.fetchPumpFunBondingCurveInfo connection address = Ok info ->
  exists curve,
    PumpFun.fetchPumpFunBondingCurveAccount connection address = Ok curve
    /\ Quote.toHumanAmount PumpFun.PUMPFUN_GRADUATION_TARGET PumpFun.SOL_DECIMALS
       = Ok (PumpFun.PumpFunBondingCurveInfo.totalFundRaisingSOL info)
    /\ Quote.toHumanAmount
         (PumpFun.PumpFunBondingCurveAccount.realSolReserves curve)
         PumpFun.SOL_DECIMALS
       = Ok (PumpFun.PumpFunBondingCurveInfo.raisedSoFar info)
    /\ PumpFun.PumpFunBondingCurveInfo.remainingToRaise info
       = Decimal.sub (PumpFun.PumpFunBondingCurveInfo.totalFundRaisingSOL info)
                     (PumpFun.PumpFunBondingCurveInfo.raisedSoFar info)
    /\ PumpFun.PumpFunBondingCurveInfo.realSolReserves info
       = PumpFun.PumpFunBondingCurveInfo.raisedSoFar info.
Proof.
  unfold PumpFun.fetchPumpFunBondingCurveInfo. cbv zeta. intros H.
  bind_inv H. injection H as <-.
  cbn [PumpFun.PumpFunBondingCurveInfo.totalFundRaisingSOL
       PumpFun.PumpFunBondingCurveInfo.raisedSoFar
       PumpFun.PumpFunBondingCurveInfo.remainingToRaise
       PumpFun.PumpFunBondingCurveInfo.realSolReserves].
  eexists. split; [reflexivity|].
  unfold Quote.toHumanAmount.
  repeat match goal with
  | |- _ /\ _ => split
  | |- _ => first [assumption | reflexivity | congruence]
  end.
Qed.

(** X15: in every PumpFun summary the target is 85 SOL, the amount
    raised is the real SOL reserve in SOL, and the amount remaining is
    exactly the target less the amount raised: no digit is lost, and
    past the target the remainder is negative, never clamped to zero. *)
Theorem X15_pumpfun_raised_and_remaining
    (connection : Connection) (address : PublicKey)
    (info : PumpFun.PumpFunBondingCurveInfo.t) :
  PumpFun.fetchPumpFunBondingCurveInfo connection address = Ok info ->
  exists curve,
    PumpFun.fetchPumpFunBondingCurveAccount connection address = Ok curve
    /\ (Decimal.value (PumpFun.PumpFunBondingCurveInfo.totalFundRaisingSOL info)
        == 85)%Q
    /\ (Decimal.value (PumpFun.PumpFunBondingCurveInfo.raisedSoFar info) * 10 ^ 9
        == inject_Z (PumpFun.PumpFunBondingCurveAccount.realSolReserves curve))%Q
    /\ (Decimal.value (PumpFun.PumpFunBondingCurveInfo.remainingToRaise info)
        == 85 - Decimal.value (PumpFun.PumpFunBondingCurveInfo.raisedSoFar info))%Q.
Proof.
  intros H.
  destruct (fetchPumpFunBondingCurveInfo_amounts _ _ H)
    as (curve & Hc & Ht & Hr & Hrem & _).
  exists curve. split; [exact Hc|].
  destruct (fetchPumpFunBondingCurveAccount_Ok _ _ Hc) as (account & _ & _ & Ed).
  assert (Hreal : 0 <= PumpFun.PumpFunBondingCurveAccount.realSolReserves curve
                  < 10 ^ 20).
  { apply u64_below_precision. rewrite Ed. apply read_le_range. }
  assert (Htarget : 0 <= PumpFun.PUMPFUN_GRADUATION_TARGET < 10 ^ 20)
    by (split; vm_compute; [discriminate | reflexivity]).
  rewrite toHumanAmount_human in Ht by exact Htarget.
  rewrite toHumanAmount_human in Hr by exact Hreal.
  injection Ht as Ht. injection Hr as Hr.
  assert (H85 : (Decimal.value
                   (human PumpFun.PUMPFUN_GRADUATION_TARGET PumpFun.SOL_DECIMALS)
                 == 85)%Q) by (vm_compute; reflexivity).
  split; [rewrite <- Ht; exact H85|].
  split; [rewrite <- Hr; apply (human_value PumpFun.SOL_DECIMALS Hreal)|].
  rewrite Hrem, <- Ht, <- Hr.
  rewrite human_sub_value by assumption. rewrite H85. reflexivity.
Qed.

(** The amounts of a launchpad summary. *)
Lemma fetchBondingCurveInfo_amounts
    (connection : Connection) (address : PublicKey)
    (info : Launchpad.BondingCurveInfo.t) :
  Launchpad.fetchBondingCurveInfo connection address = Ok info ->
  exists pool quoteDecimals,
    Launchpad.fetchLaunchpadPoolAccount connection address = Ok pool
    /\ Launchpad.LaunchpadPoolAccount.mintDecimalsB pool = Some quoteDecimals
    /\ Quote.toHumanAmount
         (Launchpad.LaunchpadPoolAccount.totalFundRaisingB pool) quoteDecimals
       = Ok (Launchpad.BondingCurveInfo.totalFundRaisingB info)
    /\ Quote.toHumanAmount
         (Launchpad.LaunchpadPoolAccount.realB pool) quoteDecimals
       = Ok (Launchpad.BondingCurveInfo.raisedSoFar info)
    /\ Launchpad.BondingCurveInfo.remainingToRaise info
       = Decimal.sub (Launchpad.BondingCurveInfo.totalFundRaisingB info)
                     (Launchpad.BondingCurveInfo.raisedSoFar info).
Proof.
  unfold Launchpad.fetchBondingCurveInfo. cbv zeta. intros H.
  bind_inv H. injection H as <-.
  cbn [Launchpad.BondingCurveInfo.totalFundRaisingB
       Launchpad.BondingCurveInfo.raisedSoFar
       Launchpad.BondingCurveInfo.remainingToRaise].
  match goal with
  | E : Launchpad.fetchLaunchpadPoolAccount _ _ = Ok ?p |- _ =>
      exists p;
      destruct (Launchpad.LaunchpadPoolAccount.mintDecimalsB p) as [dB|] eqn:EdB
  end.
  - exists dB. split; [reflexivity|]. split; [reflexivity|].
    cbn [Decimal.pow10_number] in *.
    repeat match goal with
    | E : Ok _ = Ok _ |- _ => injection E as <-
    end.
    unfold Quote.toHumanAmount.
    split; [assumption|]. split; [assumption | reflexivity].
  - cbn [Decimal.pow10_number] in *. discriminate.
Qed.

(** X16: in every launchpad summary the target and the amount raised
    are the pool's [totalFundRaisingB] and [realB] in units of the quote
    mint, and the amount remaining is exactly their difference: no digit
    is lost and an overfunded pool reports a negative remainder. *)
Theorem X16_launchpad_raised_and_remaining
    (connection : Connection) (address : PublicKey)
    (info : Launchpad.BondingCurveInfo.t) :
  Launchpad.fetchBondingCurveInfo connection address = Ok info ->
  exists pool quoteDecimals,
    Launchpad.fetchLaunchpadPoolAccount connection address = Ok pool
    /\ Launchpad.LaunchpadPoolAccount.mintDecimalsB pool = Some quoteDecimals
    /\ (Decimal.value (Launchpad.BondingCurveInfo.totalFundRaisingB info)
        * 10 ^ quoteDecimals
        == inject_Z (Launchpad.LaunchpadPoolAccount.totalFundRaisingB pool))%Q
    /\ (Decimal.value (Launchpad.BondingCurveInfo.raisedSoFar info)
        * 10 ^ quoteDecimals
        == inject_Z (Launchpad.LaunchpadPoolAccount.realB pool))%Q
    /\ (Decimal.value (Launchpad.BondingCurveInfo.remainingToRaise info)
        == Decimal.value (Launchpad.BondingCurveInfo.totalFundRaisingB info)
           - Decimal.value (Launchpad.BondingCurveInfo.raisedSoFar info))%Q.
Proof.
  intros H.
  destruct (fetchBondingCurveInfo_amounts _ _ H)
    as (pool & dB & Hp & HdB & Ht & Hr & Hrem).
  exists pool, dB. split; [exact Hp|]. split; [exact HdB|].
  destruct (fetchLaunchpadPoolAccount_Ok _ _ Hp) as (account & _ & _ & Ed).
  assert (Htot : 0 <= Launchpad.LaunchpadPoolAccount.totalFundRaisingB pool
                 < 10 ^ 20).
  { apply u64_below_precision. rewrite Ed. apply read_le_range. }
  assert (Hreal : 0 <= Launchpad.LaunchpadPoolAccount.realB pool < 10 ^ 20).
  { apply u64_below_precision. rewrite Ed. apply read_le_range. }
  rewrite toHumanAmount_human in Ht by exact Htot.
  rewrite toHumanAmount_human in Hr by exact Hreal.
  injection Ht as Ht. injection Hr as Hr.
  split; [rewrite <- Ht; apply (human_value dB Htot)|].
  split; [rewrite <- Hr; apply (human_value dB Hreal)|].
  rewrite Hrem, <- Ht, <- Hr. apply human_sub_value; assumption.
Qed.

(** ** When the launchpad summary returns *)

Lemma ratio_times_adjustment (num den : Z) (adj : Decimal.t) :
  (ratio <- Decimal.div (Decimal.of_Z num) (Decimal.of_Z den) ;;
   Decimal.mul_number ratio (Some adj))
  = if (num =? 0) || negb (den =? 0)
    then Ok (Decimal.mul
               (match Decimal.div (Decimal.of_Z num) (Decimal.of_Z den) with
                | Ok ratio => ratio
                | Err _ => Decimal.of_Z 0
                end) adj)
    else Err DecimalDivisionByZero.
Proof.
  unfold Decimal.div. rewrite !isZero_of_Z.
  destruct (num =? 0); [reflexivity|].
  destruct (den =? 0); reflexivity.
Qed.

Lemma Launchpad_bondingPercentage_returns (pool : Launchpad.LaunchpadPoolAccount.t) :
  exists p, Launchpad.bondingPercentage pool = Ok p.
Proof.
  unfold Launchpad.bondingPercentage, BN.isZero.
  destruct (Z.eqb_spec (Launchpad.LaunchpadPoolAccount.totalFundRaisingB pool) 0)
    as [|Hne]; [eauto|].
  match goal with
  | |- context [Decimal.div ?x ?y] =>
      destruct (@Decimal_div_Ok x y) as (z & -> & _)
  end.
  - right. rewrite isZero_of_Z. now apply Z.eqb_neq.
  - cbn [bind]. eauto.
Qed.

(** X17: for a launchpad pool whose two decimals bytes are present and
    whose config account names a known curve, [fetchBondingCurveInfo]
    returns a summary unless one of its two prices divides a non-zero
    numerator by zero, and then it throws the decimal library's division
    by zero; nothing else can fail. *)
Theorem X17_launchpad_info_returns
    (connection : Connection) (address : PublicKey)
    (pool : Launchpad.LaunchpadPoolAccount.t) (curveType : CurveType)
    (decimalsA decimalsB : Z) :
  Launchpad.fetchLaunchpadPoolAccount connection address = Ok pool ->
  Launchpad.fetchLaunchpadCurveType connection
    (Launchpad.LaunchpadPoolAccount.configId pool) = Ok curveType ->
  Launchpad.LaunchpadPoolAccount.mintDecimalsA pool = Some decimalsA ->
  Launchpad.LaunchpadPoolAccount.mintDecimalsB pool = Some decimalsB ->
  if ((currentNumerator pool =? 0) || negb (currentDenominator pool =? 0))
     && ((graduationNumerator pool curveType =? 0)
         || negb (graduationDenominator pool curveType =? 0))
  then
    exists info,
      Launchpad.fetchBondingCurveInfo connection address = Ok info
      /\ Launchpad.BondingCurveInfo.curveType info = curveType
      /\ Launchpad.BondingCurveInfo.curveTypeLabel info
         = Launchpad.CURVE_TYPE_LABELS curveType
      /\ Launchpad.BondingCurveInfo.poolStatus info
         = Launchpad.LaunchpadPoolAccount.status pool
  else
    Launchpad.fetchBondingCurveInfo connection address
    = Err DecimalDivisionByZero.
Proof.
  intros Hp Hc HdA HdB.
  unfold Launchpad.fetchBondingCurveInfo. rewrite Hp. cbn [bind].
  rewrite Hc. cbn [bind].
  destruct (Launchpad_bondingPercentage_returns pool) as (pct & ->). cbn [bind].
  assert (Hcur : Launchpad.calculateCurrentPrice pool curveType
                 = (ratio <- Decimal.div (Decimal.of_Z (currentNumerator pool))
                                         (Decimal.of_Z (currentDenominator pool)) ;;
                    Decimal.mul_number ratio
                      (Some (Decimal.pow10 (decimalsA - decimalsB))))).
  { unfold Launchpad.calculateCurrentPrice. rewrite HdA, HdB.
    destruct curveType; reflexivity. }
  assert (Hgrad : Launchpad.calculateGraduationPrice pool curveType
                  = (ratio <- Decimal.div
                                (Decimal.of_Z (graduationNumerator pool curveType))
                                (Decimal.of_Z (graduationDenominator pool curveType)) ;;
                     Decimal.mul_number ratio
                       (Some (Decimal.pow10 (decimalsA - decimalsB))))).
  { unfold Launchpad.calculateGraduationPrice. rewrite HdA, HdB.
    destruct curveType; reflexivity. }
  rewrite Hcur, Hgrad, !ratio_times_adjustment.
  destruct ((currentNumerator pool =? 0) || negb (currentDenominator pool =? 0));
    cbn [andb bind]; [|reflexivity].
  destruct ((graduationNumerator pool curveType =? 0)
            || negb (graduationDenominator pool curveType =? 0));
    cbn [bind]; [|reflexivity].
  rewrite HdA, HdB. cbn [Decimal.pow10_number bind].
  div_returns. eexists. repeat split; reflexivity.
Qed.

(** ** The accuracy of the prices *)

Lemma ten_Qpower_pos (n : Z) : (0 < 10 ^ n)%Q.
Proof. apply Qpower_0_lt. reflexivity. Qed.

Lemma mul_pow10_value (d : Decimal.t) (n : Z) :
  Z.abs (Decimal.coef d) < 10 ^ 20 ->
  (Decimal.value (Decimal.mul d (Decimal.pow10 n)) == Decimal.value d * 10 ^ n)%Q.
Proof.
  intros Hc. unfold Decimal.mul, Decimal.pow10.
  cbn [Decimal.coef Decimal.expo]. rewrite Z.mul_1_r.
  rewrite round_small by exact Hc.
  unfold Decimal.value. cbn [Decimal.coef Decimal.expo].
  rewrite Qpower_plus by discriminate. ring.
Qed.

(** A price [num / den * 10 ^ n] of positive integers is within a
    relative [1 / 10 ^ 19] of its exact value. *)
Lemma ratio_price_accuracy (num den n : Z) :
  0 < num -> 0 < den ->
  exists ratio,
    Decimal.div (Decimal.of_Z num) (Decimal.of_Z den) = Ok ratio
    /\ (Qabs (Decimal.value (Decimal.mul ratio (Decimal.pow10 n)) * inject_Z den
              - inject_Z num * 10 ^ n)
        * inject_Z (10 ^ 19) <= inject_Z num * 10 ^ n)%Q.
Proof.
  intros Hn Hd.
  destruct (@div_of_Z_bound num den Hn Hd) as (ratio & Hdiv & Hc & Hb).
  exists ratio. split; [exact Hdiv|].
  rewrite mul_pow10_value by exact Hc.
  set (V := Decimal.value ratio) in *.
  pose proof (ten_Qpower_pos n) as Hp.
  setoid_replace (V * 10 ^ n * inject_Z den - inject_Z num * 10 ^ n)%Q
    with (10 ^ n * (V * inject_Z den - inject_Z num))%Q by ring.
  rewrite Qabs_Qmult, (Qabs_pos (10 ^ n)) by (apply Qlt_le_weak; exact Hp).
  rewrite <- Qmult_assoc, (Qmult_comm (inject_Z num)).
  apply Qmult_le_l; [exact Hp | exact Hb].
Qed.

(** X26: the pool price of the quote engine,
    [quoteReserve / baseReserve * 10 ^ (decimalsA - decimalsB)], is
    returned whenever both reserves are positive, and is within a
    relative [1 / 10 ^ 19] of the exact quotient: the decimal quotient
    keeps twenty digits and the power of ten, a [Decimal] power, is
    exact.  Every quote that is returned on such a pool, of either kind,
    carries a current price of that accuracy. *)
Theorem X26_current_price_accuracy (pool : PoolData.t) :
  tokenDecimals pool ->
  0 < PoolData.quoteReserve pool -> 0 < PoolData.baseReserve pool ->
  let adjustment :=
    TokenInfo.decimals (PoolData.mintA pool)
    - TokenInfo.decimals (PoolData.mintB pool) in
  (exists p,
     Quote.calculateCurrentPrice pool = Ok p
     /\ accurate p (PoolData.quoteReserve pool) (PoolData.baseReserve pool)
          adjustment)
  /\ (forall amount slippage direction q,
        Quote.calculateExactInputQuote
          (ExactInputQuoteParams.mk pool amount slippage direction) = Ok q
        \/ Quote.calculateExactOutputQuote
             (ExactOutputQuoteParams.mk pool amount slippage direction) = Ok q ->
        accurate (QuoteResult.currentPrice q) (PoolData.quoteReserve pool)
          (PoolData.baseReserve pool) adjustment).
Proof.
  intros _ Hq Hb adjustment.
  assert (Hprice : exists p,
            Quote.calculateCurrentPrice pool = Ok p
            /\ accurate p (PoolData.quoteReserve pool)
                 (PoolData.baseReserve pool) adjustment).
  { unfold Quote.calculateCurrentPrice. cbv zeta.
    destruct (@ratio_price_accuracy (PoolData.quoteReserve pool)
                (PoolData.baseReserve pool) adjustment Hq Hb)
      as (ratio & Hdiv & Hacc).
    rewrite Hdiv. cbn [bind]. eexists. split; [reflexivity | exact Hacc]. }
  split; [exact Hprice|].
  intros amount slippage direction q Hquote.
  destruct Hprice as (p & Hp & Hacc).
  assert (Hcur : Quote.calculateCurrentPrice pool
                 = Ok (QuoteResult.currentPrice q)).
  { destruct Hquote as [H|H].
    - apply calculateExactInputQuote_prices in H. exact (proj1 H).
    - apply calculateExactOutputQuote_prices in H. exact (proj1 H). }
  rewrite Hp in Hcur. injection Hcur as <-. exact Hacc.
Qed.

(** X26 at the sample pool. *)
Lemma X26_witness :
  exists p,
    Quote.calculateCurrentPrice Sample.pool = Ok p
    /\ accurate p 1000000000 1000000000 (6 - 9).
Proof.
  exact (proj1 (@X26_current_price_accuracy Sample.pool
                  ltac:(split; split; vm_compute; discriminate)
                  ltac:(vm_compute; reflexivity)
                  ltac:(vm_compute; reflexivity))).
Defined.

(** ** Which error the launchpad summary throws *)

Lemma div_mul_number_Err (x y : Decimal.t) (adj : option Decimal.t) (e : error) :
  (ratio <- Decimal.div x y ;; Decimal.mul_number ratio adj) = Err e ->
  e = DecimalDivisionByZero \/ e = DecimalInvalidArgument.
Proof.
  destruct (Decimal.div x y) as [ratio|e'] eqn:E; cbn [bind].
  - destruct adj; cbn [Decimal.mul_number]; [discriminate|].
    intros H; injection H as <-. now right.
  - intros H; injection H as <-. apply Decimal_div_Err in E. left. tauto.
Qed.

Lemma Launchpad_calculateCurrentPrice_Err
    (pool : Launchpad.LaunchpadPoolAccount.t) (curveType : CurveType) (e : error) :
  Launchpad.calculateCurrentPrice pool curveType = Err e ->
  e = DecimalDivisionByZero \/ e = DecimalInvalidArgument.
Proof.
  unfold Launchpad.calculateCurrentPrice. cbv zeta.
  destruct curveType; apply div_mul_number_Err.
Qed.

Lemma Launchpad_calculateGraduationPrice_Err
    (pool : Launchpad.LaunchpadPoolAccount.t) (curveType : CurveType) (e : error) :
  Launchpad.calculateGraduationPrice pool curveType = Err e ->
  e = DecimalDivisionByZero \/ e = DecimalInvalidArgument.
Proof.
  unfold Launchpad.calculateGraduationPrice. cbv zeta.
  destruct curveType; apply div_mul_number_Err.
Qed.

Lemma pow10_number_Err (n : option Z) (e : error) :
  Decimal.pow10_number n = Err e -> e = DecimalInvalidArgument.
Proof.
  destruct n; cbn [Decimal.pow10_number]; [discriminate|].
  intros H; now injection H as <-.
Qed.

(** The arithmetic of the summary, once the pool and the curve type
    have arrived, throws nothing but the decimal library's errors. *)
Lemma fetchBondingCurveInfo_arithmetic_Err
    (connection : Connection) (address : PublicKey)
    (pool : Launchpad.LaunchpadPoolAccount.t) (curveType : CurveType) (e : error) :
  Launchpad.fetchLaunchpadPoolAccount connection address = Ok pool ->
  Launchpad.fetchLaunchpadCurveType connection
    (Launchpad.LaunchpadPoolAccount.configId pool) = Ok curveType ->
  Launchpad.fetchBondingCurveInfo connection address = Err e ->
  e = DecimalDivisionByZero \/ e = DecimalInvalidArgument.
Proof.
  intros Hp Hc. unfold Launchpad.fetchBondingCurveInfo.
  rewrite Hp. cbn [bind]. rewrite Hc. cbn [bind].
  destruct (Launchpad_bondingPercentage_returns pool) as (pct & ->). cbn [bind].
  intros H.
  repeat match type of H with
  | bind ?m _ = Err _ =>
      let E := fresh "E" in
      destruct m eqn:E; cbn [bind] in H
  end; try discriminate H; injection H as ->;
  match goal with
  | E : Launchpad.calculateCurrentPrice _ _ = Err _ |- _ =>
      exact (Launchpad_calculateCurrentPrice_Err _ _ E)
  | E : Launchpad.calculateGraduationPrice _ _ = Err _ |- _ =>
      exact (Launchpad_calculateGraduationPrice_Err _ _ E)
  | E : Decimal.pow10_number _ = Err _ |- _ =>
      right; exact (pow10_number_Err _ E)
  | E : Decimal.div _ _ = Err _ |- _ =>
      left; apply Decimal_div_Err in E; tauto
  end.
Qed.

(** X25: which of its own three errors [fetchBondingCurveInfo] throws,
    and when.  Ownership mismatch: exactly when the pool account exists
    and is not owned by the launchpad program; the owner of the config
    account is never looked at.  Account not found: exactly when the pool
    account is missing, or it decodes and the account at its [configId]
    is missing.  Unknown curve type: exactly when both accounts are there
    and byte 16 of the config account is not 0, 1 or 2, or is absent.
    The arithmetic that follows throws none of the three. *)
Theorem X25_launchpad_fetch_errors
    (connection : Connection) (address : PublicKey) :
  (Launchpad.fetchBondingCurveInfo connection address = Err OwnershipMismatch
   <-> exists account,
         connection address = Some account
         /\ AccountInfo.owner account <> Launchpad.LAUNCHPAD_PROGRAM)
  /\ (Launchpad.fetchBondingCurveInfo connection address = Err AccountNotFound
      <-> connection address = None
          \/ exists pool,
               Launchpad.fetchLaunchpadPoolAccount connection address = Ok pool
               /\ connection (Launchpad.LaunchpadPoolAccount.configId pool) = None)
  /\ (Launchpad.fetchBondingCurveInfo connection address = Err UnknownCurveType
      <-> exists pool config,
            Launchpad.fetchLaunchpadPoolAccount connection address = Ok pool
            /\ connection (Launchpad.LaunchpadPoolAccount.configId pool)
               = Some config
            /\ Buffer.get (AccountInfo.data config) 16 <> Some 0
            /\ Buffer.get (AccountInfo.data config) 16 <> Some 1
            /\ Buffer.get (AccountInfo.data config) 16 <> Some 2).
Proof.
  assert (Hcurve : forall data,
            (exists c, Launchpad.deserializeCurveType data = Ok c
                       /\ (Buffer.get data 16 = Some 0
                           \/ Buffer.get data 16 = Some 1
                           \/ Buffer.get data 16 = Some 2))
            \/ (Launchpad.deserializeCurveType data = Err UnknownCurveType
                /\ Buffer.get data 16 <> Some 0
                /\ Buffer.get data 16 <> Some 1
                /\ Buffer.get data 16 <> Some 2)).
  { intros data. unfold Launchpad.deserializeCurveType, Launchpad.readU8,
      Launchpad.CONFIG_OFFSETS.curveType.
    destruct (Buffer.get data 16) as [[|[[p|p|]|[p|p|]|]|p]|];
      first [ left; eexists; split; [reflexivity | tauto]
            | right; split; [reflexivity|]; repeat split; discriminate ]. }
  destruct (connection address) as [account|] eqn:Hget.
  2:{ assert (Hf : Launchpad.fetchBondingCurveInfo connection address
                   = Err AccountNotFound).
      { unfold Launchpad.fetchBondingCurveInfo, Launchpad.fetchLaunchpadPoolAccount.
        rewrite Hget. reflexivity. }
      assert (Hp : forall pool,
                Launchpad.fetchLaunchpadPoolAccount connection address <> Ok pool).
      { intros pool. unfold Launchpad.fetchLaunchpadPoolAccount.
        rewrite Hget. discriminate. }
      rewrite Hf. split; [|split].
      - split; [discriminate|]. intros (a & Ha & _). discriminate.
      - split; [now left | reflexivity].
      - split; [discriminate|]. intros (pool & _ & H & _). now apply Hp in H. }
  destruct (Z.eqb_spec (AccountInfo.owner account) Launchpad.LAUNCHPAD_PROGRAM)
    as [Ho|Ho].
  2:{ assert (Hf : Launchpad.fetchBondingCurveInfo connection address
                   = Err OwnershipMismatch).
      { unfold Launchpad.fetchBondingCurveInfo, Launchpad.fetchLaunchpadPoolAccount.
        rewrite Hget. apply Z.eqb_neq in Ho. rewrite Ho. reflexivity. }
      assert (Hp : forall pool,
                Launchpad.fetchLaunchpadPoolAccount connection address <> Ok pool).
      { intros pool. unfold Launchpad.fetchLaunchpadPoolAccount.
        rewrite Hget. apply Z.eqb_neq in Ho. rewrite Ho. discriminate. }
      rewrite Hf. split; [|split].
      - split; [|reflexivity]. intros _. exists account. auto.
      - split; [discriminate|].
        intros [H|(pool & H & _)]; [discriminate | now apply Hp in H].
      - split; [discriminate|]. intros (pool & _ & H & _). now apply Hp in H. }
  set (pool := Launchpad.deserializeLaunchpadPool (AccountInfo.data account)).
  assert (Hp : Launchpad.fetchLaunchpadPoolAccount connection address = Ok pool).
  { unfold Launchpad.fetchLaunchpadPoolAccount.
    rewrite Hget, Ho, Z.eqb_refl. reflexivity. }
  assert (Hown : ~ exists account',
             Some account = Some account'
             /\ AccountInfo.owner account' <> Launchpad.LAUNCHPAD_PROGRAM).
  { intros (a & Ha & Hne). injection Ha as <-. contradiction. }
  destruct (connection (Launchpad.LaunchpadPoolAccount.configId pool))
    as [config|] eqn:Hcfg.
  2:{ assert (Hf : Launchpad.fetchBondingCurveInfo connection address
                   = Err AccountNotFound).
      { unfold Launchpad.fetchBondingCurveInfo. rewrite Hp. cbn [bind].
        unfold Launchpad.fetchLaunchpadCurveType. rewrite Hcfg. reflexivity. }
      rewrite Hf. split; [|split].
      - split; [discriminate | intros H; now apply Hown in H].
      - split; [|reflexivity]. intros _. right. exists pool. auto.
      - split; [discriminate|].
        intros (pool' & config & Hp' & Hc' & _).
        rewrite Hp in Hp'. injection Hp' as <-. congruence. }
  destruct (Hcurve (AccountInfo.data config))
    as [(c & Hc & Hbyte) | (Hc & Hb0 & Hb1 & Hb2)].
  - assert (Hct : Launchpad.fetchLaunchpadCurveType connection
                    (Launchpad.LaunchpadPoolAccount.configId pool) = Ok c).
    { unfold Launchpad.fetchLaunchpadCurveType. rewrite Hcfg. exact Hc. }
    assert (Hrest : forall e,
              Launchpad.fetchBondingCurveInfo connection address = Err e ->
              e = DecimalDivisionByZero \/ e = DecimalInvalidArgument).
    { intros e. exact (@fetchBondingCurveInfo_arithmetic_Err connection address
                         pool c e Hp Hct). }
    split; [|split].
    + split; [|intros H; now apply Hown in H].
      intros H. apply Hrest in H. destruct H; discriminate.
    + split.
      * intros H. apply Hrest in H. destruct H; discriminate.
      * intros [H|(pool' & Hp' & Hc')]; [discriminate|].
        rewrite Hp in Hp'. injection Hp' as <-. congruence.
    + split.
      * intros H. apply Hrest in H. destruct H; discriminate.
      * intros (pool' & config' & Hp' & Hc' & H0 & H1 & H2).
        rewrite Hp in Hp'. injection Hp' as <-.
        rewrite Hcfg in Hc'. injection Hc' as <-.
        destruct Hbyte as [H|[H|H]]; congruence.
  - assert (Hf : Launchpad.fetchBondingCurveInfo connection address
                 = Err UnknownCurveType).
    { unfold Launchpad.fetchBondingCurveInfo. rewrite Hp. cbn [bind].
      unfold Launchpad.fetchLaunchpadCurveType. rewrite Hcfg, Hc. reflexivity. }
    rewrite Hf. split; [|split].
    + split; [discriminate | intros H; now apply Hown in H].
    + split; [discriminate|].
      intros [H|(pool' & Hp' & Hc')]; [discriminate|].
      rewrite Hp in Hp'. injection Hp' as <-. congruence.
    + split; [|reflexivity]. intros _. exists pool, config. auto.
Qed.

(** ** Which errors a quote throws *)

Lemma toRawAmount_Err (amount : Decimal.t) (decimals : Z) (e : error) :
  Quote.toRawAmount amount decimals = Err e -> e = BNAssertion.
Proof.
  unfold Quote.toRawAmount, Decimal.to_BN. cbv zeta.
  destruct (_ <? _); [discriminate|]. intros H; now injection H as <-.
Qed.

Lemma calculateFee_Err (amount feeRate : Z) (e : error) :
  Quote.calculateFee amount feeRate = Err e -> e = BNAssertion.
Proof.
  unfold Quote.calculateFee. intros H. now apply BN_div_Err in H.
Qed.

Lemma calculateSwapOutput_Err (a b c : Z) (e : error) :
  Quote.calculateSwapOutput a b c = Err e -> e = BNAssertion.
Proof.
  unfold Quote.calculateSwapOutput. cbv zeta. intros H.
  now apply BN_div_Err in H.
Qed.

Ltac quote_step_error E :=
  first [ apply toRawAmount_Err in E
        | apply calculateFee_Err in E
        | apply calculateSwapOutput_Err in E
        | apply calculateSwapInput_Err in E
        | apply ceilDiv_Err in E
        | apply slippageRate_Err in E
        | apply BN_div_Err in E; destruct E as [_ E]
        | apply calculateCurrentPrice_Err in E
        | apply toHumanAmount_Err in E
        | apply calculatePriceImpact_Err in E
        | apply Decimal_div_Err in E; destruct E as [E _] ].

(** X27: on token decimals of one byte and an amount far inside the
    exponent range of the decimal library, the exported quote functions
    throw nothing but what their steps throw.  All three throw the
    decimal library's invalid argument exactly for an amount that
    [new Decimal] rejects.  For an amount that it reads, an exact-input
    quote fails only with an assertion of [BN] (an amount or a tolerance
    that is no safe integer, a zero divisor) or with the decimal
    library's division by zero, and never with the reserve error, for it
    has no reserve check; an exact-output quote fails only with one of
    these three; and a batch fails only with an error of the function it
    maps. *)
Theorem X27_quote_errors :
  (forall params : Api.ExactInputQuoteParams.t,
     tokenDecimals (Api.ExactInputQuoteParams.poolData params) ->
     inExponentRange (Api.ExactInputQuoteParams.amountIn params) ->
     (Api.calculateExactInputQuote params = Err DecimalInvalidArgument
      <-> Api.ExactInputQuoteParams.amountIn params = None)
     /\ (forall e,
           Api.calculateExactInputQuote params = Err e ->
           e = DecimalInvalidArgument \/ e = BNAssertion
           \/ e = DecimalDivisionByZero))
  /\ (forall params : Api.ExactOutputQuoteParams.t,
        tokenDecimals (Api.ExactOutputQuoteParams.poolData params) ->
        inExponentRange (Api.ExactOutputQuoteParams.amountOut params) ->
        (Api.calculateExactOutputQuote params = Err DecimalInvalidArgument
         <-> Api.ExactOutputQuoteParams.amountOut params = None)
        /\ (forall e,
              Api.calculateExactOutputQuote params = Err e ->
              e = DecimalInvalidArgument \/ e = BNAssertion
              \/ e = InsufficientReserve \/ e = DecimalDivisionByZero))
  /\ (forall poolData amounts slippage direction isExactInput e,
        tokenDecimals poolData ->
        Forall inExponentRange amounts ->
        Api.calculateMultipleQuotes poolData amounts slippage direction
          isExactInput = Err e ->
        (e = DecimalInvalidArgument /\ In None amounts)
        \/ e = BNAssertion \/ e = DecimalDivisionByZero
        \/ (isExactInput = false /\ e = InsufficientReserve)).
Proof.
  assert (Hin : forall params e,
            Quote.calculateExactInputQuote params = Err e ->
            e = BNAssertion \/ e = DecimalDivisionByZero).
  { intros params e. unfold Quote.calculateExactInputQuote. cbv zeta. intros H.
    repeat match type of H with
    | bind ?m _ = Err _ =>
        let E := fresh "E" in
        destruct m eqn:E; cbn [bind] in H
    end; try discriminate H; injection H as ->;
    match goal with
    | E : _ = Err e |- _ =>
        first [ quote_step_error E
              | destruct (ExactInputQuoteParams.direction params);
                quote_step_error E ];
        subst e; tauto
    end. }
  assert (Hout : forall params e,
            Quote.calculateExactOutputQuote params = Err e ->
            e = BNAssertion \/ e = InsufficientReserve
            \/ e = DecimalDivisionByZero).
  { intros params e. unfold Quote.calculateExactOutputQuote. cbv zeta. intros H.
    destruct (Quote.toRawAmount _ _) eqn:E0; cbn [bind] in H.
    - destruct (BN.gte _ _); [injection H as <-; tauto|].
      repeat match type of H with
      | bind ?m _ = Err _ =>
          let E := fresh "E" in
          destruct m eqn:E; cbn [bind] in H
      end; try discriminate H; injection H as ->;
      match goal with
      | E : _ = Err e |- _ =>
          first [ quote_step_error E
                | destruct (ExactOutputQuoteParams.direction params);
                  quote_step_error E ];
          subst e; tauto
      end.
    - injection H as <-. apply toRawAmount_Err in E0. tauto. }
  assert (HinApi : forall params : Api.ExactInputQuoteParams.t,
            (Api.calculateExactInputQuote params = Err DecimalInvalidArgument
             <-> Api.ExactInputQuoteParams.amountIn params = None)
            /\ (forall e,
                  Api.calculateExactInputQuote params = Err e ->
                  e = DecimalInvalidArgument \/ e = BNAssertion
                  \/ e = DecimalDivisionByZero)).
  { intros params. unfold Api.calculateExactInputQuote.
    destruct (Api.ExactInputQuoteParams.amountIn params) as [d|];
      cbn [Api.newDecimal bind].
    - split.
      + split; [|discriminate]. intros H. apply Hin in H.
        destruct H; discriminate.
      + intros e H. apply Hin in H. tauto.
    - split; [tauto|]. intros e H. injection H as <-. tauto. }
  assert (HoutApi : forall params : Api.ExactOutputQuoteParams.t,
            (Api.calculateExactOutputQuote params = Err DecimalInvalidArgument
             <-> Api.ExactOutputQuoteParams.amountOut params = None)
            /\ (forall e,
                  Api.calculateExactOutputQuote params = Err e ->
                  e = DecimalInvalidArgument \/ e = BNAssertion
                  \/ e = InsufficientReserve \/ e = DecimalDivisionByZero)).
  { intros params. unfold Api.calculateExactOutputQuote.
    destruct (Api.ExactOutputQuoteParams.amountOut params) as [d|];
      cbn [Api.newDecimal bind].
    - split.
      + split; [|discriminate]. intros H. apply Hout in H.
        destruct H as [H|[H|H]]; discriminate.
      + intros e H. apply Hout in H. tauto.
    - split; [tauto|]. intros e H. injection H as <-. tauto. }
  split; [intros params _ _; apply HinApi|].
  split; [intros params _ _; apply HoutApi|].
  intros poolData amounts slippage direction isExactInput e _ _ H.
  unfold Api.calculateMultipleQuotes in H. apply mapM_Err in H.
  destruct H as (amount & Hmem & H).
  destruct isExactInput.
  - destruct (HinApi (Api.ExactInputQuoteParams.mk poolData amount slippage
                        direction)) as (Hinv & Herr).
    destruct (Herr e H) as [E|[E|E]]; subst e; [|tauto|tauto].
    left. split; [reflexivity|]. apply Hinv in H. cbn in H. subst amount.
    exact Hmem.
  - destruct (HoutApi (Api.ExactOutputQuoteParams.mk poolData amount slippage
                         direction)) as (Hinv & Herr).
    destruct (Herr e H) as [E|[E|[E|E]]]; subst e; [|tauto|tauto|tauto].
    left. split; [reflexivity|]. apply Hinv in H. cbn in H. subst amount.
    exact Hmem.
Qed.

(** ** The pool cache *)

Section PoolCache.

Import PoolFetcher.

Lemma get_set_same (V : Type) (m : Map.t V) (k : string) (v : V) :
  Map.get (Map.set m k v) k = Some v.
Proof.
  induction m as [|[k' v'] m IH]; cbn [Map.set Map.get].
  - now rewrite String.eqb_refl.
  - destruct (String.eqb k k') eqn:E; cbn [Map.get].
    + now rewrite String.eqb_refl.
    + rewrite E. exact IH.
Qed.

Lemma get_set_other (V : Type) (m : Map.t V) (k k' : string) (v : V) :
  k <> k' -> Map.get (Map.set m k v) k' = Map.get m k'.
Proof.
  intros Hne.
  induction m as [|[k0 v0] m IH]; cbn [Map.set Map.get].
  - destruct (String.eqb_spec k' k); [congruence | reflexivity].
  - destruct (String.eqb_spec k k0) as [->|Hk]; cbn [Map.get].
    + destruct (String.eqb_spec k' k0); [congruence | reflexivity].
    + destruct (String.eqb_spec k' k0); [reflexivity | exact IH].
Qed.

Lemma get_delete_same (V : Type) (m : Map.t V) (k : string) :
  Map.get (Map.delete m k) k = None.
Proof.
  unfold Map.delete.
  induction m as [|[k' v'] m IH]; cbn [filter Map.get fst]; [reflexivity|].
  destruct (String.eqb k k') eqn:E; cbn [negb Map.get]; [exact IH|].
  rewrite E. exact IH.
Qed.

Lemma get_delete_other (V : Type) (m : Map.t V) (k k' : string) :
  k <> k' -> Map.get (Map.delete m k) k' = Map.get m k'.
Proof.
  intros Hne. unfold Map.delete.
  induction m as [|[k0 v0] m IH]; cbn [filter Map.get fst]; [reflexivity|].
  destruct (String.eqb_spec k k0) as [->|Hk]; cbn [negb Map.get].
  - destruct (String.eqb_spec k' k0); [congruence | exact IH].
  - destruct (String.eqb_spec k' k0); [reflexivity | exact IH].
Qed.

Lemma cachedData_set_same (st : state) (key : string) (d : PoolData.t)
    (expiry now : Z) (i : option Raydium) (c : option ObjectRef) :
  cachedData (mkState (Map.set (poolCache st) key (PoolCacheEntry.mk d expiry)) i c)
             key now
  = if now <? expiry then Some d else None.
Proof.
  unfold cachedData. cbn [poolCache]. rewrite get_set_same. reflexivity.
Qed.

Lemma cachedData_set_other (st : state) (key key' : string)
    (e : PoolCacheEntry.t) (now : Z) (i : option Raydium) (c : option ObjectRef) :
  key <> key' ->
  cachedData (mkState (Map.set (poolCache st) key e) i c) key' now
  = cachedData st key' now.
Proof.
  intros Hne. unfold cachedData. cbn [poolCache].
  now rewrite get_set_other by exact Hne.
Qed.

Lemma getRaydiumInstance_cache (w : World.t) (st : state) (connection : ObjectRef) :
  poolCache (snd (getRaydiumInstance w st connection)) = poolCache st.
Proof.
  unfold getRaydiumInstance. cbv zeta.
  destruct (raydiumInstance st) as [i|], (raydiumConnection st) as [c|];
    try destruct (Z.eqb c connection);
    try (destruct (World.load w connection)); reflexivity.
Qed.

(** What a fetch that went to the RPC node leaves in the cache. *)
Lemma fetchPoolData_refreshed (w : World.t) (st st' : state)
    (connection : ObjectRef) (poolId : PoolId) (options : FetchPoolOptions.t)
    (now : Z) (d : PoolData.t) :
  refreshed w st poolId options now ->
  fetchPoolData w st connection poolId options now = (Some d, st') ->
  PoolData.fetchedAt d = now
  /\ poolCache st'
     = Map.set (poolCache st) (toString w poolId)
         (PoolCacheEntry.mk d (now + ttlOf options))
  /\ raydiumConnection st' = Some connection
  /\ raydiumInstance st' <> None.
Proof.
  intros Href. unfold fetchPoolData. cbv zeta. fold (ttlOf options).
  assert (Hhit : match FetchPoolOptions.forceRefresh options with
                 | Some true => None
                 | _ => cachedData st (toString w poolId) now
                 end = None).
  { destruct Href as [-> | Hmiss]; [reflexivity|].
    unfold getPoolDataFromCache in Hmiss. rewrite Hmiss.
    destruct (FetchPoolOptions.forceRefresh options) as [[|]|]; reflexivity. }
  rewrite Hhit.
  pose proof (getRaydiumInstance_cache w st connection) as Hcache.
  assert (Hinst : forall r st1,
            getRaydiumInstance w st connection = (Some r, st1) ->
            raydiumConnection st1 = Some connection
            /\ raydiumInstance st1 <> None).
  { unfold getRaydiumInstance. cbv zeta. intros r st1.
    destruct (raydiumInstance st) as [i|] eqn:Ei,
             (raydiumConnection st) as [c|] eqn:Ec;
      try destruct (Z.eqb_spec c connection);
      try (destruct (World.load w connection));
      intros H; inversion H; subst; cbn [raydiumConnection raydiumInstance];
      split; congruence. }
  destruct (getRaydiumInstance w st connection) as [[r|] st1]; [|discriminate].
  cbn [snd] in Hcache. specialize (Hinst r st1 eq_refl).
  destruct (World.getPoolInfoFromRpc w r (toString w poolId)) as [rpc|];
    [|discriminate].
  destruct (World.PublicKey_of_string w _) as [keyA|]; [|discriminate].
  destruct (World.PublicKey_of_string w _) as [keyB|]; [|discriminate].
  destruct (World.PublicKey_of_string w _) as [id|]; [|discriminate].
  intros H. injection H as <- <-.
  cbn [PoolData.fetchedAt poolCache raydiumConnection raydiumInstance].
  rewrite Hcache. repeat split; tauto.
Qed.

(** An unforced fetch of a key whose entry has not expired returns the
    entry and touches nothing: the world is not consulted. *)
Lemma fetchPoolData_hit (w : World.t) (st : state) (connection : ObjectRef)
    (poolId : PoolId) (options : FetchPoolOptions.t) (now : Z) (d : PoolData.t) :
  FetchPoolOptions.forceRefresh options <> Some true ->
  getPoolDataFromCache w st poolId now = Some d ->
  fetchPoolData w st connection poolId options now = (Some d, st).
Proof.
  intros Hf Hc. unfold fetchPoolData. cbv zeta.
  unfold getPoolDataFromCache in Hc. rewrite Hc.
  destruct (FetchPoolOptions.forceRefresh options) as [[|]|];
    [congruence | reflexivity | reflexivity].
Qed.

(** After a fetch that went to the RPC node the cache yields its data
    for the key until the expiry. *)
Lemma cached_after_refresh (w : World.t) (st st' : state)
    (connection : ObjectRef) (poolId : PoolId) (options : FetchPoolOptions.t)
    (now : Z) (d : PoolData.t) :
  refreshed w st poolId options now ->
  fetchPoolData w st connection poolId options now = (Some d, st') ->
  forall w' poolId' now',
    toString w' poolId' = toString w poolId ->
    getPoolDataFromCache w' st' poolId' now'
    = if now' <? now + ttlOf options then Some d else None.
Proof.
  intros Href Hfetch w' poolId' now' Hkey.
  destruct (@fetchPoolData_refreshed w st st' _ _ _ now d Href Hfetch)
    as (_ & Hcache & _).
  unfold getPoolDataFromCache, cachedData.
  rewrite Hkey, Hcache, get_set_same. reflexivity.
Qed.

(** X18: pool data that [fetchPoolData] has just taken from the RPC node
    is stamped with the time of the call, and until its time to live has
    passed every unforced fetch of the same key returns the same data
    without consulting the SDK or changing the module's state, whatever
    the connection; from the expiry on the cache no longer yields it, so
    that a time to live of zero or less is never served. *)
Theorem X18_fetch_then_hit (w : World.t) (st st' : state)
    (connection : ObjectRef) (poolId : PoolId) (options : FetchPoolOptions.t)
    (now : Z) (d : PoolData.t) :
  refreshed w st poolId options now ->
  fetchPoolData w st connection poolId options now = (Some d, st') ->
  PoolData.fetchedAt d = now
  /\ (forall w' connection' poolId' options' now',
        toString w' poolId' = toString w poolId ->
        FetchPoolOptions.forceRefresh options' <> Some true ->
        now' < now + ttlOf options ->
        fetchPoolData w' st' connection' poolId' options' now' = (Some d, st'))
  /\ (forall w' poolId' now',
        toString w' poolId' = toString w poolId ->
        now + ttlOf options <= now' ->
        getPoolDataFromCache w' st' poolId' now' = None).
Proof.
  intros Href Hfetch.
  destruct (@fetchPoolData_refreshed w st st' _ _ _ now d Href Hfetch)
    as (Hat & Hcache & _).
  split; [exact Hat|].
  assert (Hget : forall w' poolId' now',
            toString w' poolId' = toString w poolId ->
            getPoolDataFromCache w' st' poolId' now'
            = if now' <? now + ttlOf options then Some d else None).
  { intros w' poolId' now' Hkey. unfold getPoolDataFromCache, cachedData.
    rewrite Hkey, Hcache, get_set_same. reflexivity. }
  split.
  - intros w' connection' poolId' options' now' Hkey Hf Hlt.
    apply fetchPoolData_hit; [exact Hf|].
    rewrite Hget by exact Hkey.
    destruct (Z.ltb_spec now' (now + ttlOf options)); [reflexivity | lia].
  - intros w' poolId' now' Hkey Hge.
    rewrite Hget by exact Hkey.
    destruct (Z.ltb_spec now' (now + ttlOf options)); [lia | reflexivity].
Qed.

Lemma fetchPoolData_cache (w : World.t) (st st' : state)
    (connection : ObjectRef) (poolId : PoolId) (options : FetchPoolOptions.t)
    (now : Z) (r : option PoolData.t) :
  fetchPoolData w st connection poolId options now = (r, st') ->
  match r with
  | None => poolCache st' = poolCache st
  | Some d =>
      st' = st
      \/ poolCache st'
         = Map.set (poolCache st) (toString w poolId)
             (PoolCacheEntry.mk d (now + ttlOf options))
  end.
Proof.
  unfold fetchPoolData. cbv zeta. fold (ttlOf options).
  destruct (match FetchPoolOptions.forceRefresh options with
            | Some true => None
            | _ => cachedData st (toString w poolId) now
            end) as [hit|].
  - intros H. injection H as <- <-. now left.
  - pose proof (getRaydiumInstance_cache w st connection) as Hcache.
    destruct (getRaydiumInstance w st connection) as [[i|] st1]; cbn [snd] in Hcache.
    + destruct (World.getPoolInfoFromRpc w i (toString w poolId)) as [rpc|].
      * destruct (World.PublicKey_of_string w _) as [keyA|];
          [|intros H; injection H as <- <-; exact Hcache].
        destruct (World.PublicKey_of_string w _) as [keyB|];
          [|intros H; injection H as <- <-; exact Hcache].
        destruct (World.PublicKey_of_string w _) as [id|];
          [|intros H; injection H as <- <-; exact Hcache].
        intros H. injection H as <- <-. right. cbn [poolCache].
        now rewrite Hcache.
      * intros H; injection H as <- <-; exact Hcache.
    + intros H; injection H as <- <-; exact Hcache.
Qed.

(** X19: a fetch changes the cache at its own key only, and only when it
    succeeds: a fetch that throws leaves every entry as it was, and the
    entries of all other keys are served after the call exactly as
    before it. *)
Theorem X19_fetch_touches_its_key_only (w : World.t) (st st' : state)
    (connection : ObjectRef) (poolId : PoolId) (options : FetchPoolOptions.t)
    (now : Z) (r : option PoolData.t) :
  fetchPoolData w st connection poolId options now = (r, st') ->
  (r = None -> poolCache st' = poolCache st)
  /\ (forall w' poolId' now',
        toString w' poolId' <> toString w poolId ->
        getPoolDataFromCache w' st' poolId' now'
        = getPoolDataFromCache w' st poolId' now').
Proof.
  intros H. apply fetchPoolData_cache in H. split.
  - intros ->. exact H.
  - intros w' poolId' now' Hne. unfold getPoolDataFromCache, cachedData.
    destruct r as [d|].
    + destruct H as [-> | ->]; [reflexivity|].
      rewrite get_set_other by congruence. reflexivity.
    + now rewrite H.
Qed.

(** X20: [setPoolDataCache] followed by [getPoolDataFromCache] on the
    id of the stored data gives the data back strictly before
    [now + ttl] and nothing from then on; the entries of other keys and
    the SDK instance are untouched. *)
Theorem X20_set_then_get (w : World.t) (st : state) (d : PoolData.t)
    (ttl : option Z) (now : Z) :
  let st' := setPoolDataCache w st d ttl now in
  let expiry :=
    now + match ttl with Some t => t | None => DEFAULT_CACHE_TTL end in
  (forall now',
     getPoolDataFromCache w st' (ofPublicKey (PoolData.id d)) now'
     = if now' <? expiry then Some d else None)
  /\ (forall poolId' now',
        toString w poolId' <> World.PublicKey_toString w (PoolData.id d) ->
        getPoolDataFromCache w st' poolId' now'
        = getPoolDataFromCache w st poolId' now')
  /\ raydiumInstance st' = raydiumInstance st
  /\ raydiumConnection st' = raydiumConnection st.
Proof.
  cbv zeta. split; [|split; [|split; reflexivity]].
  - intros now'. unfold getPoolDataFromCache, setPoolDataCache. cbv zeta.
    cbn [toString]. apply cachedData_set_same.
  - intros poolId' now' Hne. unfold getPoolDataFromCache, setPoolDataCache.
    cbv zeta. apply cachedData_set_other. congruence.
Qed.

(** X21: [clearPoolCache] with an id removes the entry of that key and
    no other; without an argument, and also with the empty string, which
    is falsy, it removes every entry.  The SDK instance stays. *)
Theorem X21_clear_pool_cache (w : World.t) (st : state) :
  (forall poolId,
     truthy poolId = true ->
     let st' := clearPoolCache w st (Some poolId) in
     (forall poolId' now,
        toString w poolId' = toString w poolId ->
        getPoolDataFromCache w st' poolId' now = None)
     /\ (forall poolId' now,
           toString w poolId' <> toString w poolId ->
           getPoolDataFromCache w st' poolId' now
           = getPoolDataFromCache w st poolId' now))
  /\ (forall poolId' now,
        getPoolDataFromCache w (clearPoolCache w st None) poolId' now = None
        /\ getPoolDataFromCache w
             (clearPoolCache w st (Some (ofString ""))) poolId' now = None)
  /\ (forall poolId,
        raydiumInstance (clearPoolCache w st poolId) = raydiumInstance st
        /\ raydiumConnection (clearPoolCache w st poolId) = raydiumConnection st).
Proof.
  split; [|split].
  - intros poolId Ht. cbv zeta. unfold clearPoolCache. rewrite Ht. cbv zeta.
    split; intros poolId' now Hkey; unfold getPoolDataFromCache, cachedData;
      cbn [poolCache].
    + rewrite Hkey, get_delete_same. reflexivity.
    + rewrite get_delete_other by congruence. reflexivity.
  - intros poolId' now. split; reflexivity.
  - intros poolId. split; reflexivity.
Qed.

(** ** The SDK instance *)

Lemma getRaydiumInstance_coherent (w : World.t) (st : state)
    (connection : ObjectRef) :
  coherent st -> coherent (snd (getRaydiumInstance w st connection)).
Proof.
  unfold coherent, getRaydiumInstance. cbv zeta. intros H.
  destruct (raydiumInstance st) as [i|] eqn:Ei,
           (raydiumConnection st) as [c|] eqn:Ec;
    try destruct (Z.eqb c connection);
    try (destruct (World.load w connection));
    cbn [snd raydiumInstance raydiumConnection];
    rewrite ?Ei, ?Ec; try exact H; split; discriminate.
Qed.

Lemma fetchPoolData_instance (w : World.t) (st : state)
    (connection : ObjectRef) (poolId : PoolId) (options : FetchPoolOptions.t)
    (now : Z) :
  let st' := snd (fetchPoolData w st connection poolId options now) in
  (raydiumInstance st' = raydiumInstance st
   /\ raydiumConnection st' = raydiumConnection st)
  \/ (raydiumInstance st'
      = raydiumInstance (snd (getRaydiumInstance w st connection))
      /\ raydiumConnection st'
         = raydiumConnection (snd (getRaydiumInstance w st connection))).
Proof.
  cbv zeta. unfold fetchPoolData. cbv zeta.
  destruct (match FetchPoolOptions.forceRefresh options with
            | Some true => None
            | _ => cachedData st (toString w poolId) now
            end) as [hit|]; [left; split; reflexivity|].
  right.
  destruct (getRaydiumInstance w st connection) as [[i|] st1]; cbn [snd];
    [|split; reflexivity].
  destruct (World.getPoolInfoFromRpc w i (toString w poolId)) as [rpc|];
    [|split; reflexivity].
  destruct (World.PublicKey_of_string w _) as [keyA|]; [|split; reflexivity].
  destruct (World.PublicKey_of_string w _) as [keyB|]; [|split; reflexivity].
  destruct (World.PublicKey_of_string w _) as [id|]; split; reflexivity.
Qed.

(** X22: the SDK instance and the connection it was loaded for are set
    and cleared together by every operation of the module; an instance
    is loaded again only for another connection or after
    [clearRaydiumInstance], and a failed load leaves the previous
    instance in place. *)
Theorem X22_instance_is_reused (w : World.t) (st : state) :
  coherent initial
  /\ (coherent st ->
      (forall connection poolId options now,
         coherent (snd (fetchPoolData w st connection poolId options now)))
      /\ (forall d ttl now, coherent (setPoolDataCache w st d ttl now))
      /\ (forall poolId, coherent (clearPoolCache w st poolId))
      /\ coherent (clearRaydiumInstance st))
  /\ (forall instance connection,
        raydiumInstance st = Some instance ->
        raydiumConnection st = Some connection ->
        getRaydiumInstance w st connection = (Some instance, st))
  /\ (forall connection,
        raydiumConnection st <> Some connection ->
        getRaydiumInstance w st connection
        = match World.load w connection with
          | Some instance =>
              (Some instance,
               mkState (poolCache st) (Some instance) (Some connection))
          | None => (None, st)
          end)
  /\ (forall connection,
        getRaydiumInstance w (clearRaydiumInstance st) connection
        = match World.load w connection with
          | Some instance =>
              (Some instance,
               mkState (poolCache st) (Some instance) (Some connection))
          | None => (None, clearRaydiumInstance st)
          end).
Proof.
  split; [unfold coherent; cbn; tauto|].
  split; [|split; [|split]].
  - intros Hc. split; [|split; [|split]].
    + intros connection poolId options now.
      destruct (fetchPoolData_instance w st connection poolId options now)
        as [[Hi Hk]|[Hi Hk]]; unfold coherent; rewrite Hi, Hk.
      * exact Hc.
      * exact (@getRaydiumInstance_coherent w st connection Hc).
    + intros d ttl now. exact Hc.
    + intros poolId. exact Hc.
    + unfold coherent. cbn. tauto.
  - intros instance connection Hi Hk. unfold getRaydiumInstance. cbv zeta.
    rewrite Hi, Hk, Z.eqb_refl. reflexivity.
  - intros connection Hne. unfold getRaydiumInstance. cbv zeta.
    destruct (raydiumInstance st) as [i|], (raydiumConnection st) as [c|];
      try reflexivity.
    destruct (Z.eqb_spec c connection) as [->|]; [congruence | reflexivity].
  - intros connection. reflexivity.
Qed.

End PoolCache.

(** ** The calculator class *)

Section Calculator.

Import PoolFetcher.
Import LaunchpadQuoteCalculator.

Lemma withPoolData_hit (A : Type) (w : World.t) (st : state)
    (self : LaunchpadQuoteCalculator.t) (now : Z) (d : PoolData.t)
    (k : PoolData.t -> result A) :
  getPoolDataFromCache w st (ofPublicKey (poolId self)) now = Some d ->
  withPoolData w st self false now k = (Some (k d), st).
Proof.
  intros Hc. unfold withPoolData, getPoolData.
  rewrite (@fetchPoolData_hit w st (connection self)
             (ofPublicKey (poolId self)) _ now d); [reflexivity| |exact Hc].
  cbn. discriminate.
Qed.

(** X23: once a calculator has refreshed its pool data, every method
    called without [forceRefresh] before the time to live has passed
    works on that same data, without a call to the SDK and without a
    change of state: the four quote methods and the bulk method are the
    engine's functions applied to it, and each quote they return carries
    the price that [getCurrentPrice] returns. *)
Theorem X23_calculator_within_ttl (w w' : World.t) (st st' : state)
    (self : LaunchpadQuoteCalculator.t) (now now' : Z) (d : PoolData.t) :
  getPoolData w st self true now = (Some d, st') ->
  World.PublicKey_toString w' (poolId self)
  = World.PublicKey_toString w (poolId self) ->
  now' < now + cacheTTL self ->
  getPoolData w' st' self false now' = (Some d, st')
  /\ (forall amount slippage,
        getQuoteForExactSol w' st' self amount slippage false now'
        = (Some (Quote.calculateExactInputQuote
                   (ExactInputQuoteParams.mk d amount slippage solToToken)), st')
        /\ getQuoteForExactTokens w' st' self amount slippage false now'
           = (Some (Quote.calculateExactInputQuote
                      (ExactInputQuoteParams.mk d amount slippage tokenToSol)), st')
        /\ getQuoteToReceiveExactTokens w' st' self amount slippage false now'
           = (Some (Quote.calculateExactOutputQuote
                      (ExactOutputQuoteParams.mk d amount slippage solToToken)), st')
        /\ getQuoteToReceiveExactSol w' st' self amount slippage false now'
           = (Some (Quote.calculateExactOutputQuote
                      (ExactOutputQuoteParams.mk d amount slippage tokenToSol)), st'))
  /\ (forall amounts slippage direction isExactInput,
        getBulkQuotes w' st' self amounts slippage direction isExactInput
          false now'
        = (Some (Quote.calculateMultipleQuotes d amounts slippage direction
                   isExactInput), st'))
  /\ (forall amount slippage direction q,
        Quote.calculateExactInputQuote
          (ExactInputQuoteParams.mk d amount slippage direction) = Ok q
        \/ Quote.calculateExactOutputQuote
             (ExactOutputQuoteParams.mk d amount slippage direction) = Ok q ->
        getCurrentPrice w' st' self false now'
        = (Some (Ok (QuoteResult.currentPrice q)), st')).
Proof.
  intros Hget Hkey Hlt.
  assert (Href : refreshed w st (ofPublicKey (poolId self))
                   (FetchPoolOptions.mk (Some true) (Some (cacheTTL self))) now)
    by (left; reflexivity).
  assert (Hc : getPoolDataFromCache w' st' (ofPublicKey (poolId self)) now'
               = Some d).
  { rewrite (@cached_after_refresh w st st' _ _ _ now d Href Hget w'
               (ofPublicKey (poolId self)) now' Hkey).
    cbn [ttlOf FetchPoolOptions.cacheTTL].
    destruct (Z.ltb_spec now' (now + cacheTTL self)); [reflexivity | lia]. }
  split; [|split; [|split]].
  - unfold getPoolData. apply fetchPoolData_hit; [cbn; discriminate | exact Hc].
  - intros amount slippage.
    unfold getQuoteForExactSol, getQuoteForExactTokens,
      getQuoteToReceiveExactTokens, getQuoteToReceiveExactSol.
    rewrite !(@withPoolData_hit _ w' st' self now' d _ Hc). repeat split; reflexivity.
  - intros amounts slippage direction isExactInput. unfold getBulkQuotes.
    rewrite (@withPoolData_hit _ w' st' self now' d _ Hc). reflexivity.
  - intros amount slippage direction q Hq. unfold getCurrentPrice.
    rewrite (@withPoolData_hit _ w' st' self now' d _ Hc). f_equal. f_equal.
    change (Quote.calculateCurrentPrice d = Ok (QuoteResult.currentPrice q)).
    destruct Hq as [Hq|Hq].
    + apply calculateExactInputQuote_prices in Hq. exact (proj1 Hq).
    + apply calculateExactOutputQuote_prices in Hq. exact (proj1 Hq).
Qed.

End Calculator.

(** ** The further theorems at the sample data *)

(** X12 at the parameters of the test suite. *)
Lemma X12_witness :
  exists data,
    Mock.createMockBondingCurveData SampleFetch.params = Some data
    /\ List.length data = 57%nat
    /\ PumpFun.deserializePumpFunBondingCurve data
       = PumpFun.PumpFunBondingCurveAccount.mk 1000000000000 30000000000
           800000000000 50000000000 1000000000000 false.
Proof.
  destruct (@X12_build_then_decode SampleFetch.params)
    as (data & Hd & Hl & He & _);
    try (split; vm_compute; [discriminate | reflexivity]).
  exists data. split; [exact Hd|]. split; [exact Hl | exact He].
Defined.

(** X15 for an all-zero account: nothing raised, 85 SOL remaining. *)
Lemma X15_witness :
  exists info curve,
    PumpFun.fetchPumpFunBondingCurveInfo
      (SampleFetch.zeroConnection PumpFun.PUMPFUN_PROGRAM) 0 = Ok info
    /\ PumpFun.fetchPumpFunBondingCurveAccount
         (SampleFetch.zeroConnection PumpFun.PUMPFUN_PROGRAM) 0 = Ok curve
    /\ (Decimal.value (PumpFun.PumpFunBondingCurveInfo.totalFundRaisingSOL info)
        == 85)%Q
    /\ (Decimal.value (PumpFun.PumpFunBondingCurveInfo.remainingToRaise info)
        == 85 - Decimal.value (PumpFun.PumpFunBondingCurveInfo.raisedSoFar info))%Q.
Proof.
  destruct (PumpFun.fetchPumpFunBondingCurveInfo
              (SampleFetch.zeroConnection PumpFun.PUMPFUN_PROGRAM) 0)
    as [info|] eqn:Hi; [|vm_compute in Hi; discriminate Hi].
  destruct (@X15_pumpfun_raised_and_remaining
              (SampleFetch.zeroConnection PumpFun.PUMPFUN_PROGRAM) 0 info Hi)
    as (curve & Hc & Ht & _ & Hrem).
  exists info, curve. split; [reflexivity|]. split; [exact Hc|].
  split; [exact Ht | exact Hrem].
Defined.

(** X16 for an all-zero launchpad account. *)
Lemma X16_witness :
  exists info pool quoteDecimals,
    Launchpad.fetchBondingCurveInfo
      (SampleFetch.zeroConnection Launchpad.LAUNCHPAD_PROGRAM) 0 = Ok info
    /\ Launchpad.fetchLaunchpadPoolAccount
         (SampleFetch.zeroConnection Launchpad.LAUNCHPAD_PROGRAM) 0 = Ok pool
    /\ Launchpad.LaunchpadPoolAccount.mintDecimalsB pool = Some quoteDecimals
    /\ (Decimal.value (Launchpad.BondingCurveInfo.remainingToRaise info)
        == Decimal.value (Launchpad.BondingCurveInfo.totalFundRaisingB info)
           - Decimal.value (Launchpad.BondingCurveInfo.raisedSoFar info))%Q.
Proof.
  destruct (Launchpad.fetchBondingCurveInfo
              (SampleFetch.zeroConnection Launchpad.LAUNCHPAD_PROGRAM) 0)
    as [info|] eqn:Hi; [|vm_compute in Hi; discriminate Hi].
  destruct (@X16_launchpad_raised_and_remaining
              (SampleFetch.zeroConnection Launchpad.LAUNCHPAD_PROGRAM) 0 info Hi)
    as (pool & dB & Hp & HdB & _ & _ & Hrem).
  exists info, pool, dB. split; [reflexivity|]. split; [exact Hp|].
  split; [exact HdB | exact Hrem].
Defined.

(** X17 for an all-zero launchpad account: both numerators are zero and
    the summary returns. *)
Lemma X17_witness :
  exists info,
    Launchpad.fetchBondingCurveInfo
      (SampleFetch.zeroConnection Launchpad.LAUNCHPAD_PROGRAM) 0 = Ok info
    /\ Launchpad.BondingCurveInfo.curveType info = ConstantProduct.
Proof.
  assert (Hp : Launchpad.fetchLaunchpadPoolAccount
                 (SampleFetch.zeroConnection Launchpad.LAUNCHPAD_PROGRAM) 0
               = Ok (Launchpad.deserializeLaunchpadPool (Buffer.alloc 365)))
    by reflexivity.
  pose proof (@X17_launchpad_info_returns
                (SampleFetch.zeroConnection Launchpad.LAUNCHPAD_PROGRAM) 0
                (Launchpad.deserializeLaunchpadPool (Buffer.alloc 365))
                ConstantProduct 0 0 Hp
                ltac:(vm_compute; reflexivity) ltac:(vm_compute; reflexivity)
                ltac:(vm_compute; reflexivity)) as H.
  assert (Hcond :
            ((currentNumerator
                (Launchpad.deserializeLaunchpadPool (Buffer.alloc 365)) =? 0)
             || negb (currentDenominator
                        (Launchpad.deserializeLaunchpadPool (Buffer.alloc 365))
                      =? 0))
            && ((graduationNumerator
                   (Launchpad.deserializeLaunchpadPool (Buffer.alloc 365))
                   ConstantProduct =? 0)
                || negb (graduationDenominator
                           (Launchpad.deserializeLaunchpadPool (Buffer.alloc 365))
                           ConstantProduct =? 0)) = true)
    by (vm_compute; reflexivity).
  rewrite Hcond in H. destruct H as (info & Hi & Hct & _).
  exists info. split; [exact Hi | exact Hct].
Defined.

(** X18 at the sample world: fetched at time 1000 with the default time
    to live, served from the cache at time 5000 on another connection
    and in a world that is offline. *)
Lemma X18_witness :
  exists d st',
    PoolFetcher.fetchPoolData SampleFetch.world PoolFetcher.initial 7
      (PoolFetcher.ofString "pool") SampleFetch.options 1000 = (Some d, st')
    /\ PoolData.fetchedAt d = 1000
    /\ PoolFetcher.fetchPoolData SampleFetch.offline st' 8
         (PoolFetcher.ofPublicKey 4) SampleFetch.options 5000 = (Some d, st')
    /\ PoolFetcher.getPoolDataFromCache SampleFetch.offline st'
         (PoolFetcher.ofString "pool") 11000 = None.
Proof.
  destruct (PoolFetcher.fetchPoolData SampleFetch.world PoolFetcher.initial 7
              (PoolFetcher.ofString "pool") SampleFetch.options 1000)
    as [[d|] st'] eqn:Hf; [|vm_compute in Hf; discriminate Hf].
  exists d, st'. split; [reflexivity|].
  destruct (@X18_fetch_then_hit SampleFetch.world PoolFetcher.initial st' 7
              (PoolFetcher.ofString "pool") SampleFetch.options 1000 d
              (or_intror eq_refl) Hf) as (Hat & Hhit & Hexp).
  split; [exact Hat|]. split.
  - apply Hhit; [reflexivity | discriminate | vm_compute; reflexivity].
  - apply Hexp; [reflexivity | vm_compute; discriminate].
Defined.

(** X19 at the sample world: a fetch that fails offline leaves the
    cache as it was. *)
Lemma X19_witness :
  exists st',
    PoolFetcher.fetchPoolData SampleFetch.offline PoolFetcher.initial 7
      (PoolFetcher.ofString "pool") SampleFetch.options 1000 = (None, st')
    /\ PoolFetcher.poolCache st' = PoolFetcher.poolCache PoolFetcher.initial.
Proof.
  destruct (PoolFetcher.fetchPoolData SampleFetch.offline PoolFetcher.initial 7
              (PoolFetcher.ofString "pool") SampleFetch.options 1000)
    as [[d|] st'] eqn:Hf; [vm_compute in Hf; discriminate Hf|].
  exists st'. split; [reflexivity|].
  exact (proj1 (@X19_fetch_touches_its_key_only SampleFetch.offline
                  PoolFetcher.initial st' 7 (PoolFetcher.ofString "pool")
                  SampleFetch.options 1000 None Hf) eq_refl).
Defined.

(** X23 at the sample calculator. *)
Lemma X23_witness :
  exists d st',
    LaunchpadQuoteCalculator.getPoolData SampleFetch.world PoolFetcher.initial
      SampleFetch.calculator true 1000 = (Some d, st')
    /\ LaunchpadQuoteCalculator.getPoolData SampleFetch.offline st'
         SampleFetch.calculator false 5000 = (Some d, st')
    /\ LaunchpadQuoteCalculator.getQuoteForExactSol SampleFetch.offline st'
         SampleFetch.calculator (Decimal.mk 1 (-3)) Sample.slippage false 5000
       = (Some (Quote.calculateExactInputQuote
                  (ExactInputQuoteParams.mk d (Decimal.mk 1 (-3))
                     Sample.slippage solToToken)), st').
Proof.
  destruct (LaunchpadQuoteCalculator.getPoolData SampleFetch.world
              PoolFetcher.initial SampleFetch.calculator true 1000)
    as [[d|] st'] eqn:Hf; [|vm_compute in Hf; discriminate Hf].
  exists d, st'. split; [reflexivity|].
  destruct (@X23_calculator_within_ttl SampleFetch.world SampleFetch.offline
              PoolFetcher.initial st' SampleFetch.calculator 1000 5000 d
              Hf eq_refl ltac:(vm_compute; reflexivity))
    as (Hget & Hquotes & _).
  split; [exact Hget|].
  exact (proj1 (Hquotes (Decimal.mk 1 (-3)) Sample.slippage)).
Defined.
